(** * Authentication and session revocation: a shallow embedding

    The development follows the NestJS sources of the authentication core:
    the expiry-string parser ([parseExpiryToSeconds]), the Redis-backed
    [TokenBlacklistService], the mail collaborator ([EmailQueue],
    [EmailService]), the two request guards ([AuthGuard], [AdminAuthGuard])
    and the two flow services ([UserAuthService], [AdminAuthService]).

    Asynchronous methods are functions in a state-and-exception monad over a
    [World] holding the Redis store, the database tables, the mail queue, the
    clock and a trace of the calls made to collaborators.  The JWT library,
    bcrypt, base64 decoding and the configuration are an [Env] of functions.
    Logger calls have no influence on control flow and are left out. *)

From stdpp Require Import gmap strings list pretty.
From Stdlib Require Import ZArith Ascii String Lia.

Open Scope Z_scope.

(** ** JavaScript string helpers *)

Module Js.

Definition ascii_lower (c : ascii) : ascii :=
  let n := N_of_ascii c in
  if ((65 <=? n) && (n <=? 90))%N then ascii_of_N (n + 32) else c.

(** [String.prototype.toLowerCase], on the ASCII letters; other bytes are
    kept, which is enough for comparisons with ASCII literals. *)
Fixpoint toLowerCase (s : string) : string :=
  match s with
  | EmptyString => EmptyString
  | String c s' => String (ascii_lower c) (toLowerCase s')
  end.

(** [s.split(sep)] for a one-character separator: never the empty array. *)
Fixpoint split (sep : ascii) (s : string) : list string :=
  match s with
  | EmptyString => [EmptyString]
  | String c s' =>
      if Ascii.eqb c sep then EmptyString :: split sep s'
      else match split sep s' with
           | w :: ws => String c w :: ws
           | [] => [String c EmptyString]
           end
  end.

(** Truthiness of a string: only the empty string is falsy. *)
Definition truthy (s : string) : bool := negb (String.eqb s "").

(** Truthiness of a possibly [undefined] string. *)
Definition truthy_opt (o : option string) : bool :=
  match o with
  | Some s => truthy s
  | None => false
  end.

Definition is_digit (c : ascii) : bool :=
  let n := N_of_ascii c in ((48 <=? n) && (n <=? 57))%N.

Definition digit_value (c : ascii) : Z := Z.of_N (N_of_ascii c) - 48.

(** The integer that a string of decimal digits denotes. *)
Definition decimal (s : string) : Z :=
  fold_left (fun acc c => acc * 10 + digit_value c) (list_ascii_of_string s) 0.

(** The JavaScript numbers that arithmetic on expiry times meets: the doubles
    that are integers, [Infinity] and [NaN].  Elsewhere (clock readings,
    remaining lifetimes) a number is the integer it denotes. *)
Inductive number : Type :=
| Int (z : Z)
| Infinity
| NaN.

(** The double nearest to the integer [n >= 0], ties to even: an integer up
    to 2^53 is a double; beyond, a double keeps the 53 leading bits, and
    what rounds to 2^1024 or more is [Infinity]. *)
Definition nearest_double (n : Z) : number :=
  if n <=? 2 ^ 53 then Int n
  else
    let e := Z.log2 n - 52 in
    let q := n / 2 ^ e in
    let r := n mod 2 ^ e in
    let half := 2 ^ (e - 1) in
    let q' :=
      if r <? half then q
      else if half <? r then q + 1
      else if Z.even q then q else q + 1 in
    if 2 ^ 1024 <=? q' * 2 ^ e then Infinity else Int (q' * 2 ^ e).

(** [parseInt(s, 10)] on a string of decimal digits: the double nearest to
    the integer the digits denote, [NaN] when there is no digit.  (Beyond
    20 significant digits ECMAScript lets an implementation round the
    digits that follow; V8 rounds to nearest, as here.) *)
Definition parseInt10 (s : string) : number :=
  match s with
  | EmptyString => NaN
  | _ => nearest_double (decimal s)
  end.

(** [a * b] on numbers that are not negative: the double nearest to the
    product. *)
Definition mul (a b : number) : number :=
  match a, b with
  | Int x, Int y => nearest_double (x * y)
  | NaN, _ | _, NaN => NaN
  | Infinity, Int y => if y =? 0 then NaN else Infinity
  | Int x, Infinity => if x =? 0 then NaN else Infinity
  | Infinity, Infinity => Infinity
  end.

(** A possibly [undefined] string inside a template literal. *)
Definition interpolate (o : option string) : string := default "undefined" o.

(** [s.padStart(n, c)]. *)
Definition padStart (n : nat) (c : ascii) (s : string) : string :=
  string_of_list_ascii (repeat c (n - String.length s)) +:+ s.

(** [s.charAt(i)]: the empty string out of range. *)
Definition charAt (i : Z) (s : string) : string :=
  if i <? 0 then EmptyString
  else match String.get (Z.to_nat i) s with
       | Some c => String c EmptyString
       | None => EmptyString
       end.

(** [a.includes(x)] on an array of strings. *)
Definition includes (a : list string) (x : string) : bool :=
  existsb (String.eqb x) a.

End Js.

Coercion Js.Int : Z >-> Js.number.

(** ** src/constants *)

Definition OTP_EXPIRATION_TIME : Z := 5.
Definition DEFAULT_OTP : string := "111111".
Definition DEFAULT_TOKEN_EXPIRY_SECONDS : Z := 7 * 24 * 60 * 60.

Module ErrorMessages.
Definition INVALID_JWT_TOKEN_MESSAGE : string := "Invalid token".
Definition TOKEN_EXPIRED_MESSAGE : string := "Token expired".
Definition ADMIN_SUSPENDED_MESSAGE : string := "Admin suspended".
End ErrorMessages.

(** ** src/utils/time.utils.ts *)

Module TimeUtils.

(** The greedy digit prefix of a string and what follows it. *)
Fixpoint span_digits (s : string) : string * string :=
  match s with
  | EmptyString => (EmptyString, EmptyString)
  | String c s' =>
      if Js.is_digit c
      then let '(ds, rest) := span_digits s' in (String c ds, rest)
      else (EmptyString, s)
  end.

(** The class [[smhdw]] under the [i] flag. *)
Definition is_unit (c : ascii) : bool :=
  existsb (Ascii.eqb c) (list_ascii_of_string "smhdwSMHDW").

(** [/^(\d+)([smhdw])$/i.exec(expiry)]: the two capture groups, or [None]
    for [null].  Digits and unit letters are disjoint, so the greedy digit
    run is the only candidate for the first group. *)
Definition exec_expiry (expiry : string) : option (string * string) :=
  let '(ds, rest) := span_digits expiry in
  match ds, rest with
  | String _ _, String u EmptyString =>
      if is_unit u then Some (ds, String u EmptyString) else None
  | _, _ => None
  end.

Definition unitMultipliers (unit : string) : option Z :=
  if String.eqb unit "s" then Some 1
  else if String.eqb unit "m" then Some 60
  else if String.eqb unit "h" then Some (60 * 60)
  else if String.eqb unit "d" then Some (60 * 60 * 24)
  else if String.eqb unit "w" then Some (60 * 60 * 24 * 7)
  else None.

Definition parseExpiryToSeconds (expiry : string) : Js.number :=
  match exec_expiry expiry with
  | None => DEFAULT_TOKEN_EXPIRY_SECONDS
  | Some (m1, m2) =>
      let value := Js.parseInt10 m1 in
      let unit := Js.toLowerCase m2 in
      Js.mul value (default DEFAULT_TOKEN_EXPIRY_SECONDS (unitMultipliers unit))
  end.

End TimeUtils.

(** ** Exceptions *)

(** The three Nest HTTP exceptions the core throws, and any other JavaScript
    error ([TokenExpiredError], [JsonWebTokenError], a Redis or Prisma
    failure, a [TypeError]) with its [name]. *)
Inductive Exn : Type :=
| UnauthorizedException (message : string)
| BadRequestException (message : string)
| NotFoundException (message : string)
| JsError (name : string) (message : string).

(** [err.name] *)
Definition exn_name (e : Exn) : string :=
  match e with
  | UnauthorizedException _ => "UnauthorizedException"
  | BadRequestException _ => "BadRequestException"
  | NotFoundException _ => "NotFoundException"
  | JsError n _ => n
  end.

Definition exn_message (e : Exn) : string :=
  match e with
  | UnauthorizedException m | BadRequestException m
  | NotFoundException m | JsError _ m => m
  end.

(** The HTTP status Nest answers with: the exception's own status, and 500
    for an error that is not an HTTP exception. *)
Definition http_status (e : Exn) : Z :=
  match e with
  | UnauthorizedException _ => 401
  | BadRequestException _ => 400
  | NotFoundException _ => 404
  | JsError _ _ => 500
  end.

(** [err instanceof UnauthorizedException] *)
Definition is_unauthorized (e : Exn) : bool :=
  match e with UnauthorizedException _ => true | _ => false end.

(** ** Data model *)

Record User : Type := {
  user_id : string;
  user_email : string;
  user_password : option string;
  user_firstName : string;
  user_lastName : string;
  user_role : string;
  user_status : string;
  user_isDeleted : bool;
  user_emailVerified : bool
}.

Record Admin : Type := {
  admin_id : string;
  admin_email : string;
  admin_password : string;
  admin_firstName : string;
  admin_lastName : string;
  admin_role : string;
  admin_status : string;
  admin_isDeleted : bool;
  admin_isSuspended : bool
}.

(** A row of [passwordReset], unique on [(email, type)]. *)
Record PasswordReset : Type := {
  pr_code : string;
  pr_expiresAt : Z;
  pr_attempts : Z;
  pr_verifiedAt : option Z
}.

(** A row of [emailVerification], unique on [(email, type)]. *)
Record EmailVerification : Type := {
  ev_code : string;
  ev_expiresAt : Z;
  ev_attempts : Z
}.

(** Modelled from the spec: the column default of [attempts] in the Prisma
    schema, which is not among the sources; the spec has a fresh record start
    with [attempts] at 0. *)
Definition SCHEMA_DEFAULT_ATTEMPTS : Z := 0.

(** The claims of a token. [sub] and [exp] may be absent. *)
Record JwtPayload : Type := {
  sub : option string;
  jwt_email : string;
  jwt_role : string;
  exp : option Z;
  purpose : option string
}.

Record EmailJob : Type := {
  recipient : string;
  subject : string;
  template : string;
  ctx_code : string;
  ctx_userName : string
}.

Inductive RedisCommand : Type :=
| GET (key : string)
| SETEX (key : string) (seconds : Z) (value : string)
| DEL (key : string).

(** Calls made to collaborators, most recent last. *)
Inductive Event : Type :=
| EvRedis (c : RedisCommand)
| EvJwtVerify (token secret : string)
| EvJwtDecode (token : string)
| EvJwtSign (subject secret : string)
| EvBcryptCompare (plain hash : string)
| EvSendEmailVerification (email code userName : string)
| EvSendUserPasswordResetCode (email code userName : string)
| EvSendAdminPasswordResetCode (email code userName requestIP : string)
| EvQueueAdd (job : EmailJob).

Record World : Type := {
  redis : gmap string (Z * string);
  redis_throws : RedisCommand -> bool;
  users : list User;
  admins : list Admin;
  passwordResets : gmap (string * string) PasswordReset;
  emailVerifications : gmap (string * string) EmailVerification;
  emailQueue : list EmailJob;
  queue_throws : bool;
  nowMs : Z;
  entropy : list Z;
  trace : list Event
}.

(** The collaborators that are pure from the point of view of the core. *)
Record Env : Type := {
  JWT_SECRET : string;
  JWT_REFRESH_SECRET : string;
  JWT_EXPIRY_TIME : string;
  JWT_REFRESH_EXPIRY_TIME : string;
  BASIC_AUTH_ENABLED : string;
  IS_DEVELOPMENT : bool;
  jwt_verify : string -> string -> Exn + JwtPayload;
  jwt_decode : string -> option JwtPayload;
  jwt_sign : JwtPayload -> string -> string -> string;
  bcrypt_compare : string -> string -> bool;
  bcrypt_hash : string -> string;
  base64_decode : string -> string
}.

(** ** The state-and-exception monad of asynchronous methods *)

Inductive Outcome (A : Type) : Type :=
| Returned (a : A)
| Thrown (e : Exn).

Arguments Returned {A} a.
Arguments Thrown {A} e.

Definition M (A : Type) : Type := World -> Outcome A * World.

Definition ret {A} (a : A) : M A := fun w => (Returned a, w).

Definition throw {A} (e : Exn) : M A := fun w => (Thrown e, w).

Definition bind {A B} (m : M A) (k : A -> M B) : M B :=
  fun w =>
    match m w with
    | (Returned a, w') => k a w'
    | (Thrown e, w') => (Thrown e, w')
    end.

(** [try { body } catch (e) { handler e }]: effects made before the throw
    stay. *)
Definition try_catch {A} (body : M A) (handler : Exn -> M A) : M A :=
  fun w =>
    match body w with
    | (Returned a, w') => (Returned a, w')
    | (Thrown e, w') => handler e w'
    end.

Notation "'let!' x ':=' m 'in' k" := (bind m (fun x => k))
  (at level 10, x name, m at level 100, k at level 200).
Notation "m '>>' k" := (bind m (fun _ => k))
  (at level 90, right associativity).

(** [if (c) { throw e }] *)
Definition throw_if (c : bool) (e : Exn) : M unit :=
  if c then throw e else ret tt.

Definition read {A} (f : World -> A) : M A := fun w => (Returned (f w), w).

Definition emit (ev : Event) : M unit :=
  fun w =>
    (Returned tt,
     {| redis := redis w; redis_throws := redis_throws w; users := users w;
        admins := admins w; passwordResets := passwordResets w;
        emailVerifications := emailVerifications w;
        emailQueue := emailQueue w; queue_throws := queue_throws w;
        nowMs := nowMs w; entropy := entropy w;
        trace := trace w ++ [ev] |}).

Definition set_redis (r : gmap string (Z * string)) : M unit :=
  fun w =>
    (Returned tt,
     {| redis := r; redis_throws := redis_throws w; users := users w;
        admins := admins w; passwordResets := passwordResets w;
        emailVerifications := emailVerifications w;
        emailQueue := emailQueue w; queue_throws := queue_throws w;
        nowMs := nowMs w; entropy := entropy w; trace := trace w |}).

Definition set_passwordResets (t : gmap (string * string) PasswordReset)
  : M unit :=
  fun w =>
    (Returned tt,
     {| redis := redis w; redis_throws := redis_throws w; users := users w;
        admins := admins w; passwordResets := t;
        emailVerifications := emailVerifications w;
        emailQueue := emailQueue w; queue_throws := queue_throws w;
        nowMs := nowMs w; entropy := entropy w; trace := trace w |}).

Definition set_emailVerifications
  (t : gmap (string * string) EmailVerification) : M unit :=
  fun w =>
    (Returned tt,
     {| redis := redis w; redis_throws := redis_throws w; users := users w;
        admins := admins w; passwordResets := passwordResets w;
        emailVerifications := t;
        emailQueue := emailQueue w; queue_throws := queue_throws w;
        nowMs := nowMs w; entropy := entropy w; trace := trace w |}).

Definition set_emailQueue (q : list EmailJob) : M unit :=
  fun w =>
    (Returned tt,
     {| redis := redis w; redis_throws := redis_throws w; users := users w;
        admins := admins w; passwordResets := passwordResets w;
        emailVerifications := emailVerifications w;
        emailQueue := q; queue_throws := queue_throws w;
        nowMs := nowMs w; entropy := entropy w; trace := trace w |}).

Definition set_entropy (l : list Z) : M unit :=
  fun w =>
    (Returned tt,
     {| redis := redis w; redis_throws := redis_throws w; users := users w;
        admins := admins w; passwordResets := passwordResets w;
        emailVerifications := emailVerifications w;
        emailQueue := emailQueue w; queue_throws := queue_throws w;
        nowMs := nowMs w; entropy := l; trace := trace w |}).

Definition set_users (l : list User) : M unit :=
  fun w =>
    (Returned tt,
     {| redis := redis w; redis_throws := redis_throws w; users := l;
        admins := admins w; passwordResets := passwordResets w;
        emailVerifications := emailVerifications w;
        emailQueue := emailQueue w; queue_throws := queue_throws w;
        nowMs := nowMs w; entropy := entropy w; trace := trace w |}).

Definition set_admins (l : list Admin) : M unit :=
  fun w =>
    (Returned tt,
     {| redis := redis w; redis_throws := redis_throws w; users := users w;
        admins := l; passwordResets := passwordResets w;
        emailVerifications := emailVerifications w;
        emailQueue := emailQueue w; queue_throws := queue_throws w;
        nowMs := nowMs w; entropy := entropy w; trace := trace w |}).

(** ** Collaborators *)

(** The node-redis client. A command either throws or acts on the store. *)
Module RedisClient.

Definition connection_error : Exn := JsError "Error" "The client is closed".

Definition reply_error : Exn :=
  JsError "ErrorReply" "ERR value is not an integer or out of range".

Definition get (key : string) : M (option string) :=
  emit (EvRedis (GET key)) >>
  let! broken := read (fun w => redis_throws w (GET key)) in
  if (broken : bool) then throw connection_error
  else read (fun w => snd <$> redis w !! key).

(** The expiry goes out as text, and Redis refuses one that is not an
    integer ([Infinity], [NaN]). *)
Definition setEx (key : string) (seconds : Js.number) (value : string)
  : M unit :=
  match seconds with
  | Js.Int seconds =>
      emit (EvRedis (SETEX key seconds value)) >>
      let! broken := read (fun w => redis_throws w (SETEX key seconds value)) in
      if (broken : bool) then throw connection_error
      else
        let! r := read redis in
        set_redis (<[key := (seconds, value)]> r)
  | _ => throw reply_error
  end.

Definition del (key : string) : M unit :=
  emit (EvRedis (DEL key)) >>
  let! broken := read (fun w => redis_throws w (DEL key)) in
  if (broken : bool) then throw connection_error
  else
    let! r := read redis in
    set_redis (delete key r).

End RedisClient.

(** [Date.now()] *)
Definition Date_now : M Z := read nowMs.

(** [crypto.randomInt(min, max)]: an integer in [[min, max)], drawn from the
    world's entropy. *)
Definition randomInt (min max : Z) : M Z :=
  let! l := read entropy in
  match l with
  | [] => ret min
  | r :: l' => set_entropy l' >> ret (min + r `mod` (max - min))
  end.

(** The Prisma client. The database is taken to be available: its calls do
    not throw, except [update] and [delete] on a row that does not exist. *)
Module Prisma.

Definition record_not_found : Exn :=
  JsError "PrismaClientKnownRequestError" "Record to update not found.".

Definition user_findUnique_id (id : string) : M (option User) :=
  read (fun w => find (fun u => String.eqb (user_id u) id) (users w)).

Definition user_findUnique_email (email : string) : M (option User) :=
  read (fun w => find (fun u => String.eqb (user_email u) email) (users w)).

Definition admin_findUnique_id (id : string) : M (option Admin) :=
  read (fun w => find (fun a => String.eqb (admin_id a) id) (admins w)).

Definition validation_error : Exn :=
  JsError "PrismaClientValidationError"
    "Argument `where` needs at least one argument.".

(** [findUnique({ where: { id } })] with an [id] that may be [undefined]. *)
Definition user_findUnique_where_id (id : option string) : M (option User) :=
  match id with
  | Some id => user_findUnique_id id
  | None => throw validation_error
  end.

Definition admin_findUnique_where_id (id : option string)
  : M (option Admin) :=
  match id with
  | Some id => admin_findUnique_id id
  | None => throw validation_error
  end.

Definition admin_findUnique_email (email : string) : M (option Admin) :=
  read (fun w => find (fun a => String.eqb (admin_email a) email) (admins w)).

Definition passwordReset_findUnique (email type : string)
  : M (option PasswordReset) :=
  read (fun w => passwordResets w !! (email, type)).

Definition passwordReset_upsert (email type : string)
  (create : PasswordReset) (update : PasswordReset -> PasswordReset)
  : M unit :=
  let! t := read passwordResets in
  match t !! (email, type) with
  | Some r => set_passwordResets (<[(email, type) := update r]> t)
  | None => set_passwordResets (<[(email, type) := create]> t)
  end.

Definition passwordReset_update (email type : string)
  (data : PasswordReset -> PasswordReset) : M unit :=
  let! t := read passwordResets in
  match t !! (email, type) with
  | Some r => set_passwordResets (<[(email, type) := data r]> t)
  | None => throw record_not_found
  end.

Definition passwordReset_delete (email type : string) : M unit :=
  let! t := read passwordResets in
  match t !! (email, type) with
  | Some _ => set_passwordResets (delete (email, type) t)
  | None => throw record_not_found
  end.

Definition emailVerification_upsert (email type : string)
  (create : EmailVerification)
  (update : EmailVerification -> EmailVerification) : M unit :=
  let! t := read emailVerifications in
  match t !! (email, type) with
  | Some r => set_emailVerifications (<[(email, type) := update r]> t)
  | None => set_emailVerifications (<[(email, type) := create]> t)
  end.

(** The rows of a table with the first one that satisfies [p] replaced by
    its image under [f]: an update through a unique column. *)
Fixpoint update_first {A} (p : A -> bool) (f : A -> A) (l : list A) : list A :=
  match l with
  | [] => []
  | x :: l' => if p x then f x :: l' else x :: update_first p f l'
  end.

Definition user_update (id : string) (data : User -> User) : M unit :=
  let! l := read users in
  match find (fun u => String.eqb (user_id u) id) l with
  | Some _ =>
      set_users (update_first (fun u => String.eqb (user_id u) id) data l)
  | None => throw record_not_found
  end.

Definition admin_update (id : string) (data : Admin -> Admin) : M unit :=
  let! l := read admins in
  match find (fun a => String.eqb (admin_id a) id) l with
  | Some _ =>
      set_admins (update_first (fun a => String.eqb (admin_id a) id) data l)
  | None => throw record_not_found
  end.

(** [update] answers the updated row. *)
Definition admin_update_returning (id : string) (data : Admin -> Admin)
  : M Admin :=
  let! l := read admins in
  match find (fun a => String.eqb (admin_id a) id) l with
  | Some a =>
      set_admins (update_first (fun a => String.eqb (admin_id a) id) data l) >>
      ret (data a)
  | None => throw record_not_found
  end.

Definition emailVerification_findUnique (email type : string)
  : M (option EmailVerification) :=
  read (fun w => emailVerifications w !! (email, type)).

Definition emailVerification_delete (email type : string) : M unit :=
  let! t := read emailVerifications in
  match t !! (email, type) with
  | Some _ => set_emailVerifications (delete (email, type) t)
  | None => throw record_not_found
  end.

End Prisma.

(** ** src/shared/security/token-blacklist.service.ts *)

Module TokenBlacklistService.

Definition blacklistToken (token : string) (expiresInSeconds : Js.number)
  : M unit :=
  try_catch
    (let key := "blacklist:" +:+ token in
     RedisClient.setEx key expiresInSeconds "1")
    (fun error => throw error).

Definition isTokenBlacklisted (token : string) : M bool :=
  try_catch
    (let key := "blacklist:" +:+ token in
     let! result := RedisClient.get key in
     ret (bool_decide (result <> None)))
    (fun _ => ret false).

Definition isUserBlacklisted (userId : string) : M bool :=
  try_catch
    (let key := "blacklist:user:" +:+ userId in
     let! result := RedisClient.get key in
     ret (bool_decide (result <> None)))
    (fun _ => ret false).

Definition isAdminBlacklisted (adminId : string) : M bool :=
  try_catch
    (let key := "blacklist:admin:" +:+ adminId in
     let! result := RedisClient.get key in
     ret (bool_decide (result <> None)))
    (fun _ => ret false).

Definition blacklistUserTokens (userId : string)
  (expiresInSeconds : Js.number) : M unit :=
  try_catch
    (let key := "blacklist:user:" +:+ userId in
     RedisClient.setEx key expiresInSeconds "1")
    (fun error => throw error).

Definition removeUserFromBlacklist (userId : string) : M unit :=
  try_catch
    (let key := "blacklist:user:" +:+ userId in
     RedisClient.del key)
    (fun error => throw error).

Definition blacklistAdminTokens (adminId : string)
  (expiresInSeconds : Js.number) : M unit :=
  try_catch
    (let key := "blacklist:admin:" +:+ adminId in
     RedisClient.setEx key expiresInSeconds "1")
    (fun error => throw error).

Definition removeAdminFromBlacklist (adminId : string) : M unit :=
  try_catch
    (let key := "blacklist:admin:" +:+ adminId in
     RedisClient.del key)
    (fun error => throw error).

End TokenBlacklistService.

(** ** src/shared/emails *)

Module EMAIL_TEMPLATES.
Definition EMAIL_VERIFICATION : string := "email-verification".
Definition PASSWORD_RESET : string := "password-reset".
End EMAIL_TEMPLATES.

Module EMAIL_SUBJECTS.
Definition EMAIL_VERIFICATION : string := "Verify Your Email Address".
Definition CREDENTIAL_RESET_USER : string := "Reset Your Password".
Definition CREDENTIAL_RESET_ADMIN : string := "Reset Your Password - Admin".
End EMAIL_SUBJECTS.

Module EmailQueue.

(** The Bull queue's [add]. *)
Definition queue_add (job : EmailJob) : M unit :=
  emit (EvQueueAdd job) >>
  let! broken := read queue_throws in
  if (broken : bool) then throw (JsError "Error" "Connection is closed.")
  else
    let! q := read emailQueue in
    set_emailQueue (q ++ [job]).

Definition addEmailToQueue (emailData : EmailJob) : M unit :=
  try_catch (queue_add emailData) (fun _ => ret tt).

End EmailQueue.

Module EmailService.

Definition shouldSkipEmail (recipientEmail : string) : M bool :=
  let! user := Prisma.user_findUnique_email recipientEmail in
  match user with
  | Some u =>
      if user_isDeleted u || String.eqb (user_status u) "DELETED"
      then ret true
      else ret false
  | None => ret false
  end.

Definition sendEmail (job : EmailJob) : M unit :=
  let! skip := shouldSkipEmail (recipient job) in
  if (skip : bool) then ret tt
  else EmailQueue.addEmailToQueue job.

Definition sendAdminPasswordResetCode (email code userName requestIP : string)
  : M unit :=
  emit (EvSendAdminPasswordResetCode email code userName requestIP) >>
  sendEmail {| recipient := email;
               subject := EMAIL_SUBJECTS.CREDENTIAL_RESET_ADMIN;
               template := EMAIL_TEMPLATES.PASSWORD_RESET;
               ctx_code := code; ctx_userName := userName |}.

Definition sendEmailVerification (email code userName : string) : M unit :=
  emit (EvSendEmailVerification email code userName) >>
  sendEmail {| recipient := email;
               subject := EMAIL_SUBJECTS.EMAIL_VERIFICATION;
               template := EMAIL_TEMPLATES.EMAIL_VERIFICATION;
               ctx_code := code; ctx_userName := userName |}.

Definition sendUserPasswordResetCode (email code userName : string)
  : M unit :=
  emit (EvSendUserPasswordResetCode email code userName) >>
  sendEmail {| recipient := email;
               subject := EMAIL_SUBJECTS.CREDENTIAL_RESET_USER;
               template := EMAIL_TEMPLATES.PASSWORD_RESET;
               ctx_code := code; ctx_userName := userName |}.

End EmailService.

(** ** The JWT service and bcrypt, with their calls traced *)

Section Collaborators.

Variable env : Env.

(** [jwtService.verify] / [verifyAsync]: the payload, or the library's error
    ([TokenExpiredError], [JsonWebTokenError], ...) thrown. *)
Definition jwtService_verify (token secret : string) : M JwtPayload :=
  emit (EvJwtVerify token secret) >>
  match jwt_verify env token secret with
  | inl e => throw e
  | inr payload => ret payload
  end.

(** [jwtService.decode]: no verification; [None] is [null]. *)
Definition jwtService_decode (token : string) : M (option JwtPayload) :=
  emit (EvJwtDecode token) >> ret (jwt_decode env token).

Definition jwtService_sign (payload : JwtPayload) (secret expiresIn : string)
  : M string :=
  emit (EvJwtSign (default "" (sub payload)) secret) >>
  ret (jwt_sign env payload secret expiresIn).

Definition bcrypt_compare_call (plain hash : string) : M bool :=
  emit (EvBcryptCompare plain hash) >> ret (bcrypt_compare env plain hash).

End Collaborators.

(** ** src/shared/auth/auth.guard.ts *)

Module AuthGuard.

Section Guard.

Variable env : Env.

Definition accessTokenSecret : string := JWT_SECRET env.

Definition basicAuthEnabled : bool :=
  String.eqb (BASIC_AUTH_ENABLED env) "true".

(** The function returns what it attaches to the request as [req.user]:
    the identity's id and role. *)
Definition authenticateBasicAuth (authValue : option string)
  : M (string * string) :=
  try_catch
    (let! decoded :=
       match authValue with
       | Some v => ret (base64_decode env v)
       | None =>
           throw (JsError "TypeError"
                    "The first argument must be of type string")
       end in
     let parts := Js.split ":" decoded in
     let email := parts !! 0%nat in
     let password := parts !! 1%nat in
     throw_if (negb (Js.truthy_opt email) || negb (Js.truthy_opt password))
       (UnauthorizedException "Invalid Basic Auth credentials format.") >>
     let! user := Prisma.user_findUnique_email (default "" email) in
     match user with
     | None => throw (UnauthorizedException "User not found.")
     | Some user =>
         throw_if (user_isDeleted user || String.eqb (user_status user) "DELETED")
           (UnauthorizedException "This account does not exist.") >>
         throw_if (negb (String.eqb (user_status user) "ACTIVE"))
           (UnauthorizedException "You can't login at the moment.") >>
         let! isValidPassword :=
           bcrypt_compare_call env (default "" password)
             (default "" (user_password user)) in
         throw_if (negb isValidPassword)
           (BadRequestException "Wrong Credentials, try again.") >>
         ret (user_id user, user_role user)
     end)
    (fun _ =>
       throw (UnauthorizedException "Basic Auth authentication failed.")).

(** [authorization] is [req.headers['authorization']]. *)
Definition authenticateUser (authorization : option string)
  : M (string * string) :=
  if negb (Js.truthy_opt authorization) then
    throw (UnauthorizedException "Authorization header is missing or invalid.")
  else
    let bearerHeader := default "" authorization in
    let parts := Js.split " " bearerHeader in
    let authType := default "" (parts !! 0%nat) in
    let authValue := parts !! 1%nat in
    if basicAuthEnabled && String.eqb (Js.toLowerCase authType) "basic" then
      authenticateBasicAuth authValue
    else
      throw_if (negb (String.eqb (Js.toLowerCase authType) "bearer")
                || negb (Js.truthy_opt authValue))
        (UnauthorizedException "Invalid authorization type.") >>
      let authValue := default "" authValue in
      let! isBlacklisted := TokenBlacklistService.isTokenBlacklisted authValue in
      throw_if isBlacklisted (UnauthorizedException "Token has been revoked.") >>
      try_catch
        (let! payload := jwtService_verify env authValue accessTokenSecret in
         let id := sub payload in
         throw_if (negb (Js.truthy_opt id))
           (UnauthorizedException "Invalid token: ID not present.") >>
         let id := default "" id in
         let! isUserBlacklisted := TokenBlacklistService.isUserBlacklisted id in
         throw_if isUserBlacklisted
           (UnauthorizedException "User tokens have been revoked.") >>
         let! user := Prisma.user_findUnique_id id in
         match user with
         | None => throw (UnauthorizedException "User not found.")
         | Some user =>
             throw_if (user_isDeleted user
                       || String.eqb (user_status user) "DELETED")
               (UnauthorizedException "This account does not exist.") >>
             throw_if (negb (String.eqb (user_status user) "ACTIVE"))
               (UnauthorizedException "You can't login at the moment.") >>
             ret (user_id user, user_role user)
         end)
        (fun err =>
           if String.eqb (exn_name err) "TokenExpiredError" then
             throw (UnauthorizedException "Token expired.")
           else if String.eqb (exn_name err) "JsonWebTokenError" then
             throw (UnauthorizedException "Malformed token.")
           else
             throw (UnauthorizedException "Authentication failed.")).

(** [user] is [req.user]; [requiredRoles] is the metadata 'roles' of the
    handler or class, [None] when there is none. *)
Definition authorizeUser (user : option (string * string))
  (requiredRoles : option (list string)) : M bool :=
  match requiredRoles with
  | None | Some [] => ret true
  | Some requiredRoles =>
      match user with
      | Some (id, role) =>
          if negb (Js.includes requiredRoles role) then
            throw (UnauthorizedException "Insufficient permissions.")
          else ret true
      | None => throw (UnauthorizedException "Insufficient permissions.")
      end
  end.

Definition canActivate (authorization : option string)
  (requiredRoles : option (list string)) : M bool :=
  let! user := authenticateUser authorization in
  authorizeUser (Some user) requiredRoles.

End Guard.

End AuthGuard.

(** ** The admin guard *)

Module AdminAuthGuard.

Section Guard.

Variable env : Env.

Definition accessTokenSecret : string := JWT_SECRET env.

(** The function returns what it attaches to the request as [req.admin]. *)
Definition authenticateAdmin (authorization : option string)
  : M (string * string) :=
  if negb (Js.truthy_opt authorization) then
    throw (UnauthorizedException "Authorization header is missing or invalid")
  else
    let bearerHeader := default "" authorization in
    let parts := Js.split " " bearerHeader in
    let authType := default "" (parts !! 0%nat) in
    let authValue := parts !! 1%nat in
    throw_if (negb (String.eqb (Js.toLowerCase authType) "bearer")
              || negb (Js.truthy_opt authValue))
      (UnauthorizedException "Invalid authorization type") >>
    let authValue := default "" authValue in
    let! isBlacklisted := TokenBlacklistService.isTokenBlacklisted authValue in
    throw_if isBlacklisted (UnauthorizedException "Token has been revoked.") >>
    try_catch
      (let! payload := jwtService_verify env authValue accessTokenSecret in
       let adminId := sub payload in
       throw_if (negb (Js.truthy_opt adminId))
         (UnauthorizedException ErrorMessages.INVALID_JWT_TOKEN_MESSAGE) >>
       let adminId := default "" adminId in
       let! isAdminBlacklisted :=
         TokenBlacklistService.isAdminBlacklisted adminId in
       throw_if isAdminBlacklisted
         (UnauthorizedException "Admin tokens have been revoked.") >>
       let! admin := Prisma.admin_findUnique_id adminId in
       match admin with
       | None => throw (UnauthorizedException "Admin not found")
       | Some admin =>
           throw_if (admin_isDeleted admin)
             (UnauthorizedException "Admin not found") >>
           throw_if (admin_isSuspended admin)
             (UnauthorizedException ErrorMessages.ADMIN_SUSPENDED_MESSAGE) >>
           ret (admin_id admin, admin_role admin)
       end)
      (fun err =>
         if String.eqb (exn_name err) "TokenExpiredError" then
           throw (UnauthorizedException ErrorMessages.TOKEN_EXPIRED_MESSAGE)
         else if String.eqb (exn_name err) "JsonWebTokenError" then
           throw (BadRequestException ErrorMessages.INVALID_JWT_TOKEN_MESSAGE)
         else if is_unauthorized err then
           throw err
         else
           throw (UnauthorizedException "Authentication failed")).

(** [admin] is [req.admin]; [requiredRoles] is the metadata 'roles' of the
    handler. *)
Definition authorizeAdmin (admin : option (string * string))
  (requiredRoles : option (list string)) : M bool :=
  match requiredRoles with
  | None | Some [] => ret true
  | Some requiredRoles =>
      let adminRole := snd <$> admin in
      if negb (Js.truthy_opt adminRole)
         || negb (Js.includes requiredRoles (default "" adminRole))
      then throw (UnauthorizedException "Insufficient permissions")
      else ret true
  end.

Definition canActivate (authorization : option string)
  (requiredRoles : option (list string)) : M bool :=
  let! admin := authenticateAdmin authorization in
  authorizeAdmin (Some admin) requiredRoles.

End Guard.

End AdminAuthGuard.

(** ** Response envelopes (src/helpers/success-response.ts) *)

Record Response (A : Type) : Type := {
  status : string;
  message : string;
  data : A
}.

Arguments status {A} _.
Arguments message {A} _.
Arguments data {A} _.

Definition SuccessResponse {A} (msg : string) (d : A) : Response A :=
  {| status := "success"; message := msg; data := d |}.

(** The type of a [null] payload. *)
Inductive Null : Type := null.

Record Tokens : Type := {
  accessToken : string;
  refreshToken : string
}.

(** [data.user] of a login response; [id] is absent from the answer given to
    an unverified account. *)
Record LoginUser : Type := {
  lu_id : option string;
  lu_email : string;
  lu_firstName : string;
  lu_lastName : string;
  lu_role : string
}.

(** [data] of a login response; the field [emailVerified] is present only in
    the answer given to an unverified account; [tokens] may be [null]. *)
Record LoginData : Type := {
  ld_user : LoginUser;
  ld_emailVerified : option bool;
  ld_tokens : option Tokens
}.

Record ResetCodeData : Type := {
  resetToken : string;
  rc_message : string
}.

(** [Math.max(0, payload.exp - now)]; [None] is [NaN], from an absent
    [exp]. *)
Definition remainingTTL (payload : JwtPayload) (now : Z) : option Z :=
  match exp payload with
  | Some e => Some (Z.max 0 (e - now))
  | None => None
  end.

(** [ttl > 0]; false on [NaN]. *)
Definition positive (ttl : option Z) : bool :=
  match ttl with
  | Some t => 0 <? t
  | None => false
  end.

(** ** The user flows (UserAuthService) *)

Module UserAuthService.

Section Service.

Variable env : Env.

Definition PASSWORD_RESET_TYPE : string := "USER".
Definition MAX_PASSWORD_RESET_ATTEMPTS : Z := 3.

Definition generateTokens (userId email role : string) : M Tokens :=
  let payload :=
    {| sub := Some userId; jwt_email := email; jwt_role := role;
       exp := None; purpose := None |} in
  let! accessToken :=
    jwtService_sign env payload (JWT_SECRET env) (JWT_EXPIRY_TIME env) in
  let! refreshToken :=
    jwtService_sign env payload (JWT_REFRESH_SECRET env)
      (JWT_REFRESH_EXPIRY_TIME env) in
  ret {| accessToken := accessToken; refreshToken := refreshToken |}.

Definition sendEmailVerificationCode (user : User) : M unit :=
  let! n := randomInt 100000 999999 in
  let verificationCode := pretty n in
  let! now1 := Date_now in
  let! now2 := Date_now in
  Prisma.emailVerification_upsert (user_email user) "SIGNUP"
    {| ev_code := verificationCode;
       ev_expiresAt := now1 + OTP_EXPIRATION_TIME * 60 * 1000;
       ev_attempts := SCHEMA_DEFAULT_ATTEMPTS |}
    (fun r =>
       {| ev_code := verificationCode;
          ev_expiresAt := now2 + OTP_EXPIRATION_TIME * 60 * 1000;
          ev_attempts := 0 |}) >>
  EmailService.sendEmailVerification (user_email user) verificationCode
    (user_firstName user +:+ " " +:+ user_lastName user).

Definition login (dto_email dto_password : string)
  : M (Response LoginData) :=
  let! user := Prisma.user_findUnique_email dto_email in
  match user with
  | None => throw (UnauthorizedException "Invalid email or password")
  | Some user =>
      if negb (user_emailVerified user) then
        sendEmailVerificationCode user >>
        ret (SuccessResponse "Please verify your email first"
               {| ld_user :=
                    {| lu_id := None; lu_email := user_email user;
                       lu_firstName := user_firstName user;
                       lu_lastName := user_lastName user;
                       lu_role := user_role user |};
                  ld_emailVerified := Some false;
                  ld_tokens := None |})
      else
        throw_if (user_isDeleted user
                  || String.eqb (user_status user) "DELETED")
          (UnauthorizedException "This account does not exist") >>
        throw_if (negb (String.eqb (user_status user) "ACTIVE"))
          (UnauthorizedException "You can't login at the moment") >>
        throw_if (negb (Js.truthy_opt (user_password user)))
          (UnauthorizedException
             "Please use the appropriate login method for your account") >>
        let! passwordMatch :=
          bcrypt_compare_call env dto_password
            (default "" (user_password user)) in
        throw_if (negb passwordMatch)
          (UnauthorizedException "Invalid email or password") >>
        let! tokens :=
          generateTokens (user_id user) (user_email user) (user_role user) in
        ret (SuccessResponse "Login successful"
               {| ld_user :=
                    {| lu_id := Some (user_id user);
                       lu_email := user_email user;
                       lu_firstName := user_firstName user;
                       lu_lastName := user_lastName user;
                       lu_role := user_role user |};
                  ld_emailVerified := None;
                  ld_tokens := Some tokens |})
  end.

Definition forgotPassword (dto_email : string) : M (Response Null) :=
  let! user := Prisma.user_findUnique_email dto_email in
  match user with
  | None => throw (NotFoundException "Invalid email")
  | Some user =>
      let! n := randomInt 100000 999999 in
      let code := pretty n in
      let! now1 := Date_now in
      let! now2 := Date_now in
      Prisma.passwordReset_upsert dto_email PASSWORD_RESET_TYPE
        {| pr_code := code;
           pr_expiresAt := now1 + OTP_EXPIRATION_TIME * 60 * 1000;
           pr_attempts := SCHEMA_DEFAULT_ATTEMPTS;
           pr_verifiedAt := None |}
        (fun r =>
           {| pr_code := code;
              pr_expiresAt := now2 + OTP_EXPIRATION_TIME * 60 * 1000;
              pr_attempts := 0;
              pr_verifiedAt := None |}) >>
      EmailService.sendUserPasswordResetCode dto_email code
        (user_firstName user +:+ " " +:+ user_lastName user) >>
      ret (SuccessResponse "Password reset code sent to your email" null)
  end.

Definition verifyResetCode (dto_email dto_code : string)
  : M (Response ResetCodeData) :=
  let! user := Prisma.user_findUnique_email dto_email in
  match user with
  | None => throw (NotFoundException "Invalid email")
  | Some user =>
      let! passwordReset :=
        Prisma.passwordReset_findUnique dto_email PASSWORD_RESET_TYPE in
      match passwordReset with
      | None =>
          throw (BadRequestException "Please request a password reset first")
      | Some passwordReset =>
          let! now := Date_now in
          throw_if (pr_expiresAt passwordReset <? now)
            (BadRequestException "Password reset code expired") >>
          throw_if (MAX_PASSWORD_RESET_ATTEMPTS <=? pr_attempts passwordReset)
            (BadRequestException
               "Too many failed attempts. Please request a new reset code.") >>
          (if negb (String.eqb (pr_code passwordReset) dto_code) then
             Prisma.passwordReset_update dto_email PASSWORD_RESET_TYPE
               (fun r =>
                  {| pr_code := pr_code r; pr_expiresAt := pr_expiresAt r;
                     pr_attempts := pr_attempts passwordReset + 1;
                     pr_verifiedAt := pr_verifiedAt r |}) >>
             throw (BadRequestException "Invalid reset code")
           else ret tt) >>
          let! now' := Date_now in
          Prisma.passwordReset_update dto_email PASSWORD_RESET_TYPE
            (fun r =>
               {| pr_code := pr_code r; pr_expiresAt := pr_expiresAt r;
                  pr_attempts := pr_attempts r;
                  pr_verifiedAt := Some now' |}) >>
          let! resetToken :=
            jwtService_sign env
              {| sub := None; jwt_email := dto_email; jwt_role := "";
                 exp := None; purpose := Some "password-reset" |}
              (JWT_SECRET env) "15m" in
          ret (SuccessResponse "Reset code verified successfully"
                 {| resetToken := resetToken;
                    rc_message := "You can now reset your password" |})
      end
  end.

Definition refreshToken (dto_refreshToken : string) : M (Response Tokens) :=
  try_catch
    (let! isBlacklisted :=
       TokenBlacklistService.isTokenBlacklisted dto_refreshToken in
     throw_if isBlacklisted (UnauthorizedException "Token has been revoked") >>
     let! payload :=
       jwtService_verify env dto_refreshToken (JWT_REFRESH_SECRET env) in
     let! isUserBlacklisted :=
       TokenBlacklistService.isUserBlacklisted (Js.interpolate (sub payload)) in
     throw_if isUserBlacklisted
       (UnauthorizedException "User tokens have been revoked") >>
     let! user := Prisma.user_findUnique_where_id (sub payload) in
     match user with
     | None => throw (UnauthorizedException "Please log in again")
     | Some user =>
         throw_if (user_isDeleted user
                   || negb (String.eqb (user_status user) "ACTIVE"))
           (UnauthorizedException "Please log in again") >>
         let! tokens :=
           generateTokens (user_id user) (user_email user) (user_role user) in
         ret (SuccessResponse "Token refreshed successfully" tokens)
     end)
    (fun error => throw (UnauthorizedException "Invalid refresh token")).

Definition logout (dto_refreshToken accessToken : string)
  : M (Response Null) :=
  try_catch
    (let! accessPayload := jwtService_decode env accessToken in
     let! refreshPayload := jwtService_decode env dto_refreshToken in
     match accessPayload, refreshPayload with
     | Some accessPayload, Some refreshPayload =>
         let! ms := Date_now in
         let now := ms `div` 1000 in
         let accessTTL := remainingTTL accessPayload now in
         let refreshTTL := remainingTTL refreshPayload now in
         (if positive accessTTL then
            TokenBlacklistService.blacklistToken accessToken
              (default 0 accessTTL)
          else ret tt) >>
         (if positive refreshTTL then
            TokenBlacklistService.blacklistToken dto_refreshToken
              (default 0 refreshTTL)
          else ret tt) >>
         ret (SuccessResponse "Logout successful" null)
     | _, _ => throw (BadRequestException "Invalid tokens")
     end)
    (fun error => ret (SuccessResponse "Logout successful" null)).

Definition verifyEmail (dto_email dto_code : string)
  : M (Response LoginData) :=
  let! user := Prisma.user_findUnique_email dto_email in
  match user with
  | None => throw (NotFoundException "Please check your email and try again")
  | Some user =>
      let! emailVerification :=
        Prisma.emailVerification_findUnique dto_email "SIGNUP" in
      match emailVerification with
      | None =>
          throw (BadRequestException "Please request a new verification code")
      | Some emailVerification =>
          let! now := Date_now in
          throw_if (ev_expiresAt emailVerification <? now)
            (BadRequestException "Verification code expired") >>
          throw_if (negb (String.eqb (ev_code emailVerification) dto_code))
            (BadRequestException "Invalid verification code") >>
          Prisma.user_update (user_id user)
            (fun u =>
               {| user_id := user_id u; user_email := user_email u;
                  user_password := user_password u;
                  user_firstName := user_firstName u;
                  user_lastName := user_lastName u;
                  user_role := user_role u; user_status := user_status u;
                  user_isDeleted := user_isDeleted u;
                  user_emailVerified := true |}) >>
          Prisma.emailVerification_delete dto_email "SIGNUP" >>
          let! tokens :=
            generateTokens (user_id user) (user_email user) (user_role user) in
          let! updatedUser := Prisma.user_findUnique_id (user_id user) in
          let shown := default user updatedUser in
          ret (SuccessResponse "Email verified successfully"
                 {| ld_user :=
                      {| lu_id := Some (user_id shown);
                         lu_email := user_email shown;
                         lu_firstName := user_firstName shown;
                         lu_lastName := user_lastName shown;
                         lu_role := user_role shown |};
                    ld_emailVerified := None;
                    ld_tokens := Some tokens |})
      end
  end.

(** The answer's [data] is a message. *)
Definition resendVerification (dto_email : string) : M (Response string) :=
  let! user := Prisma.user_findUnique_email dto_email in
  match user with
  | None => throw (NotFoundException "Please check your email and try again")
  | Some user =>
      throw_if (user_emailVerified user)
        (BadRequestException "Email already verified") >>
      sendEmailVerificationCode user >>
      ret (SuccessResponse "Verification code sent to your email"
             "Check your email for the verification code")
  end.

Definition resetPassword (dto_resetToken dto_newPassword : string)
  : M (Response Null) :=
  try_catch
    (let! payload := jwtService_verify env dto_resetToken (JWT_SECRET env) in
     throw_if (negb (bool_decide (purpose payload = Some "password-reset")))
       (UnauthorizedException "Invalid reset token") >>
     let email := jwt_email payload in
     let! user := Prisma.user_findUnique_email email in
     match user with
     | None => throw (NotFoundException "Invalid reset token")
     | Some user =>
         let! passwordReset :=
           Prisma.passwordReset_findUnique email PASSWORD_RESET_TYPE in
         match passwordReset with
         | None =>
             throw (BadRequestException
                      "Please request a password reset first")
         | Some passwordReset =>
             throw_if (negb (bool_decide (pr_verifiedAt passwordReset <> None)))
               (BadRequestException "Please verify your reset code first") >>
             let! now := Date_now in
             throw_if (pr_expiresAt passwordReset <? now)
               (BadRequestException "Password reset code expired") >>
             let hashedPassword := bcrypt_hash env dto_newPassword in
             Prisma.user_update (user_id user)
               (fun u =>
                  {| user_id := user_id u; user_email := user_email u;
                     user_password := Some hashedPassword;
                     user_firstName := user_firstName u;
                     user_lastName := user_lastName u;
                     user_role := user_role u; user_status := user_status u;
                     user_isDeleted := user_isDeleted u;
                     user_emailVerified := user_emailVerified u |}) >>
             Prisma.passwordReset_delete email PASSWORD_RESET_TYPE >>
             ret (SuccessResponse "Password reset successful" null)
         end
     end)
    (fun error =>
       match error with
       | UnauthorizedException _ | NotFoundException _
       | BadRequestException _ => throw error
       | JsError _ _ =>
           throw (UnauthorizedException "Invalid or expired reset token")
       end).

End Service.

End UserAuthService.

(** ** The admin flows (AdminAuthService) *)

Module AdminAuthService.

Section Service.

Variable env : Env.

Definition PASSWORD_RESET_TYPE : string := "ADMIN".
Definition MAX_PASSWORD_RESET_ATTEMPTS : Z := 3.

Definition generateTokens (adminId email role : string) : M Tokens :=
  let payload :=
    {| sub := Some adminId; jwt_email := email; jwt_role := role;
       exp := None; purpose := None |} in
  let! accessToken :=
    jwtService_sign env payload (JWT_SECRET env) (JWT_EXPIRY_TIME env) in
  let! refreshToken :=
    jwtService_sign env payload (JWT_REFRESH_SECRET env)
      (JWT_REFRESH_EXPIRY_TIME env) in
  ret {| accessToken := accessToken; refreshToken := refreshToken |}.

Definition forgotPassword (dto_email : string) (requestIP : option string)
  : M (Response Null) :=
  let! admin := Prisma.admin_findUnique_email dto_email in
  match admin with
  | None => throw (NotFoundException "Admin not found")
  | Some admin =>
      let! code :=
        if IS_DEVELOPMENT env then ret DEFAULT_OTP
        else
          let! n := randomInt 0 10000 in
          ret (Js.padStart 4 "0" (pretty n)) in
      let! now := Date_now in
      let expiresAt := now + OTP_EXPIRATION_TIME * 60 * 1000 in
      Prisma.passwordReset_upsert dto_email PASSWORD_RESET_TYPE
        {| pr_code := code; pr_expiresAt := expiresAt;
           pr_attempts := SCHEMA_DEFAULT_ATTEMPTS; pr_verifiedAt := None |}
        (fun r =>
           {| pr_code := code; pr_expiresAt := expiresAt;
              pr_attempts := 0; pr_verifiedAt := pr_verifiedAt r |}) >>
      try_catch
        (EmailService.sendAdminPasswordResetCode (admin_email admin) code
           (admin_firstName admin +:+ " " +:+ admin_lastName admin)
           (if Js.truthy_opt requestIP then default "" requestIP
            else "Unknown"))
        (fun err =>
           throw (BadRequestException "Failed to send reset code email")) >>
      ret (SuccessResponse "Password reset code sent to email" null)
  end.

(** The answer's [data] is [{ verified: true }]. *)
Definition verifyCode (dto_email dto_code : string) : M (Response bool) :=
  let! resetData :=
    Prisma.passwordReset_findUnique dto_email PASSWORD_RESET_TYPE in
  match resetData with
  | None => throw (BadRequestException "No reset request found for this email")
  | Some resetData =>
      let! now := Date_now in
      (if pr_expiresAt resetData <? now then
         Prisma.passwordReset_delete dto_email PASSWORD_RESET_TYPE >>
         throw (BadRequestException "Reset code expired")
       else ret tt) >>
      (if MAX_PASSWORD_RESET_ATTEMPTS <=? pr_attempts resetData then
         Prisma.passwordReset_delete dto_email PASSWORD_RESET_TYPE >>
         throw (BadRequestException "Too many failed attempts")
       else ret tt) >>
      (if negb (String.eqb (pr_code resetData) dto_code) then
         Prisma.passwordReset_update dto_email PASSWORD_RESET_TYPE
           (fun r =>
              {| pr_code := pr_code r; pr_expiresAt := pr_expiresAt r;
                 pr_attempts := pr_attempts resetData + 1;
                 pr_verifiedAt := pr_verifiedAt r |}) >>
         throw (BadRequestException "Invalid reset code")
       else ret tt) >>
      ret (SuccessResponse "Code verified successfully" true)
  end.

Definition refreshToken (dto_refreshToken : string) : M (Response Tokens) :=
  try_catch
    (let! isBlacklisted :=
       TokenBlacklistService.isTokenBlacklisted dto_refreshToken in
     throw_if isBlacklisted (UnauthorizedException "Token has been revoked") >>
     let! decoded :=
       jwtService_verify env dto_refreshToken (JWT_REFRESH_SECRET env) in
     let! isAdminBlacklisted :=
       TokenBlacklistService.isAdminBlacklisted
         (Js.interpolate (sub decoded)) in
     throw_if isAdminBlacklisted
       (UnauthorizedException "Admin tokens have been revoked") >>
     let! admin := Prisma.admin_findUnique_where_id (sub decoded) in
     match admin with
     | None => throw (UnauthorizedException "Admin not found or inactive")
     | Some admin =>
         throw_if (admin_isDeleted admin || admin_isSuspended admin)
           (UnauthorizedException "Admin not found or inactive") >>
         let! tokens :=
           generateTokens (admin_id admin) (admin_email admin)
             (admin_role admin) in
         ret (SuccessResponse "Token refreshed successfully" tokens)
     end)
    (fun _ => throw (UnauthorizedException "Invalid or expired refresh token")).

(** [dto.refreshToken] is optional in the admin flow. *)
Definition logout (dto_refreshToken : option string) (accessToken : string)
  : M (Response Null) :=
  try_catch
    (let! accessPayload := jwtService_decode env accessToken in
     match accessPayload with
     | None => throw (BadRequestException "Invalid access token")
     | Some accessPayload =>
         let! ms := Date_now in
         let now := ms `div` 1000 in
         let accessTTL := remainingTTL accessPayload now in
         (if positive accessTTL then
            TokenBlacklistService.blacklistToken accessToken
              (default 0 accessTTL)
          else ret tt) >>
         (if Js.truthy_opt dto_refreshToken then
            let token := default "" dto_refreshToken in
            let! refreshPayload := jwtService_decode env token in
            match refreshPayload with
            | Some refreshPayload =>
                let refreshTTL :=
                  remainingTTL refreshPayload now in
                if positive refreshTTL then
                  TokenBlacklistService.blacklistToken token
                    (default 0 refreshTTL)
                else ret tt
            | None => ret tt
            end
          else ret tt) >>
         ret (SuccessResponse "Logout successful" null)
     end)
    (fun error => ret (SuccessResponse "Logout successful" null)).

(** [data.admin] of the answer is [ld_user]. *)
Definition login (dto_email dto_password : string)
  : M (Response LoginData) :=
  let! admin := Prisma.admin_findUnique_email dto_email in
  match admin with
  | None => throw (UnauthorizedException "Invalid email or password")
  | Some admin =>
      throw_if (admin_isDeleted admin || admin_isSuspended admin)
        (UnauthorizedException "Admin account is inactive") >>
      let! passwordMatch :=
        bcrypt_compare_call env dto_password (admin_password admin) in
      throw_if (negb passwordMatch)
        (UnauthorizedException "Invalid email or password") >>
      let! tokens :=
        generateTokens (admin_id admin) (admin_email admin)
          (admin_role admin) in
      ret (SuccessResponse "Login successful"
             {| ld_user :=
                  {| lu_id := Some (admin_id admin);
                     lu_email := admin_email admin;
                     lu_firstName := admin_firstName admin;
                     lu_lastName := admin_lastName admin;
                     lu_role := admin_role admin |};
                ld_emailVerified := None;
                ld_tokens := Some tokens |})
  end.

(** The two writes of the [Promise.all] are made one after the other. *)
Definition resetPassword (dto_email dto_code dto_newPassword : string)
  : M (Response Null) :=
  let! resetData :=
    Prisma.passwordReset_findUnique dto_email PASSWORD_RESET_TYPE in
  match resetData with
  | None => throw (BadRequestException "No reset request found for this email")
  | Some resetData =>
      let! now := Date_now in
      (if pr_expiresAt resetData <? now then
         Prisma.passwordReset_delete dto_email PASSWORD_RESET_TYPE >>
         throw (BadRequestException "Reset code expired")
       else ret tt) >>
      throw_if (negb (String.eqb (pr_code resetData) dto_code))
        (BadRequestException "Invalid reset code") >>
      let! admin := Prisma.admin_findUnique_email dto_email in
      match admin with
      | None => throw (NotFoundException "Admin not found")
      | Some admin =>
          let hashedPassword := bcrypt_hash env dto_newPassword in
          Prisma.admin_update (admin_id admin)
            (fun a =>
               {| admin_id := admin_id a; admin_email := admin_email a;
                  admin_password := hashedPassword;
                  admin_firstName := admin_firstName a;
                  admin_lastName := admin_lastName a;
                  admin_role := admin_role a;
                  admin_status := admin_status a;
                  admin_isDeleted := admin_isDeleted a;
                  admin_isSuspended := admin_isSuspended a |}) >>
          Prisma.passwordReset_delete dto_email PASSWORD_RESET_TYPE >>
          ret (SuccessResponse "Password reset successfully" null)
      end
  end.

End Service.

End AdminAuthService.

(** ** The controllers of the two flows *)

(** [req.headers['authorization']?.split(' ')[1] || ''] *)
Definition header_token (authorization : option string) : string :=
  match authorization with
  | None => ""
  | Some h =>
      let piece := Js.split " " h !! 1%nat in
      if Js.truthy_opt piece then default "" piece else ""
  end.

Module UserAuthController.

Definition logout (env : Env) (dto_refreshToken : string)
  (authorization : option string) : M (Response Null) :=
  let accessToken := header_token authorization in
  UserAuthService.logout env dto_refreshToken accessToken.

End UserAuthController.

Module AdminAuthController.

Definition logout (env : Env) (dto_refreshToken : option string)
  (authorization : option string) : M (Response Null) :=
  let accessToken := header_token authorization in
  AdminAuthService.logout env dto_refreshToken accessToken.

End AdminAuthController.

(** ** The admin service (AdminService) *)

Module AdminService.

(** The [action] of [toggleStatus]. *)
Inductive StatusAction : Type := activate | deactivate.

Definition action_name (action : StatusAction) : string :=
  match action with
  | activate => "activate"
  | deactivate => "deactivate"
  end.

Definition is_deactivate (action : StatusAction) : bool :=
  match action with
  | deactivate => true
  | activate => false
  end.

(** The columns that [toggleStatus] selects of the updated row; [updatedAt],
    a timestamp, is left out. *)
Record StatusView : Type := {
  sv_id : string;
  sv_email : string;
  sv_firstName : string;
  sv_lastName : string;
  sv_role : string;
  sv_status : string;
  sv_isSuper : bool
}.

Section Service.

Variable env : Env.

(** The column [isSuper] of an admin row; it is not among the columns the
    guards and the auth flows read, which make up [Admin]. *)
Variable isSuper : Admin -> bool.

(** The update also stamps [deletedAt], a column nothing here reads. *)
Definition delete (id currentAdminId : string) : M (Response Null) :=
  throw_if (String.eqb id currentAdminId)
    (BadRequestException "You cannot delete your own account") >>
  let! admin := Prisma.admin_findUnique_id id in
  match admin with
  | None => throw (NotFoundException "Admin not found")
  | Some admin =>
      throw_if (isSuper admin)
        (BadRequestException
           "Cannot delete super admin account. Please demote to regular admin first.")
      >>
      throw_if (admin_isDeleted admin)
        (BadRequestException "Admin is already deleted") >>
      try_catch
        (let refreshTokenExpiry :=
           if Js.truthy (JWT_REFRESH_EXPIRY_TIME env)
           then JWT_REFRESH_EXPIRY_TIME env else "7d" in
         let expiryInSeconds :=
           TimeUtils.parseExpiryToSeconds refreshTokenExpiry in
         TokenBlacklistService.blacklistAdminTokens id expiryInSeconds)
        (fun error => ret tt) >>
      Prisma.admin_update id
        (fun a =>
           {| admin_id := admin_id a; admin_email := admin_email a;
              admin_password := admin_password a;
              admin_firstName := admin_firstName a;
              admin_lastName := admin_lastName a;
              admin_role := admin_role a;
              admin_status := admin_status a;
              admin_isDeleted := true;
              admin_isSuspended := admin_isSuspended a |}) >>
      ret (SuccessResponse "Admin deleted successfully" null)
  end.

(** The update writes [status] only, so the answer shows [isSuper] as the
    row had it. *)
Definition toggleStatus (id : string) (action : StatusAction)
  (currentAdminId : string) : M (Response StatusView) :=
  throw_if (is_deactivate action && String.eqb id currentAdminId)
    (BadRequestException "You cannot deactivate your own account") >>
  let! admin := Prisma.admin_findUnique_id id in
  match admin with
  | None => throw (NotFoundException "Admin not found")
  | Some admin =>
      throw_if (admin_isDeleted admin) (NotFoundException "Admin not found") >>
      throw_if (is_deactivate action && isSuper admin)
        (BadRequestException
           "Cannot deactivate super admin account. Please demote to regular admin first.")
      >>
      let newStatus :=
        match action with
        | activate => "ACTIVE"
        | deactivate => "DEACTIVATED"
        end in
      throw_if (String.eqb (admin_status admin) newStatus)
        (BadRequestException
           ("Admin is already " +:+ Js.toLowerCase newStatus)) >>
      (if is_deactivate action then
         try_catch
           (let refreshTokenExpiry :=
              if Js.truthy (JWT_REFRESH_EXPIRY_TIME env)
              then JWT_REFRESH_EXPIRY_TIME env else "7d" in
            let expiryInSeconds :=
              TimeUtils.parseExpiryToSeconds refreshTokenExpiry in
            TokenBlacklistService.blacklistAdminTokens id expiryInSeconds)
           (fun error => ret tt)
       else ret tt) >>
      (if negb (is_deactivate action) then
         try_catch (TokenBlacklistService.removeAdminFromBlacklist id)
           (fun error => ret tt)
       else ret tt) >>
      let! updatedAdmin :=
        Prisma.admin_update_returning id
          (fun a =>
             {| admin_id := admin_id a; admin_email := admin_email a;
                admin_password := admin_password a;
                admin_firstName := admin_firstName a;
                admin_lastName := admin_lastName a;
                admin_role := admin_role a;
                admin_status := newStatus;
                admin_isDeleted := admin_isDeleted a;
                admin_isSuspended := admin_isSuspended a |}) in
      ret (SuccessResponse
             ("Admin " +:+ action_name action +:+ "d successfully")
             {| sv_id := admin_id updatedAdmin;
                sv_email := admin_email updatedAdmin;
                sv_firstName := admin_firstName updatedAdmin;
                sv_lastName := admin_lastName updatedAdmin;
                sv_role := admin_role updatedAdmin;
                sv_status := admin_status updatedAdmin;
                sv_isSuper := isSuper admin |})
  end.

End Service.

End AdminService.

(** ** src/utils *)

Module Utils.

Definition referral_charset : string :=
  "ABCDEFGHIJKLMNOPQRSTUVWXYZabcdefghijklmnopqrstuvwxyz0123456789".

(** The loop of [generateReferralCode], with [n] rounds to go. *)
Fixpoint referral_loop (n : nat) (code : string) : M string :=
  match n with
  | O => ret code
  | S n' =>
      let! i := randomInt 0 (Z.of_nat (String.length referral_charset)) in
      referral_loop n' (code +:+ Js.charAt i referral_charset)
  end.

Definition generateReferralCode : M string := referral_loop 8 "".

End Utils.

(** * Vocabulary of the properties *)

(** ** Running a method *)

(** What a method answers in a world, and the world it leaves. *)
Definition outcome {A} (m : M A) (w : World) : Outcome A := fst (m w).
Definition after {A} (m : M A) (w : World) : World := snd (m w).

(** The calls a method adds to the trace. *)
Definition calls {A} (m : M A) (w : World) : list Event :=
  drop (List.length (trace w)) (trace (after m w)).

(** A method only adds calls to the trace. *)
Definition grows {A} (m : M A) : Prop :=
  forall w, exists evs, trace (snd (m w)) = trace w ++ evs.

(** ** Expiry strings *)

Definition all_digits (s : string) : Prop :=
  forallb Js.is_digit (list_ascii_of_string s) = true.

(** The table of the unit letters and their multipliers, as the
    documentation gives it. *)
Definition unit_table : list (ascii * Z) :=
  [("s"%char, 1); ("m"%char, 60); ("h"%char, 3600);
   ("d"%char, 86400); ("w"%char, 604800)].

(** An integer followed by a unit letter, in either case. *)
Definition expiry_shape (s ds : string) (u : ascii) (mult : Z) : Prop :=
  s = ds +:+ String u EmptyString /\ ds <> EmptyString /\ all_digits ds /\
  In (Js.ascii_lower u, mult) unit_table.

(** The property of the parser as the documentation states it: the integer
    times the multiplier, for every input of the shape. *)
Definition exact_product : Prop :=
  forall s ds u mult,
    expiry_shape s ds u mult ->
    TimeUtils.parseExpiryToSeconds s = Js.Int (Js.decimal ds * mult).

(** ** The revocation store *)

(** A read of [key]: [true] exactly when the command went through and found
    the key. *)
Definition store_has (w : World) (key : string) : bool :=
  negb (redis_throws w (GET key)) && bool_decide (is_Some (redis w !! key)).

(** ** Requests *)

(** The header [h] carries the bearer token [tok]: [h.split(' ')] starts
    with a scheme that reads "bearer" in lower case and the non-empty
    [tok]. *)
Definition bearer_header (h tok : string) : Prop :=
  exists scheme rest,
    Js.split " " h = scheme :: tok :: rest /\
    Js.toLowerCase scheme = "bearer" /\ tok <> "".

(** The steps of [AuthGuard.authenticateUser] that follow the checks of the
    header, for the token [authValue]. *)
Definition user_bearer_steps (env : Env) (authValue : string)
  : M (string * string) :=
  let! isBlacklisted := TokenBlacklistService.isTokenBlacklisted authValue in
  throw_if isBlacklisted (UnauthorizedException "Token has been revoked.") >>
  try_catch
    (let! payload :=
       jwtService_verify env authValue (AuthGuard.accessTokenSecret env) in
     let id := sub payload in
     throw_if (negb (Js.truthy_opt id))
       (UnauthorizedException "Invalid token: ID not present.") >>
     let id := default "" id in
     let! isUserBlacklisted := TokenBlacklistService.isUserBlacklisted id in
     throw_if isUserBlacklisted
       (UnauthorizedException "User tokens have been revoked.") >>
     let! user := Prisma.user_findUnique_id id in
     match user with
     | None => throw (UnauthorizedException "User not found.")
     | Some user =>
         throw_if (user_isDeleted user
                   || String.eqb (user_status user) "DELETED")
           (UnauthorizedException "This account does not exist.") >>
         throw_if (negb (String.eqb (user_status user) "ACTIVE"))
           (UnauthorizedException "You can't login at the moment.") >>
         ret (user_id user, user_role user)
     end)
    (fun err =>
       if String.eqb (exn_name err) "TokenExpiredError" then
         throw (UnauthorizedException "Token expired.")
       else if String.eqb (exn_name err) "JsonWebTokenError" then
         throw (UnauthorizedException "Malformed token.")
       else
         throw (UnauthorizedException "Authentication failed.")).

(** The steps of [AdminAuthGuard.authenticateAdmin] that follow the checks
    of the header. *)
Definition admin_bearer_steps (env : Env) (authValue : string)
  : M (string * string) :=
  let! isBlacklisted := TokenBlacklistService.isTokenBlacklisted authValue in
  throw_if isBlacklisted (UnauthorizedException "Token has been revoked.") >>
  try_catch
    (let! payload :=
       jwtService_verify env authValue (AdminAuthGuard.accessTokenSecret env) in
     let adminId := sub payload in
     throw_if (negb (Js.truthy_opt adminId))
       (UnauthorizedException ErrorMessages.INVALID_JWT_TOKEN_MESSAGE) >>
     let adminId := default "" adminId in
     let! isAdminBlacklisted :=
       TokenBlacklistService.isAdminBlacklisted adminId in
     throw_if isAdminBlacklisted
       (UnauthorizedException "Admin tokens have been revoked.") >>
     let! admin := Prisma.admin_findUnique_id adminId in
     match admin with
     | None => throw (UnauthorizedException "Admin not found")
     | Some admin =>
         throw_if (admin_isDeleted admin)
           (UnauthorizedException "Admin not found") >>
         throw_if (admin_isSuspended admin)
           (UnauthorizedException ErrorMessages.ADMIN_SUSPENDED_MESSAGE) >>
         ret (admin_id admin, admin_role admin)
     end)
    (fun err =>
       if String.eqb (exn_name err) "TokenExpiredError" then
         throw (UnauthorizedException ErrorMessages.TOKEN_EXPIRED_MESSAGE)
       else if String.eqb (exn_name err) "JsonWebTokenError" then
         throw (BadRequestException ErrorMessages.INVALID_JWT_TOKEN_MESSAGE)
       else if is_unauthorized err then
         throw err
       else
         throw (UnauthorizedException "Authentication failed")).

(** ** Identities *)

(** A user record that must not authenticate: flagged deleted, of status
    DELETED, or of any status other than ACTIVE. *)
Definition user_barred (u : User) : Prop :=
  user_isDeleted u = true \/ user_status u = "DELETED" \/
  user_status u <> "ACTIVE".

(** An admin record that the admin guard bars: flagged deleted or
    suspended.  The status of the row is not part of it. *)
Definition admin_barred (a : Admin) : Prop :=
  admin_isDeleted a = true \/ admin_isSuspended a = true.

(** The record [findUnique] returns for an id. *)
Definition user_by_id (w : World) (id : string) : option User :=
  find (fun u => String.eqb (user_id u) id) (users w).

Definition user_by_email (w : World) (email : string) : option User :=
  find (fun u => String.eqb (user_email u) email) (users w).

Definition admin_by_id (w : World) (id : string) : option Admin :=
  find (fun a => String.eqb (admin_id a) id) (admins w).

Definition admin_by_email (w : World) (email : string) : option Admin :=
  find (fun a => String.eqb (admin_email a) email) (admins w).

(** ** A sample environment and sample worlds *)

Module Sample.

Definition claims (id : string) (e : Z) : JwtPayload :=
  {| sub := Some id; jwt_email := id +:+ "@example.com"; jwt_role := "USER";
     exp := Some e; purpose := None |}.

Definition expired_error : Exn := JsError "TokenExpiredError" "jwt expired".
Definition malformed_error : Exn := JsError "JsonWebTokenError" "jwt malformed".

(** A toy token format: "access.ID" under the access secret, "refresh.ID"
    under the refresh secret, "expired.ID" for a token past its expiry. *)
Definition verify (token secret : string) : Exn + JwtPayload :=
  if String.prefix "expired." token then inl expired_error
  else if String.eqb secret "access-secret" && String.prefix "access." token
  then inr (claims (substring 7 (String.length token) token) 1700003600)
  else if String.eqb secret "refresh-secret" && String.prefix "refresh." token
  then inr (claims (substring 8 (String.length token) token) 1700600000)
  else inl malformed_error.

Definition decode (token : string) : option JwtPayload :=
  if String.prefix "expired." token
  then Some (claims (substring 8 (String.length token) token) 1600000000)
  else if String.prefix "access." token
  then Some (claims (substring 7 (String.length token) token) 1700003600)
  else if String.prefix "refresh." token
  then Some (claims (substring 8 (String.length token) token) 1700600000)
  else None.

Definition env : Env :=
  {| JWT_SECRET := "access-secret";
     JWT_REFRESH_SECRET := "refresh-secret";
     JWT_EXPIRY_TIME := "12h";
     JWT_REFRESH_EXPIRY_TIME := "7d";
     BASIC_AUTH_ENABLED := "false";
     IS_DEVELOPMENT := false;
     jwt_verify := verify;
     jwt_decode := decode;
     jwt_sign :=
       fun payload secret expiresIn =>
         secret +:+ ":" +:+ default "" (sub payload) +:+ ":" +:+ expiresIn;
     bcrypt_compare := fun plain hash => String.eqb ("hash:" +:+ plain) hash;
     bcrypt_hash := fun plain => "hash:" +:+ plain;
     base64_decode := fun s => s |}.

Definition alice : User :=
  {| user_id := "u1"; user_email := "alice@example.com";
     user_password := Some "hash:wonderland";
     user_firstName := "Alice"; user_lastName := "Liddell";
     user_role := "USER"; user_status := "ACTIVE";
     user_isDeleted := false; user_emailVerified := true |}.

(** Deactivated. *)
Definition bob : User :=
  {| user_id := "u2"; user_email := "bob@example.com";
     user_password := Some "hash:builder";
     user_firstName := "Bob"; user_lastName := "Builder";
     user_role := "USER"; user_status := "DEACTIVATED";
     user_isDeleted := false; user_emailVerified := true |}.

(** Not yet verified. *)
Definition carol : User :=
  {| user_id := "u3"; user_email := "carol@example.com";
     user_password := Some "hash:christmas";
     user_firstName := "Carol"; user_lastName := "Singer";
     user_role := "USER"; user_status := "ACTIVE";
     user_isDeleted := false; user_emailVerified := false |}.

(** Not yet verified, and deleted. *)
Definition dave : User :=
  {| user_id := "u4"; user_email := "dave@example.com";
     user_password := Some "hash:diver";
     user_firstName := "Dave"; user_lastName := "Diver";
     user_role := "USER"; user_status := "DELETED";
     user_isDeleted := true; user_emailVerified := false |}.

Definition root : Admin :=
  {| admin_id := "a1"; admin_email := "root@example.com";
     admin_password := "hash:toor";
     admin_firstName := "Admin"; admin_lastName := "User";
     admin_role := "ADMIN"; admin_status := "ACTIVE";
     admin_isDeleted := false;
     admin_isSuspended := false |}.

(** Suspended. *)
Definition mallory : Admin :=
  {| admin_id := "a2"; admin_email := "mallory@example.com";
     admin_password := "hash:malice";
     admin_firstName := "Mallory"; admin_lastName := "Moe";
     admin_role := "MODERATOR"; admin_status := "ACTIVE";
     admin_isDeleted := false;
     admin_isSuspended := true |}.

(** A world with the given Redis content and reset records, a working
    Redis and mail queue, and the clock at 1700000000 seconds. *)
Definition world (r : gmap string (Z * string))
  (resets : gmap (string * string) PasswordReset) : World :=
  {| redis := r; redis_throws := fun _ => false;
     users := [alice; bob; carol; dave]; admins := [root; mallory];
     passwordResets := resets; emailVerifications := ∅;
     emailQueue := []; queue_throws := false;
     nowMs := 1700000000000; entropy := [123456; 42]; trace := [] |}.

Definition quiet : World := world ∅ ∅.

(** A world whose revocation store holds Alice's access token. *)
Definition revoked_access : World :=
  world (<["blacklist:access.u1" := (3600, "1")]> ∅) ∅.

(** A world with blanket revocations for the ids u1 and a1. *)
Definition revoked_identities : World :=
  world (<["blacklist:user:u1" := (604800, "1")]>
           (<["blacklist:admin:a1" := (604800, "1")]> ∅)) ∅.

(** A reset record with the code 123456 that expires in five minutes. *)
Definition reset_with (attempts : Z) : PasswordReset :=
  {| pr_code := "123456"; pr_expiresAt := 1700000300000;
     pr_attempts := attempts; pr_verifiedAt := None |}.

(** Alice and the admin have each a reset record with [attempts] failed
    attempts. *)
Definition resetting (attempts : Z) : World :=
  world ∅ (<[("alice@example.com", "USER") := reset_with attempts]>
             (<[("root@example.com", "ADMIN") := reset_with attempts]> ∅)).

End Sample.

(** ** Logout *)

(** The blacklist writes among some calls: key and seconds of every
    [SETEX]. *)
Definition blacklist_writes (evs : list Event) : list (string * Z) :=
  omap (fun ev =>
          match ev with
          | EvRedis (SETEX key seconds _) => Some (key, seconds)
          | _ => None
          end) evs.

(** The remaining lifetime of a token, from a decode that verifies nothing,
    on the clock of the world (in seconds); [None] when the token does not
    decode or carries no [exp]. *)
Definition decoded_ttl (env : Env) (w : World) (token : string) : option Z :=
  match jwt_decode env token with
  | Some payload => remainingTTL payload (nowMs w `div` 1000)
  | None => None
  end.

Definition decodes (env : Env) (token : string) : Prop :=
  is_Some (jwt_decode env token).

(** [token] is written to the blacklist by the calls [evs]. *)
Definition written (evs : list Event) (token : string) : Prop :=
  exists seconds, In ("blacklist:" +:+ token, seconds) (blacklist_writes evs).

Definition logout_ok : Outcome (Response Null) :=
  Returned (SuccessResponse "Logout successful" null).

(** The tokens an admin logout presents: the refresh token is optional. *)
Definition admin_presented (dto_refreshToken : option string)
  (accessToken : string) : list string :=
  accessToken ::
  (if Js.truthy_opt dto_refreshToken then [default "" dto_refreshToken]
   else []).

(** The write of [token] to the blacklist, if logout makes it, goes
    through: logout makes it when the remaining lifetime is positive. *)
Definition write_passes (env : Env) (w : World) (token : string) : Prop :=
  forall seconds,
    decoded_ttl env w token = Some seconds -> 0 < seconds ->
    redis_throws w (SETEX ("blacklist:" +:+ token) seconds "1") = false.

(** The property of logout as the documentation states it, for a user
    logout: the answer is the success envelope, and a presented token is
    written exactly when its remaining lifetime is positive. *)
Definition logout_writes_exactly_live (env : Env) (w : World)
  (dto_refreshToken accessToken : string) : Prop :=
  let m := UserAuthService.logout env dto_refreshToken accessToken in
  outcome m w = logout_ok /\
  forall token, In token [accessToken; dto_refreshToken] ->
    (written (calls m w) token <-> positive (decoded_ttl env w token) = true).

(** ** Token issuance *)

(** No token is signed by the calls [evs]. *)
Definition no_token_signed (evs : list Event) : Prop :=
  forall subject secret, ~ In (EvJwtSign subject secret) evs.

(** ** Password resets *)

Definition user_too_many_attempts : Exn :=
  BadRequestException
    "Too many failed attempts. Please request a new reset code.".

Definition admin_too_many_attempts : Exn :=
  BadRequestException "Too many failed attempts".

Definition invalid_reset_code : Exn := BadRequestException "Invalid reset code".

(** The reset record [r] after one more failed attempt. *)
Definition one_more_attempt (r : PasswordReset) : PasswordReset :=
  {| pr_code := pr_code r; pr_expiresAt := pr_expiresAt r;
     pr_attempts := pr_attempts r + 1; pr_verifiedAt := pr_verifiedAt r |}.

(** The reset record of [email] in the namespace [type] is there, has not
    expired and is [r]. *)
Definition live_reset (w : World) (email type : string) (r : PasswordReset)
  : Prop :=
  passwordResets w !! (email, type) = Some r /\ nowMs w <= pr_expiresAt r.

(** The property of the user flow as the documentation states it: at the
    cap, verification rejects with the too-many-attempts error and deletes
    the record. *)
Definition cap_reached_deletes (env : Env) (w : World)
  (email code : string) : Prop :=
  forall r,
    live_reset w email "USER" r -> 3 <= pr_attempts r ->
    let m := UserAuthService.verifyResetCode env email code in
    outcome m w = Thrown user_too_many_attempts /\
    passwordResets (after m w) !! (email, "USER") = None.

(** A fresh reset record: no failed attempt yet, expiring in five
    minutes. *)
Definition fresh_reset (w : World) (r : PasswordReset) : Prop :=
  pr_attempts r = 0 /\
  pr_expiresAt r = nowMs w + OTP_EXPIRATION_TIME * 60 * 1000.

(** ** Login of an unverified account *)

(** The answer of [login] to an account whose email is not verified. *)
Definition verification_response (u : User) : Response LoginData :=
  SuccessResponse "Please verify your email first"
    {| ld_user :=
         {| lu_id := None; lu_email := user_email u;
            lu_firstName := user_firstName u;
            lu_lastName := user_lastName u;
            lu_role := user_role u |};
       ld_emailVerified := Some false;
       ld_tokens := None |}.

(** The six-digit code the next [randomInt(100000, 999999)] yields. *)
Definition next_code (w : World) : string :=
  pretty (match entropy w with
          | [] => 100000
          | r :: _ => 100000 + r `mod` (999999 - 100000)
          end).

Definition full_name (u : User) : string :=
  user_firstName u +:+ " " +:+ user_lastName u.

(** The verification mail for [u] with the code [code]. *)
Definition verification_job (u : User) (code : string) : EmailJob :=
  {| recipient := user_email u;
     subject := EMAIL_SUBJECTS.EMAIL_VERIFICATION;
     template := EMAIL_TEMPLATES.EMAIL_VERIFICATION;
     ctx_code := code; ctx_userName := full_name u |}.

(** The accounts the mail service sends nothing to. *)
Definition mail_skipped (u : User) : bool :=
  user_isDeleted u || String.eqb (user_status u) "DELETED".

(** Among the calls [evs], a mail carrying [code] is handed to the mail queue
    for [email]. *)
Definition mailed (evs : list Event) (email code : string) : Prop :=
  exists job, In (EvQueueAdd job) evs /\
              recipient job = email /\ ctx_code job = code.

(** The property of login as the documentation states it: an unverified
    account gets the verification answer and a code mail, whatever its
    status. *)
Definition unverified_login_mails_code (env : Env) (w : World)
  (email password : string) : Prop :=
  forall u,
    user_by_email w email = Some u -> user_emailVerified u = false ->
    let m := UserAuthService.login env email password in
    outcome m w = Returned (verification_response u) /\
    mailed (calls m w) email (next_code w).

(** ** Roles *)

(** The role [role] passes the roles required of an endpoint: no roles
    required, or an empty list of them, restricts nothing. *)
Definition role_allowed (requiredRoles : option (list string))
  (role : string) : Prop :=
  match requiredRoles with
  | None | Some [] => True
  | Some roles => In role roles
  end.

(** The same for the admin guard, which also turns down an empty role when
    roles are required. *)
Definition admin_role_allowed (requiredRoles : option (list string))
  (role : string) : Prop :=
  match requiredRoles with
  | None | Some [] => True
  | Some roles => role <> "" /\ In role roles
  end.

(** The header [h] uses the scheme Basic, with [v] as its credentials
    piece ([None] when there is none). *)
Definition basic_header (h : string) (v : option string) : Prop :=
  exists scheme rest,
    Js.split " " h = scheme :: rest /\
    Js.toLowerCase scheme = "basic" /\ v = head rest.

(** The decoded credentials [decoded] read as [email] and [password]. *)
Definition credentials (decoded email password : string) : Prop :=
  exists rest,
    Js.split ":" decoded = email :: password :: rest /\
    email <> "" /\ password <> "".

(** The request with the header [header] presents the user row [u]: a bearer
    token that verifies for the id of the row, neither the token nor the id
    being found in the revocation store; or, with Basic credentials switched
    on, the email of the row and a password that matches its hash. *)
Definition presents_user (env : Env) (w : World) (header : option string)
  (u : User) : Prop :=
  exists h,
    header = Some h /\
    ((exists tok payload,
         bearer_header h tok /\
         jwt_verify env tok (JWT_SECRET env) = inr payload /\
         sub payload = Some (user_id u) /\
         user_by_id w (user_id u) = Some u /\
         store_has w ("blacklist:" +:+ tok) = false /\
         store_has w ("blacklist:user:" +:+ user_id u) = false) \/
     (BASIC_AUTH_ENABLED env = "true" /\
      exists creds email password,
        basic_header h (Some creds) /\
        credentials (base64_decode env creds) email password /\
        user_by_email w email = Some u /\
        bcrypt_compare env password (default "" (user_password u)) = true)).

(** The same for the admin guard, which takes bearer tokens only. *)
Definition presents_admin (env : Env) (w : World) (header : option string)
  (a : Admin) : Prop :=
  exists h tok payload,
    header = Some h /\ bearer_header h tok /\
    jwt_verify env tok (JWT_SECRET env) = inr payload /\
    sub payload = Some (admin_id a) /\
    admin_by_id w (admin_id a) = Some a /\
    store_has w ("blacklist:" +:+ tok) = false /\
    store_has w ("blacklist:admin:" +:+ admin_id a) = false.

(** No Redis command among the calls. *)
Definition no_redis_call (evs : list Event) : Prop :=
  forall c, ~ In (EvRedis c) evs.

(** ** Worlds that differ in the trace *)

(** The world [w] with the trace [t]. *)
Definition with_trace (w : World) (t : list Event) : World :=
  {| redis := redis w; redis_throws := redis_throws w; users := users w;
     admins := admins w; passwordResets := passwordResets w;
     emailVerifications := emailVerifications w;
     emailQueue := emailQueue w; queue_throws := queue_throws w;
     nowMs := nowMs w; entropy := entropy w; trace := t |}.

(** A call of logout: a decode or a write of the blacklist. *)
Definition decode_or_write (ev : Event) : Prop :=
  (exists t, ev = EvJwtDecode t) \/
  (exists key seconds value, ev = EvRedis (SETEX key seconds value)).

(** ** Updated rows *)

(** The user row [u] once its email is verified. *)
Definition verified (u : User) : User :=
  {| user_id := user_id u; user_email := user_email u;
     user_password := user_password u;
     user_firstName := user_firstName u; user_lastName := user_lastName u;
     user_role := user_role u; user_status := user_status u;
     user_isDeleted := user_isDeleted u; user_emailVerified := true |}.

(** The user row [u] with the password hash [h]. *)
Definition user_with_password (u : User) (h : string) : User :=
  {| user_id := user_id u; user_email := user_email u;
     user_password := Some h;
     user_firstName := user_firstName u; user_lastName := user_lastName u;
     user_role := user_role u; user_status := user_status u;
     user_isDeleted := user_isDeleted u;
     user_emailVerified := user_emailVerified u |}.

(** The admin row [a] with the password hash [h]. *)
Definition admin_with_password (a : Admin) (h : string) : Admin :=
  {| admin_id := admin_id a; admin_email := admin_email a;
     admin_password := h;
     admin_firstName := admin_firstName a;
     admin_lastName := admin_lastName a;
     admin_role := admin_role a; admin_status := admin_status a;
     admin_isDeleted := admin_isDeleted a;
     admin_isSuspended := admin_isSuspended a |}.

(** The admin row [a] once deleted. *)
Definition deleted_admin (a : Admin) : Admin :=
  {| admin_id := admin_id a; admin_email := admin_email a;
     admin_password := admin_password a;
     admin_firstName := admin_firstName a;
     admin_lastName := admin_lastName a;
     admin_role := admin_role a; admin_status := admin_status a;
     admin_isDeleted := true;
     admin_isSuspended := admin_isSuspended a |}.

(** The admin row [a] with the status [status]. *)
Definition admin_with_status (a : Admin) (status : string) : Admin :=
  {| admin_id := admin_id a; admin_email := admin_email a;
     admin_password := admin_password a;
     admin_firstName := admin_firstName a;
     admin_lastName := admin_lastName a;
     admin_role := admin_role a; admin_status := status;
     admin_isDeleted := admin_isDeleted a;
     admin_isSuspended := admin_isSuspended a |}.

(** What [toggleStatus] shows of the row [a], whose [isSuper] is
    [super]. *)
Definition status_view (super : bool) (a : Admin) : AdminService.StatusView :=
  {| AdminService.sv_id := admin_id a;
     AdminService.sv_email := admin_email a;
     AdminService.sv_firstName := admin_firstName a;
     AdminService.sv_lastName := admin_lastName a;
     AdminService.sv_role := admin_role a;
     AdminService.sv_status := admin_status a;
     AdminService.sv_isSuper := super |}.

(** [data.admin] of a login answer that shows the row [a]. *)
Definition shown_admin (a : Admin) : LoginUser :=
  {| lu_id := Some (admin_id a); lu_email := admin_email a;
     lu_firstName := admin_firstName a; lu_lastName := admin_lastName a;
     lu_role := admin_role a |}.

(** The lifetime that [delete] and [toggleStatus] give a blanket
    revocation: the refresh lifetime, seven days when none is configured. *)
Definition blanket_lifetime (env : Env) : Js.number :=
  TimeUtils.parseExpiryToSeconds
    (if Js.truthy (JWT_REFRESH_EXPIRY_TIME env)
     then JWT_REFRESH_EXPIRY_TIME env else "7d").

(** The write of the blanket revocation of the admin [id] does not take:
    Redis throws on it, or refuses the lifetime. *)
Definition blanket_write_fails (env : Env) (w : World) (id : string) : Prop :=
  match blanket_lifetime env with
  | Js.Int seconds =>
      redis_throws w (SETEX ("blacklist:admin:" +:+ id) seconds "1") = true
  | _ => True
  end.

(** [data.user] of an answer that shows the row [u]. *)
Definition shown_user (u : User) : LoginUser :=
  {| lu_id := Some (user_id u); lu_email := user_email u;
     lu_firstName := user_firstName u; lu_lastName := user_lastName u;
     lu_role := user_role u |}.

(** The verification record of [email] is there, has not expired and is
    [r]. *)
Definition live_verification (w : World) (email : string)
  (r : EmailVerification) : Prop :=
  emailVerifications w !! (email, "SIGNUP") = Some r /\
  nowMs w <= ev_expiresAt r.

(** The token pair signed for an identity. *)
Definition token_pair (env : Env) (id email role : string) : Tokens :=
  let payload :=
    {| sub := Some id; jwt_email := email; jwt_role := role;
       exp := None; purpose := None |} in
  {| accessToken :=
       jwt_sign env payload (JWT_SECRET env) (JWT_EXPIRY_TIME env);
     refreshToken :=
       jwt_sign env payload (JWT_REFRESH_SECRET env)
         (JWT_REFRESH_EXPIRY_TIME env) |}.

(** ** Reset tokens *)

(** The claims of the token that a verified reset code is exchanged for. *)
Definition reset_claims (email : string) : JwtPayload :=
  {| sub := None; jwt_email := email; jwt_role := "";
     exp := None; purpose := Some "password-reset" |}.

(** The reset token of [email]. *)
Definition reset_token (env : Env) (email : string) : string :=
  jwt_sign env (reset_claims email) (JWT_SECRET env) "15m".

(** The reset record [r] once its code is verified at the time [now]. *)
Definition verified_reset (r : PasswordReset) (now : Z) : PasswordReset :=
  {| pr_code := pr_code r; pr_expiresAt := pr_expiresAt r;
     pr_attempts := pr_attempts r; pr_verifiedAt := Some now |}.

(** [tok] verifies under the access secret as a reset token of [email]. *)
Definition verifies_as_reset (env : Env) (tok email : string) : Prop :=
  exists p, jwt_verify env tok (JWT_SECRET env) = inr p /\
            purpose p = Some "password-reset" /\ jwt_email p = email.

(** ** Mail *)

(** The mail service skips the address [email]: a user row has it and is
    deleted. *)
Definition skipped_address (w : World) (email : string) : bool :=
  match user_by_email w email with
  | Some u => mail_skipped u
  | None => false
  end.

(** The reset code the next admin [forgotPassword] draws: the fixed code in
    development, else [randomInt(0, 10000)] padded to four digits. *)
Definition admin_next_code (env : Env) (w : World) : string :=
  if IS_DEVELOPMENT env then DEFAULT_OTP
  else Js.padStart 4 "0"
         (pretty (match entropy w with
                  | [] => 0
                  | r :: _ => 0 + r `mod` (10000 - 0)
                  end)).

(** The reset record that a user's [forgotPassword] leaves. *)
Definition user_reset_record (w : World) : PasswordReset :=
  {| pr_code := next_code w;
     pr_expiresAt := nowMs w + OTP_EXPIRATION_TIME * 60 * 1000;
     pr_attempts := 0; pr_verifiedAt := None |}.

(** The reset record that an admin's [forgotPassword] leaves for [email]:
    the update of a record keeps its [verifiedAt]. *)
Definition admin_reset_record (env : Env) (w : World) (email : string)
  : PasswordReset :=
  {| pr_code := admin_next_code env w;
     pr_expiresAt := nowMs w + OTP_EXPIRATION_TIME * 60 * 1000;
     pr_attempts := 0;
     pr_verifiedAt := passwordResets w !! (email, "ADMIN") ≫= pr_verifiedAt |}.

(** No mail can be queued for [email]: the address is skipped or the queue
    is down. *)
Definition undeliverable (w : World) (email : string) : bool :=
  skipped_address w email || queue_throws w.

(** ** Referral codes *)

(** A character of the referral alphabet. *)
Definition referral_char (c : ascii) : Prop :=
  In c (list_ascii_of_string Utils.referral_charset).

(** ** Further sample worlds *)

Module Scenario.

(** The sample environment with Basic credentials switched on. *)
Definition basic_env : Env :=
  {| JWT_SECRET := JWT_SECRET Sample.env;
     JWT_REFRESH_SECRET := JWT_REFRESH_SECRET Sample.env;
     JWT_EXPIRY_TIME := JWT_EXPIRY_TIME Sample.env;
     JWT_REFRESH_EXPIRY_TIME := JWT_REFRESH_EXPIRY_TIME Sample.env;
     BASIC_AUTH_ENABLED := "true";
     IS_DEVELOPMENT := IS_DEVELOPMENT Sample.env;
     jwt_verify := jwt_verify Sample.env;
     jwt_decode := jwt_decode Sample.env;
     jwt_sign := jwt_sign Sample.env;
     bcrypt_compare := bcrypt_compare Sample.env;
     bcrypt_hash := bcrypt_hash Sample.env;
     base64_decode := base64_decode Sample.env |}.

(** The toy token format with reset tokens: "reset.EMAIL" under the access
    secret. *)
Definition verify (token secret : string) : Exn + JwtPayload :=
  if String.eqb secret "access-secret" && String.prefix "reset." token
  then inr (reset_claims (substring 6 (String.length token) token))
  else Sample.verify token secret.

Definition sign (payload : JwtPayload) (secret expiresIn : string) : string :=
  match purpose payload with
  | Some _ => "reset." +:+ jwt_email payload
  | None => jwt_sign Sample.env payload secret expiresIn
  end.

Definition reset_env : Env :=
  {| JWT_SECRET := JWT_SECRET Sample.env;
     JWT_REFRESH_SECRET := JWT_REFRESH_SECRET Sample.env;
     JWT_EXPIRY_TIME := JWT_EXPIRY_TIME Sample.env;
     JWT_REFRESH_EXPIRY_TIME := JWT_REFRESH_EXPIRY_TIME Sample.env;
     BASIC_AUTH_ENABLED := BASIC_AUTH_ENABLED Sample.env;
     IS_DEVELOPMENT := IS_DEVELOPMENT Sample.env;
     jwt_verify := verify;
     jwt_decode := jwt_decode Sample.env;
     jwt_sign := sign;
     bcrypt_compare := bcrypt_compare Sample.env;
     bcrypt_hash := bcrypt_hash Sample.env;
     base64_decode := base64_decode Sample.env |}.

(** An active regular admin. *)
Definition trent : Admin :=
  {| admin_id := "a3"; admin_email := "trent@example.com";
     admin_password := "hash:trust";
     admin_firstName := "Trent"; admin_lastName := "Third";
     admin_role := "ADMIN"; admin_status := "ACTIVE";
     admin_isDeleted := false;
     admin_isSuspended := false |}.

(** Deleted. *)
Definition oscar : Admin :=
  {| admin_id := "a4"; admin_email := "oscar@example.com";
     admin_password := "hash:grouch";
     admin_firstName := "Oscar"; admin_lastName := "Out";
     admin_role := "ADMIN"; admin_status := "ACTIVE";
     admin_isDeleted := true;
     admin_isSuspended := false |}.

(** Deactivated, as [AdminService.toggleStatus] leaves a row: the status is
    DEACTIVATED, the row is neither flagged deleted nor suspended. *)
Definition victor : Admin :=
  {| admin_id := "a5"; admin_email := "victor@example.com";
     admin_password := "hash:vanquished";
     admin_firstName := "Victor"; admin_lastName := "Void";
     admin_role := "ADMIN"; admin_status := "DEACTIVATED";
     admin_isDeleted := false; admin_isSuspended := false |}.

(** The admin a1 is the super admin. *)
Definition is_super (a : Admin) : bool := String.eqb (admin_id a) "a1".

(** The sample world with the given faults of Redis and of the mail queue,
    the given admins and reset records. *)
Definition world (redis_down queue_down : bool) (staff : list Admin)
  (resets : gmap (string * string) PasswordReset) : World :=
  {| redis := ∅; redis_throws := fun _ => redis_down;
     users := users Sample.quiet; admins := staff;
     passwordResets := resets; emailVerifications := ∅;
     emailQueue := []; queue_throws := queue_down;
     nowMs := nowMs Sample.quiet; entropy := entropy Sample.quiet;
     trace := [] |}.

Definition redis_down : World := world true false (admins Sample.quiet) ∅.

Definition queue_down : World := world false true (admins Sample.quiet) ∅.

Definition staffed (redis_down : bool) : World :=
  world redis_down false [Sample.root; Sample.mallory; trent; oscar] ∅.

(** The sample world with the deactivated admin; the revocation store holds
    nothing. *)
Definition deactivated : World :=
  world false false [Sample.root; victor] ∅.

(** A reset record that expired a second ago. *)
Definition expired_reset : PasswordReset :=
  {| pr_code := "123456"; pr_expiresAt := 1699999999000;
     pr_attempts := 0; pr_verifiedAt := None |}.

Definition stale : World :=
  world false false (admins Sample.quiet)
    (<[("alice@example.com", "USER") := expired_reset]>
       (<[("root@example.com", "ADMIN") := expired_reset]> ∅)).

End Scenario.

(** * Properties *)

(** ** Expiry strings *)

Section ExpiryParsing.

Import TimeUtils.

Lemma span_digits_app ds u rest :
  all_digits ds -> Js.is_digit u = false ->
  span_digits (ds +:+ String u rest) = (ds, String u rest).
Proof.
  unfold all_digits. induction ds as [|c ds IH]; simpl; intros Hd Hu.
  - now rewrite Hu.
  - apply andb_prop in Hd as [Hc Hds]. rewrite Hc, IH; auto.
Qed.

Lemma span_digits_sound s ds rest :
  span_digits s = (ds, rest) ->
  s = ds +:+ rest /\ all_digits ds.
Proof.
  unfold all_digits. revert ds rest.
  induction s as [|c s IH]; simpl; intros ds rest H.
  - inversion H; subst. now split.
  - destruct (Js.is_digit c) eqn:Hc.
    + destruct (span_digits s) as [ds' rest'] eqn:Hs.
      inversion H; subst. destruct (IH _ _ eq_refl) as [-> Hd].
      split; [reflexivity|]. simpl. now rewrite Hc.
    + inversion H; subst. now split.
Qed.

Lemma unit_table_is_unit u mult :
  In (Js.ascii_lower u, mult) unit_table ->
  is_unit u = true /\ Js.is_digit u = false /\
  unitMultipliers (Js.toLowerCase (String u EmptyString)) = Some mult.
Proof.
  destruct u as [[] [] [] [] [] [] [] []]; vm_compute;
    intros H; repeat (destruct H as [H|H]; [inversion H; auto|]);
    destruct H.
Qed.

Lemma is_unit_table u :
  is_unit u = true -> exists mult, In (Js.ascii_lower u, mult) unit_table.
Proof.
  destruct u as [[] [] [] [] [] [] [] []]; intros H;
    try (vm_compute in H; discriminate H);
    eexists; simpl; repeat (first [left; reflexivity | right]).
Qed.

Lemma exec_expiry_shape s ds us :
  exec_expiry s = Some (ds, us) ->
  exists u mult, us = String u EmptyString /\ expiry_shape s ds u mult.
Proof.
  unfold exec_expiry. destruct (span_digits s) as [d rest] eqn:Hs.
  destruct d as [|c d]; [discriminate|].
  destruct rest as [|u [|? ?]]; try discriminate.
  destruct (is_unit u) eqn:Hu; [|discriminate].
  intros H; inversion H; subst.
  destruct (span_digits_sound _ _ _ Hs) as [-> Hd].
  destruct (is_unit_table _ Hu) as [mult Hm].
  exists u, mult. repeat split; auto; discriminate.
Qed.

Lemma unit_table_positive u mult : In (u, mult) unit_table -> 1 <= mult.
Proof.
  intros H. repeat (destruct H as [H|H]; [inversion H; lia|]). destruct H.
Qed.

Lemma nearest_double_exact n : n <= 2 ^ 53 -> Js.nearest_double n = Js.Int n.
Proof.
  intros H. unfold Js.nearest_double.
  now rewrite (proj2 (Z.leb_le n (2 ^ 53)) H).
Qed.

(** C9, as amended. An input made of decimal digits followed by one of the
    unit letters s, m, h, d, w (in either case) parses to the product, in
    double arithmetic, of the digits' value and the unit's multiplier (1, 60,
    3600, 86400, 604800): [parseInt] gives the double nearest to the value
    and the product is rounded to the nearest double again; this is exactly
    the value times the multiplier whenever that is at most 2^53.  Every
    input that has not this shape parses to the default 604800, seven days
    in seconds. *)
Theorem parseExpiryToSeconds_spec :
  (forall s ds u mult,
      expiry_shape s ds u mult ->
      parseExpiryToSeconds s
        = Js.mul (Js.nearest_double (Js.decimal ds)) (Js.Int mult) /\
      (Js.decimal ds * mult <= 2 ^ 53 ->
       parseExpiryToSeconds s = Js.Int (Js.decimal ds * mult))) /\
  (forall s,
      (forall ds u mult, ~ expiry_shape s ds u mult) ->
      parseExpiryToSeconds s = Js.Int 604800) /\
  DEFAULT_TOKEN_EXPIRY_SECONDS = 604800.
Proof.
  split; [|split; [|reflexivity]].
  - intros s ds u mult (-> & Hne & Hd & Hin).
    destruct (unit_table_is_unit _ _ Hin) as (Hu & Hnd & Hm).
    pose proof (unit_table_positive _ _ Hin) as Hpos.
    assert (Hrun : parseExpiryToSeconds (ds +:+ String u EmptyString)
                   = Js.mul (Js.nearest_double (Js.decimal ds)) (Js.Int mult)).
    { unfold parseExpiryToSeconds, exec_expiry.
      rewrite (span_digits_app _ _ _ Hd Hnd).
      destruct ds as [|c ds]; [congruence|].
      rewrite Hu, Hm. reflexivity. }
    split; [exact Hrun|]. intros Hsmall. rewrite Hrun.
    rewrite nearest_double_exact by nia.
    unfold Js.mul. now apply nearest_double_exact.
  - intros s Hno. unfold parseExpiryToSeconds.
    destruct (exec_expiry s) as [[ds us]|] eqn:He; [|reflexivity].
    destruct (exec_expiry_shape _ _ _ He) as (u & mult & _ & Hshape).
    now destruct (Hno ds u mult).
Qed.

End ExpiryParsing.

(** Beyond 2^53 the doubles are not all the integers: 9007199254740993
    seconds parse to 9007199254740992; as stated, C9 fails there. *)
Lemma parseExpiryToSeconds_rounds_large_values : ~ exact_product.
Proof.
  intros H.
  assert (Hs : expiry_shape "9007199254740993s" "9007199254740993" "s"%char 1)
    by (repeat split; [discriminate | simpl; auto]).
  specialize (H _ _ _ _ Hs). vm_compute in H. discriminate H.
Qed.

Ltac unfold_monad :=
  unfold outcome, after, bind, ret, throw, throw_if, try_catch, read, emit,
    set_redis, set_passwordResets, set_emailVerifications, set_emailQueue,
    set_entropy in *.

(** One step of a run kept in a hypothesis: the next case distinction. *)
Ltac step_in H :=
  match type of H with
  | context [match ?x with _ => _ end] =>
      match x with
      | context [match _ with _ => _ end] => fail 1
      | _ => destruct x eqn:?
      end
  end.

Ltac run_in H :=
  unfold_monad; simpl in H;
  repeat (step_in H; simpl in H; try discriminate H).

(** The same on the goal. *)
Ltac step_goal :=
  match goal with
  | |- context [match ?x with _ => _ end] =>
      match x with
      | context [match _ with _ => _ end] => fail 1
      | _ => destruct x eqn:?
      end
  end.

(** ** The revocation store fails open on reads *)

Section BlacklistReads.

Import TokenBlacklistService.

Lemma redis_probe_run (key : string) (w : World) :
  try_catch
    (let! result := RedisClient.get key in
     ret (bool_decide (result <> None)))
    (fun _ => ret false) w
  = (Returned (store_has w key),
     snd (emit (EvRedis (GET key)) w)).
Proof.
  unfold store_has, RedisClient.get. unfold_monad. simpl.
  destruct (redis_throws w (GET key)); simpl; [reflexivity|].
  destruct (redis w !! key) as [[ttl v]|]; reflexivity.
Qed.

Lemma isTokenBlacklisted_run token w :
  isTokenBlacklisted token w
  = (Returned (store_has w ("blacklist:" +:+ token)),
     snd (emit (EvRedis (GET ("blacklist:" +:+ token))) w)).
Proof. apply redis_probe_run. Qed.

Lemma isUserBlacklisted_run userId w :
  isUserBlacklisted userId w
  = (Returned (store_has w ("blacklist:user:" +:+ userId)),
     snd (emit (EvRedis (GET ("blacklist:user:" +:+ userId))) w)).
Proof. apply redis_probe_run. Qed.

Lemma isAdminBlacklisted_run adminId w :
  isAdminBlacklisted adminId w
  = (Returned (store_has w ("blacklist:admin:" +:+ adminId)),
     snd (emit (EvRedis (GET ("blacklist:admin:" +:+ adminId))) w)).
Proof. apply redis_probe_run. Qed.

Lemma store_has_true w key :
  store_has w key = true <->
  redis_throws w (GET key) = false /\ is_Some (redis w !! key).
Proof.
  unfold store_has. rewrite andb_true_iff, negb_true_iff, bool_decide_eq_true.
  reflexivity.
Qed.

(** C3. The three reads of the revocation store never throw: each returns a
    boolean in every world, [false] when the store's [get] throws, and [true]
    only when the [get] went through and the key is there. *)
Theorem blacklist_reads_fail_open (w : World) (x : string) :
  let ok (m : M bool) (key : string) :=
    exists b : bool,
      outcome m w = Returned b /\
      (redis_throws w (GET key) = true -> b = false) /\
      (b = true <->
       redis_throws w (GET key) = false /\ is_Some (redis w !! key)) in
  ok (isTokenBlacklisted x) ("blacklist:" +:+ x) /\
  ok (isUserBlacklisted x) ("blacklist:user:" +:+ x) /\
  ok (isAdminBlacklisted x) ("blacklist:admin:" +:+ x).
Proof.
  assert (H : forall key, store_has w key = true <->
            redis_throws w (GET key) = false /\ is_Some (redis w !! key))
    by apply store_has_true.
  assert (F : forall key, redis_throws w (GET key) = true ->
            store_has w key = false)
    by (intros key E; unfold store_has; now rewrite E).
  cbv zeta. unfold outcome.
  rewrite isTokenBlacklisted_run, isUserBlacklisted_run,
    isAdminBlacklisted_run.
  repeat split; eexists; (split; [reflexivity|]); split;
    try apply F; try apply H.
Qed.

End BlacklistReads.

(** ** Bearer headers *)

Section BearerHeaders.

Variable env : Env.

Lemma truthy_true s : s <> "" -> Js.truthy s = true.
Proof.
  intros H. unfold Js.truthy. apply negb_true_iff.
  now apply String.eqb_neq.
Qed.

Lemma bearer_header_nonempty h tok : bearer_header h tok -> h <> "".
Proof.
  intros (scheme & rest & Hs & _ & _) ->. simpl in Hs. discriminate.
Qed.

Lemma authenticateUser_bearer h tok :
  bearer_header h tok ->
  AuthGuard.authenticateUser env (Some h) = user_bearer_steps env tok.
Proof.
  intros Hb. pose proof (bearer_header_nonempty _ _ Hb) as Hne.
  destruct Hb as (scheme & rest & Hs & Hl & Htok).
  unfold AuthGuard.authenticateUser, user_bearer_steps.
  cbv zeta. cbn [Js.truthy_opt default from_option id].
  rewrite (truthy_true _ Hne), Hs. simpl.
  rewrite Hl, (truthy_true _ Htok). simpl.
  rewrite andb_false_r. reflexivity.
Qed.

Lemma authenticateAdmin_bearer h tok :
  bearer_header h tok ->
  AdminAuthGuard.authenticateAdmin env (Some h) = admin_bearer_steps env tok.
Proof.
  intros Hb. pose proof (bearer_header_nonempty _ _ Hb) as Hne.
  destruct Hb as (scheme & rest & Hs & Hl & Htok).
  unfold AdminAuthGuard.authenticateAdmin, admin_bearer_steps.
  cbv zeta. cbn [Js.truthy_opt default from_option id].
  rewrite (truthy_true _ Hne), Hs. simpl.
  rewrite Hl, (truthy_true _ Htok). simpl.
  reflexivity.
Qed.

End BearerHeaders.

(** ** Methods only add to the trace *)

Section TraceGrowth.

Lemma grows_ret {A} (a : A) : grows (ret a).
Proof. intros w. exists []. simpl. now rewrite app_nil_r. Qed.

Lemma grows_throw {A} (e : Exn) : grows (@throw A e).
Proof. intros w. exists []. simpl. now rewrite app_nil_r. Qed.

Lemma grows_read {A} (f : World -> A) : grows (read f).
Proof. intros w. exists []. simpl. now rewrite app_nil_r. Qed.

Lemma grows_emit ev : grows (emit ev).
Proof. intros w. now exists [ev]. Qed.

Lemma grows_bind {A B} (m : M A) (k : A -> M B) :
  grows m -> (forall a, grows (k a)) -> grows (bind m k).
Proof.
  intros Hm Hk w. unfold bind. destruct (Hm w) as [evs He].
  destruct (m w) as [[a|e] w']; simpl in *.
  - destruct (Hk a w') as [evs' He']. exists (evs ++ evs').
    now rewrite He', He, app_assoc.
  - now exists evs.
Qed.

Lemma grows_try_catch {A} (m : M A) (h : Exn -> M A) :
  grows m -> (forall e, grows (h e)) -> grows (try_catch m h).
Proof.
  intros Hm Hh w. unfold try_catch. destruct (Hm w) as [evs He].
  destruct (m w) as [[a|e] w']; simpl in *.
  - now exists evs.
  - destruct (Hh e w') as [evs' He']. exists (evs ++ evs').
    now rewrite He', He, app_assoc.
Qed.

Lemma grows_throw_if c e : grows (throw_if c e).
Proof. destruct c; [apply grows_throw | apply grows_ret]. Qed.

Lemma grows_set_redis r : grows (set_redis r).
Proof. intros w. exists []. simpl. now rewrite app_nil_r. Qed.

Lemma grows_set_passwordResets t : grows (set_passwordResets t).
Proof. intros w. exists []. simpl. now rewrite app_nil_r. Qed.

Lemma grows_set_emailVerifications t : grows (set_emailVerifications t).
Proof. intros w. exists []. simpl. now rewrite app_nil_r. Qed.

Lemma grows_set_emailQueue q : grows (set_emailQueue q).
Proof. intros w. exists []. simpl. now rewrite app_nil_r. Qed.

Lemma grows_set_entropy l : grows (set_entropy l).
Proof. intros w. exists []. simpl. now rewrite app_nil_r. Qed.

End TraceGrowth.

Create HintDb grows.

#[export] Hint Resolve grows_ret grows_throw grows_read grows_emit
  grows_throw_if grows_set_redis grows_set_passwordResets
  grows_set_emailVerifications grows_set_emailQueue grows_set_entropy
  : grows.

(** Takes a method apart along its binds, handlers and case distinctions. *)
Ltac grows_steps :=
  repeat first
    [ progress auto with grows
    | apply grows_bind; [|intros ?]
    | apply grows_try_catch; [|intros ?]
    | match goal with
      | |- grows (match ?x with _ => _ end) => destruct x
      | |- grows (if ?c then _ else _) => destruct c
      end ].

Section GuardTraces.

Variable env : Env.

Lemma grows_isTokenBlacklisted t :
  grows (TokenBlacklistService.isTokenBlacklisted t).
Proof.
  unfold TokenBlacklistService.isTokenBlacklisted, RedisClient.get.
  grows_steps.
Qed.

Lemma grows_isUserBlacklisted t :
  grows (TokenBlacklistService.isUserBlacklisted t).
Proof.
  unfold TokenBlacklistService.isUserBlacklisted, RedisClient.get.
  grows_steps.
Qed.

Lemma grows_isAdminBlacklisted t :
  grows (TokenBlacklistService.isAdminBlacklisted t).
Proof.
  unfold TokenBlacklistService.isAdminBlacklisted, RedisClient.get.
  grows_steps.
Qed.

Lemma grows_jwtService_verify t s : grows (jwtService_verify env t s).
Proof. unfold jwtService_verify. grows_steps. Qed.

End GuardTraces.

#[export] Hint Resolve grows_isTokenBlacklisted grows_isUserBlacklisted
  grows_isAdminBlacklisted grows_jwtService_verify : grows.

(** ** Revoked tokens *)

Section RevokedTokens.

Variable env : Env.

Lemma calls_app {A} (m : M A) w evs :
  trace (after m w) = trace w ++ evs -> calls m w = evs.
Proof.
  unfold calls. intros ->. now rewrite drop_app_length.
Qed.

Lemma bind_run {A B} (m : M A) (k : A -> M B) w :
  bind m k w
  = match m w with
    | (Returned a, w') => k a w'
    | (Thrown e, w') => (Thrown e, w')
    end.
Proof. reflexivity. Qed.

(** The first call of a bearer run is the read of the token's key. *)
Lemma bearer_steps_first_call (rest : M (string * string)) tok w :
  grows rest ->
  exists evs,
    calls (let! isBlacklisted :=
             TokenBlacklistService.isTokenBlacklisted tok in
           throw_if isBlacklisted
             (UnauthorizedException "Token has been revoked.") >> rest) w
    = EvRedis (GET ("blacklist:" +:+ tok)) :: evs.
Proof.
  intros Hrest.
  destruct (Hrest (snd (emit (EvRedis (GET ("blacklist:" +:+ tok))) w)))
    as [evs He].
  destruct (store_has w ("blacklist:" +:+ tok)) eqn:Hs.
  - exists []. apply calls_app. unfold after.
    rewrite bind_run, isTokenBlacklisted_run, Hs. reflexivity.
  - exists evs. apply calls_app. unfold after.
    rewrite bind_run, isTokenBlacklisted_run, Hs.
    unfold throw_if. rewrite bind_run. unfold ret at 1.
    rewrite He. simpl. now rewrite <- app_assoc.
Qed.

(** C2. A bearer token whose key is in the revocation store is rejected by
    both guards with "Token has been revoked.", whatever the verification of
    its signature and expiry would say: the read of the store is the only
    call made, and in every bearer run it is the first one, so it comes
    before the verification. *)
Theorem revoked_token_rejected (w : World) (h tok : string) :
  bearer_header h tok ->
  let key := "blacklist:" +:+ tok in
  let user := AuthGuard.authenticateUser env (Some h) in
  let admin := AdminAuthGuard.authenticateAdmin env (Some h) in
  ((exists evs, calls user w = EvRedis (GET key) :: evs) /\
   (exists evs, calls admin w = EvRedis (GET key) :: evs)) /\
  (redis_throws w (GET key) = false -> is_Some (redis w !! key) ->
   outcome user w
     = Thrown (UnauthorizedException "Token has been revoked.") /\
   calls user w = [EvRedis (GET key)] /\
   outcome admin w
     = Thrown (UnauthorizedException "Token has been revoked.") /\
   calls admin w = [EvRedis (GET key)]).
Proof.
  intros Hb. cbv zeta.
  rewrite (authenticateUser_bearer env _ _ Hb),
    (authenticateAdmin_bearer env _ _ Hb).
  split; [split|].
  - apply bearer_steps_first_call.
    unfold Prisma.user_findUnique_id. grows_steps.
  - apply bearer_steps_first_call.
    unfold Prisma.admin_findUnique_id. grows_steps.
  - intros Hup Hin.
    assert (Hs : store_has w ("blacklist:" +:+ tok) = true)
      by (apply store_has_true; auto).
    unfold outcome, user_bearer_steps, admin_bearer_steps.
    repeat split;
      try (apply calls_app; unfold after);
      rewrite bind_run, isTokenBlacklisted_run, Hs; reflexivity.
Qed.

End RevokedTokens.

(** ** Barred identities *)

Section BarredIdentities.

Variable env : Env.

Lemma not_user_barred u :
  user_isDeleted u || String.eqb (user_status u) "DELETED" = false ->
  negb (String.eqb (user_status u) "ACTIVE") = false ->
  ~ user_barred u.
Proof.
  intros H1 H2. apply orb_false_iff in H1 as [Hd Hs].
  apply negb_false_iff, String.eqb_eq in H2.
  intros [H|[H|H]]; congruence.
Qed.

Lemma not_admin_barred a :
  admin_isDeleted a = false -> admin_isSuspended a = false ->
  ~ admin_barred a.
Proof. intros H1 H2 [H|H]; congruence. Qed.

Lemma authenticateUser_sound header w id role :
  outcome (AuthGuard.authenticateUser env header) w = Returned (id, role) ->
  exists u, In u (users w) /\ user_id u = id /\ user_role u = role /\
            ~ user_barred u.
Proof.
  unfold outcome, AuthGuard.authenticateUser, AuthGuard.authenticateBasicAuth,
    TokenBlacklistService.isTokenBlacklisted,
    jwtService_verify, TokenBlacklistService.isUserBlacklisted,
    RedisClient.get, Prisma.user_findUnique_id, Prisma.user_findUnique_email,
    bcrypt_compare_call.
  intros H. run_in H;
    match goal with
    | Hf : find _ (users w) = Some ?u |- _ =>
        exists u; apply find_some in Hf as [Hin _];
        inversion H; subst; repeat split; auto using not_user_barred
    end.
Qed.

Lemma authenticateAdmin_sound header w id role :
  outcome (AdminAuthGuard.authenticateAdmin env header) w
    = Returned (id, role) ->
  exists a, In a (admins w) /\ admin_id a = id /\ admin_role a = role /\
            ~ admin_barred a.
Proof.
  unfold outcome, AdminAuthGuard.authenticateAdmin,
    TokenBlacklistService.isTokenBlacklisted,
    jwtService_verify, TokenBlacklistService.isAdminBlacklisted,
    RedisClient.get, Prisma.admin_findUnique_id.
  intros H. run_in H;
    match goal with
    | Hf : find _ (admins w) = Some ?a |- _ =>
        exists a; apply find_some in Hf as [Hin _];
        inversion H; subst; repeat split; auto using not_admin_barred
    end.
Qed.

(** Every rejection of the user guard is an [UnauthorizedException]. *)
Lemma authenticateUser_rejects_401 header w e :
  outcome (AuthGuard.authenticateUser env header) w = Thrown e ->
  exists msg, e = UnauthorizedException msg.
Proof.
  unfold outcome, AuthGuard.authenticateUser, AuthGuard.authenticateBasicAuth,
    TokenBlacklistService.isTokenBlacklisted,
    jwtService_verify, TokenBlacklistService.isUserBlacklisted,
    RedisClient.get, Prisma.user_findUnique_id, Prisma.user_findUnique_email,
    bcrypt_compare_call.
  intros H. run_in H; inversion H; eauto.
Qed.

Lemma user_barred_rejected w h tok payload u :
  bearer_header h tok ->
  jwt_verify env tok (JWT_SECRET env) = inr payload ->
  user_by_id w (default "" (sub payload)) = Some u ->
  user_barred u ->
  exists msg,
    outcome (AuthGuard.authenticateUser env (Some h)) w
      = Thrown (UnauthorizedException msg).
Proof.
  intros Hb Hv Hu Hbar.
  destruct (outcome (AuthGuard.authenticateUser env (Some h)) w)
    as [[id role]|e] eqn:Ho.
  - exfalso. revert Ho. rewrite (authenticateUser_bearer env _ _ Hb).
    unfold outcome, user_bearer_steps, AuthGuard.accessTokenSecret.
    rewrite bind_run, isTokenBlacklisted_run.
    unfold jwtService_verify, TokenBlacklistService.isUserBlacklisted,
      RedisClient.get, Prisma.user_findUnique_id.
    unfold user_by_id in Hu. intros H.
    unfold_monad; simpl in H. rewrite Hv in H. simpl in H.
    repeat (step_in H; simpl in H; try discriminate H;
            try (rewrite Hu in H; simpl in H)).
    all: eapply not_user_barred; eauto.
  - destruct (authenticateUser_rejects_401 _ _ _ Ho) as [msg ->]. eauto.
Qed.

(** Every rejection of the admin guard is an [UnauthorizedException], but
    for the one of a token whose verification throws a
    [JsonWebTokenError]. *)
Lemma authenticateAdmin_rejects header w e :
  outcome (AdminAuthGuard.authenticateAdmin env header) w = Thrown e ->
  (exists msg, e = UnauthorizedException msg) \/
  (e = BadRequestException ErrorMessages.INVALID_JWT_TOKEN_MESSAGE /\
   exists tok err,
     jwt_verify env tok (JWT_SECRET env) = inl err /\
     exn_name err = "JsonWebTokenError").
Proof.
  unfold outcome, AdminAuthGuard.authenticateAdmin,
    TokenBlacklistService.isTokenBlacklisted,
    jwtService_verify, TokenBlacklistService.isAdminBlacklisted,
    RedisClient.get, Prisma.admin_findUnique_id,
    AdminAuthGuard.accessTokenSecret.
  intros H. run_in H; inversion H; subst; eauto.
  all: try (match goal with
            | Hu : is_unauthorized ?x = true |- _ =>
                destruct x; try discriminate Hu; eauto
            end).
  all: right; split; [reflexivity|];
    match goal with
    | Hv : jwt_verify env ?t _ = inl ?x, Hn : (exn_name ?x =? _)%string = true
      |- _ => exists t, x; split; [exact Hv | now apply String.eqb_eq]
    end.
Qed.

Lemma admin_barred_rejected w h tok payload a :
  bearer_header h tok ->
  jwt_verify env tok (JWT_SECRET env) = inr payload ->
  admin_by_id w (default "" (sub payload)) = Some a ->
  admin_barred a ->
  exists msg,
    outcome (AdminAuthGuard.authenticateAdmin env (Some h)) w
      = Thrown (UnauthorizedException msg).
Proof.
  intros Hb Hv Ha Hbar.
  rewrite (authenticateAdmin_bearer env _ _ Hb).
  unfold outcome, admin_bearer_steps, AdminAuthGuard.accessTokenSecret.
  rewrite bind_run, isTokenBlacklisted_run.
  unfold jwtService_verify, TokenBlacklistService.isAdminBlacklisted,
    RedisClient.get, Prisma.admin_findUnique_id.
  unfold admin_by_id in Ha.
  unfold_monad; simpl. rewrite Hv. simpl.
  repeat (step_goal; simpl; try solve [eauto];
          try (rewrite Ha; simpl)).
  all: destruct Hbar; congruence.
Qed.

(** What the admin guard does with a verified token of a record that is
    neither flagged deleted nor suspended: the status is not looked at. *)
Lemma admin_unflagged_accepted w h tok payload id a :
  bearer_header h tok ->
  jwt_verify env tok (JWT_SECRET env) = inr payload ->
  sub payload = Some id -> id <> "" ->
  admin_by_id w id = Some a ->
  admin_isDeleted a = false -> admin_isSuspended a = false ->
  store_has w ("blacklist:" +:+ tok) = false ->
  store_has w ("blacklist:admin:" +:+ id) = false ->
  outcome (AdminAuthGuard.authenticateAdmin env (Some h)) w
    = Returned (admin_id a, admin_role a).
Proof.
  intros Hb Hv Hsub Hne Ha Hd Hs Htok Hid.
  rewrite (authenticateAdmin_bearer env _ _ Hb).
  unfold outcome, admin_bearer_steps, AdminAuthGuard.accessTokenSecret.
  rewrite bind_run, isTokenBlacklisted_run, Htok.
  unfold jwtService_verify, TokenBlacklistService.isAdminBlacklisted,
    RedisClient.get, Prisma.admin_findUnique_id.
  unfold admin_by_id in Ha. unfold store_has in Hid.
  unfold_monad; simpl. rewrite Hv. simpl. rewrite Hsub. simpl.
  rewrite (truthy_true _ Hne). simpl.
  destruct (redis_throws w (GET ("blacklist:admin:" +:+ id))); simpl in *.
  - rewrite Ha. simpl. now rewrite Hd, Hs.
  - destruct (redis w !! ("blacklist:admin:" +:+ id)) as [v|] eqn:Hl;
      simpl in *.
    + first [ discriminate Hid
            | rewrite bool_decide_eq_true_2 in Hid by eauto;
              discriminate Hid ].
    + rewrite Ha. simpl. now rewrite Hd, Hs.
Qed.

(** C1. The user guard authenticates no barred identity, and the admin guard
    none that is flagged deleted or suspended: a run that attaches an
    identity to the request attaches one of a record that is not barred
    (user: not flagged deleted, status ACTIVE; admin: neither flagged deleted
    nor suspended); and a bearer token that passes verification and names a
    barred record is rejected with an [UnauthorizedException].  The admin
    guard does not read the status of the row: a verified token of an admin
    whose status is not ACTIVE (DEACTIVATED, say) but who is neither flagged
    deleted nor suspended authenticates, unless the revocation store holds
    the token or the id. *)
Theorem barred_identity_rejected (w : World) :
  (forall header id role,
      outcome (AuthGuard.authenticateUser env header) w = Returned (id, role) ->
      exists u, In u (users w) /\ user_id u = id /\ user_role u = role /\
                ~ user_barred u) /\
  (forall header id role,
      outcome (AdminAuthGuard.authenticateAdmin env header) w
        = Returned (id, role) ->
      exists a, In a (admins w) /\ admin_id a = id /\ admin_role a = role /\
                ~ admin_barred a) /\
  (forall h tok payload u,
      bearer_header h tok ->
      jwt_verify env tok (JWT_SECRET env) = inr payload ->
      user_by_id w (default "" (sub payload)) = Some u ->
      user_barred u ->
      exists msg,
        outcome (AuthGuard.authenticateUser env (Some h)) w
          = Thrown (UnauthorizedException msg)) /\
  (forall h tok payload a,
      bearer_header h tok ->
      jwt_verify env tok (JWT_SECRET env) = inr payload ->
      admin_by_id w (default "" (sub payload)) = Some a ->
      admin_barred a ->
      exists msg,
        outcome (AdminAuthGuard.authenticateAdmin env (Some h)) w
          = Thrown (UnauthorizedException msg)) /\
  (forall h tok payload id a,
      bearer_header h tok ->
      jwt_verify env tok (JWT_SECRET env) = inr payload ->
      sub payload = Some id -> id <> "" ->
      admin_by_id w id = Some a ->
      admin_status a <> "ACTIVE" -> ~ admin_barred a ->
      store_has w ("blacklist:" +:+ tok) = false ->
      store_has w ("blacklist:admin:" +:+ id) = false ->
      outcome (AdminAuthGuard.authenticateAdmin env (Some h)) w
        = Returned (admin_id a, admin_role a)).
Proof.
  repeat split.
  - intros. now apply authenticateUser_sound with header.
  - intros. now apply authenticateAdmin_sound with header.
  - intros. eapply user_barred_rejected; eauto.
  - intros. eapply admin_barred_rejected; eauto.
  - intros h tok payload id a Hb Hv Hsub Hne Ha _ Hnb Htok Hid.
    assert (Hd : admin_isDeleted a = false).
    { destruct (admin_isDeleted a) eqn:E; [|reflexivity].
      exfalso. apply Hnb. now left. }
    assert (Hs : admin_isSuspended a = false).
    { destruct (admin_isSuspended a) eqn:E; [|reflexivity].
      exfalso. apply Hnb. now right. }
    now apply admin_unflagged_accepted with tok payload id.
Qed.

End BarredIdentities.

(** ** Logout *)

Section Logout.

Variable env : Env.

Ltac logout_unfold :=
  unfold UserAuthService.logout, AdminAuthService.logout,
    jwtService_decode, TokenBlacklistService.blacklistToken,
    RedisClient.setEx, Date_now, remainingTTL, positive.

(** Logout answers the success envelope in every world. *)
Lemma user_logout_always_ok w r a :
  outcome (UserAuthService.logout env r a) w = logout_ok.
Proof.
  logout_unfold. unfold_monad. simpl.
  repeat (step_goal; simpl); reflexivity.
Qed.

Lemma admin_logout_always_ok w r a :
  outcome (AdminAuthService.logout env r a) w = logout_ok.
Proof.
  logout_unfold. unfold_monad. simpl.
  repeat (step_goal; simpl); reflexivity.
Qed.

Lemma user_logout_writes_live w r a key seconds :
  In (key, seconds)
    (blacklist_writes (calls (UserAuthService.logout env r a) w)) ->
  exists token,
    In token [a; r] /\ key = "blacklist:" +:+ token /\
    decoded_ttl env w token = Some seconds /\ 0 < seconds.
Proof.
  unfold decoded_ttl. logout_unfold. unfold_monad. unfold calls, after. simpl.
  repeat (step_goal; simpl).
  all: repeat rewrite <- app_assoc; rewrite ?drop_app_length; simpl.
  all: intros H; repeat (destruct H as [H|H]); try contradiction;
    inversion H; subst; clear H.
  all: first
         [ exists a; split; [left; reflexivity|]; split; [reflexivity|]
         | exists r; split; [right; left; reflexivity|];
           split; [reflexivity|] ];
    match goal with
    | Hd : jwt_decode env ?t = Some ?j, He : exp ?j = Some ?z
      |- context [jwt_decode env ?t] => rewrite Hd, He
    end;
    (split; [reflexivity | now apply Z.ltb_lt]).
Qed.

Lemma admin_logout_writes_live w r a key seconds :
  In (key, seconds)
    (blacklist_writes (calls (AdminAuthService.logout env r a) w)) ->
  exists token,
    In token (admin_presented r a) /\ key = "blacklist:" +:+ token /\
    decoded_ttl env w token = Some seconds /\ 0 < seconds.
Proof.
  unfold decoded_ttl, admin_presented. logout_unfold. unfold_monad.
  unfold calls, after. simpl.
  repeat (step_goal; simpl).
  all: repeat rewrite <- app_assoc; rewrite ?drop_app_length; simpl.
  all: intros H; repeat (destruct H as [H|H]); try contradiction;
    inversion H; subst; clear H.
  all: first
         [ exists a; split; [left; reflexivity|]; split; [reflexivity|]
         | eexists; split; [right; left; reflexivity|];
           split; [reflexivity|] ];
    match goal with
    | Hd : jwt_decode env ?t = Some ?j, He : exp ?j = Some ?z
      |- context [jwt_decode env ?t] => rewrite Hd, He
    end;
    (split; [reflexivity | now apply Z.ltb_lt]).
Qed.

Lemma user_logout_live_written w r a token :
  decodes env a -> decodes env r ->
  (forall c, redis_throws w c = false) ->
  In token [a; r] ->
  positive (decoded_ttl env w token) = true ->
  exists seconds,
    decoded_ttl env w token = Some seconds /\
    In ("blacklist:" +:+ token, seconds)
      (blacklist_writes (calls (UserAuthService.logout env r a) w)) /\
    redis (after (UserAuthService.logout env r a) w)
      !! ("blacklist:" +:+ token) = Some (seconds, "1").
Proof.
  intros [pa Ha] [pr Hr] Hup Hin.
  unfold decoded_ttl. logout_unfold. unfold_monad. unfold calls, after. simpl.
  rewrite Ha, Hr. simpl.
  destruct (exp pa) as [ea|] eqn:Hea; destruct (exp pr) as [er|] eqn:Her;
    simpl; repeat (step_goal; simpl; rewrite ?Hup; simpl);
    try discriminate.
  all: repeat rewrite <- app_assoc; rewrite ?drop_app_length; simpl.
  all: destruct Hin as [<-|[<-|[]]]; rewrite ?Ha, ?Hr, ?Hea, ?Her; simpl;
    intros Hpos; try congruence.
  all: simplify_eq; eexists; split; [reflexivity|]; split; [simpl; auto|].
  all: rewrite ?lookup_insert; repeat case_decide; simpl in *;
    simplify_eq; try reflexivity.
Qed.

Lemma admin_logout_live_written w r a token :
  (forall t, In t (admin_presented r a) -> decodes env t) ->
  (forall c, redis_throws w c = false) ->
  In token (admin_presented r a) ->
  positive (decoded_ttl env w token) = true ->
  exists seconds,
    decoded_ttl env w token = Some seconds /\
    In ("blacklist:" +:+ token, seconds)
      (blacklist_writes (calls (AdminAuthService.logout env r a) w)) /\
    redis (after (AdminAuthService.logout env r a) w)
      !! ("blacklist:" +:+ token) = Some (seconds, "1").
Proof.
  intros Hdec Hup Hin.
  destruct (Hdec a (or_introl eq_refl)) as [pa Ha].
  assert (Hr : Js.truthy_opt r = true ->
               exists pr, jwt_decode env (default "" r) = Some pr).
  { intros Ht. apply (Hdec (default "" r)). unfold admin_presented.
    rewrite Ht. simpl. auto. }
  unfold admin_presented in Hin.
  unfold decoded_ttl. logout_unfold. unfold_monad. unfold calls, after. simpl.
  rewrite Ha. simpl.
  destruct (Js.truthy_opt r) eqn:Ht;
    [destruct (Hr eq_refl) as [pr Hpr]|]; clear Hr Hdec.
  - destruct (exp pa) as [ea|] eqn:Hea; simpl;
      repeat (step_goal; simpl; rewrite ?Hup; simpl); try discriminate.
    all: repeat rewrite <- app_assoc; rewrite ?drop_app_length; simpl.
    all: destruct Hin as [<-|[<-|[]]]; rewrite ?Ha, ?Hpr, ?Hea; simpl;
      intros Hpos; try congruence.
    all: simplify_eq; try (eexists; split; [reflexivity|]; split;
                           [simpl; auto|]).
    all: rewrite ?lookup_insert; repeat case_decide; simpl in *;
      simplify_eq; try reflexivity.
  - destruct (exp pa) as [ea|] eqn:Hea; simpl;
      repeat (step_goal; simpl; rewrite ?Hup; simpl); try discriminate.
    all: repeat rewrite <- app_assoc; rewrite ?drop_app_length; simpl.
    all: destruct Hin as [<-|[]]; rewrite ?Ha, ?Hea; simpl;
      intros Hpos; try congruence.
    all: simplify_eq; try (eexists; split; [reflexivity|]; split;
                           [simpl; auto|]).
    all: rewrite ?lookup_insert; repeat case_decide; simpl in *;
      simplify_eq; try reflexivity.
Qed.

Lemma decoded_ttl_inv w token seconds :
  decoded_ttl env w token = Some seconds -> 0 < seconds ->
  exists p e,
    jwt_decode env token = Some p /\ exp p = Some e /\
    seconds = Z.max 0 (e - nowMs w `div` 1000) /\
    (0 <? Z.max 0 (e - nowMs w `div` 1000)) = true.
Proof.
  unfold decoded_ttl, remainingTTL. intros H Hpos.
  destruct (jwt_decode env token) as [p|]; [|discriminate].
  destruct (exp p) as [e|] eqn:He; [|discriminate].
  injection H as <-. exists p, e.
  split; [reflexivity|]. split; [exact He|]. split; [reflexivity|].
  now apply Z.ltb_lt.
Qed.

Ltac logout_events :=
  repeat rewrite <- app_assoc; rewrite ?drop_app_length, ?drop_all; simpl.

Ltac logout_store :=
  rewrite ?lookup_insert; repeat case_decide; simpl in *; simplify_eq;
  try reflexivity; try congruence.

(** The access token of a user logout. *)
Lemma user_logout_access w r a seconds :
  decoded_ttl env w a = Some seconds -> 0 < seconds -> decodes env r ->
  In ("blacklist:" +:+ a, seconds)
    (blacklist_writes (calls (UserAuthService.logout env r a) w)) /\
  (redis_throws w (SETEX ("blacklist:" +:+ a) seconds "1") = false ->
   redis (after (UserAuthService.logout env r a) w) !! ("blacklist:" +:+ a)
   = Some (seconds, "1")).
Proof.
  intros Httl Hpos [pr Hr].
  destruct (decoded_ttl_inv _ _ _ Httl Hpos) as (pa & ea & Ha & Hea & -> & Hp).
  logout_unfold. unfold_monad. unfold calls, after. simpl.
  rewrite Ha, Hr. simpl. rewrite Hea. simpl. rewrite Hp. simpl.
  repeat (step_goal; simpl).
  all: logout_events.
  all: split; [auto|intros Hup]; logout_store.
Qed.

(** The access token of an admin logout: the refresh token plays no part. *)
Lemma admin_logout_access w ar a seconds :
  decoded_ttl env w a = Some seconds -> 0 < seconds ->
  In ("blacklist:" +:+ a, seconds)
    (blacklist_writes (calls (AdminAuthService.logout env ar a) w)) /\
  (redis_throws w (SETEX ("blacklist:" +:+ a) seconds "1") = false ->
   redis (after (AdminAuthService.logout env ar a) w) !! ("blacklist:" +:+ a)
   = Some (seconds, "1")).
Proof.
  intros Httl Hpos.
  destruct (decoded_ttl_inv _ _ _ Httl Hpos) as (pa & ea & Ha & Hea & -> & Hp).
  logout_unfold. unfold_monad. unfold calls, after. simpl.
  rewrite Ha. simpl. rewrite Hea. simpl. rewrite Hp. simpl.
  repeat (step_goal; simpl).
  all: logout_events.
  all: split; [auto|intros Hup]; logout_store.
Qed.

(** The refresh token of a user logout: written once the access token
    decodes and its write, if made, went through. *)
Lemma user_logout_refresh w r a seconds :
  decoded_ttl env w r = Some seconds -> 0 < seconds ->
  decodes env a -> write_passes env w a ->
  In ("blacklist:" +:+ r, seconds)
    (blacklist_writes (calls (UserAuthService.logout env r a) w)) /\
  (redis_throws w (SETEX ("blacklist:" +:+ r) seconds "1") = false ->
   redis (after (UserAuthService.logout env r a) w) !! ("blacklist:" +:+ r)
   = Some (seconds, "1")).
Proof.
  intros Httl Hpos [pa Ha] Hpass.
  destruct (decoded_ttl_inv _ _ _ Httl Hpos) as (pr & er & Hr & Her & -> & Hp).
  unfold write_passes, decoded_ttl, remainingTTL in Hpass. rewrite Ha in Hpass.
  logout_unfold. unfold_monad. unfold calls, after. simpl.
  rewrite Ha, Hr. simpl. rewrite Her. simpl. rewrite Hp.
  destruct (exp pa) as [ea|]; simpl.
  - destruct (0 <? Z.max 0 (ea - nowMs w `div` 1000)) eqn:Hpa; simpl.
    + rewrite (Hpass _ eq_refl) by now apply Z.ltb_lt. simpl.
      repeat (step_goal; simpl). all: logout_events.
      all: split; [auto|intros Hup]; logout_store.
    + repeat (step_goal; simpl). all: logout_events.
      all: split; [auto|intros Hup]; logout_store.
  - repeat (step_goal; simpl). all: logout_events.
    all: split; [auto|intros Hup]; logout_store.
Qed.

Lemma admin_logout_refresh w r a seconds :
  r <> "" ->
  decoded_ttl env w r = Some seconds -> 0 < seconds ->
  decodes env a -> write_passes env w a ->
  In ("blacklist:" +:+ r, seconds)
    (blacklist_writes (calls (AdminAuthService.logout env (Some r) a) w)) /\
  (redis_throws w (SETEX ("blacklist:" +:+ r) seconds "1") = false ->
   redis (after (AdminAuthService.logout env (Some r) a) w)
     !! ("blacklist:" +:+ r)
   = Some (seconds, "1")).
Proof.
  intros Hne Httl Hpos [pa Ha] Hpass.
  destruct (decoded_ttl_inv _ _ _ Httl Hpos) as (pr & er & Hr & Her & -> & Hp).
  unfold write_passes, decoded_ttl, remainingTTL in Hpass. rewrite Ha in Hpass.
  logout_unfold. unfold_monad. unfold calls, after. simpl.
  rewrite Ha. simpl. rewrite (truthy_true _ Hne). simpl.
  destruct (exp pa) as [ea|]; simpl.
  - destruct (0 <? Z.max 0 (ea - nowMs w `div` 1000)) eqn:Hpa; simpl.
    + rewrite (Hpass _ eq_refl) by now apply Z.ltb_lt. simpl.
      rewrite Hr. simpl. rewrite Her. simpl. rewrite Hp. simpl.
      repeat (step_goal; simpl). all: logout_events.
      all: split; [auto|intros Hup]; logout_store.
    + rewrite Hr. simpl. rewrite Her. simpl. rewrite Hp. simpl.
      repeat (step_goal; simpl). all: logout_events.
      all: split; [auto|intros Hup]; logout_store.
  - rewrite Hr. simpl. rewrite Her. simpl. rewrite Hp. simpl.
    repeat (step_goal; simpl). all: logout_events.
    all: split; [auto|intros Hup]; logout_store.
Qed.

(** What a write of a user logout presupposes. *)
Lemma user_logout_written_needs w r a token :
  written (calls (UserAuthService.logout env r a) w) token ->
  decodes env a /\ decodes env r /\ (token <> a -> write_passes env w a).
Proof.
  unfold written, write_passes, decodes, decoded_ttl, remainingTTL.
  logout_unfold. unfold_monad. unfold calls, after. simpl.
  repeat (step_goal; simpl).
  all: logout_events.
  all: intros [s H]; repeat (destruct H as [H|H]); try contradiction;
    inversion H; subst; clear H.
  all: repeat split; eauto.
  all: intros Hne s' Hs' Hpos'; simplify_eq; try congruence.
  all: try (apply Z.ltb_lt in Hpos'; congruence).
Qed.

Lemma admin_logout_written_needs w ar a token :
  written (calls (AdminAuthService.logout env ar a) w) token ->
  decodes env a /\ (token <> a -> write_passes env w a).
Proof.
  unfold written, write_passes, decodes, decoded_ttl, remainingTTL.
  logout_unfold. unfold_monad. unfold calls, after. simpl.
  repeat (step_goal; simpl).
  all: logout_events.
  all: intros [s H]; repeat (destruct H as [H|H]); try contradiction;
    inversion H; subst; clear H.
  all: repeat split; eauto.
  all: intros Hne s' Hs' Hpos'; simplify_eq; try congruence.
  all: try (apply Z.ltb_lt in Hpos'; congruence).
Qed.

Lemma blacklist_key_inj t1 t2 :
  "blacklist:" +:+ t1 = "blacklist:" +:+ t2 -> t1 = t2.
Proof. simpl. now intros [=]. Qed.

Lemma positive_Some seconds : 0 < seconds -> positive (Some seconds) = true.
Proof. intros H. simpl. now apply Z.ltb_lt. Qed.

(** C5, as amended. Both logouts answer the success envelope in every world,
    also when a token does not decode or a blacklist write throws.  A token
    is written to the blacklist only if it was presented and its remaining
    lifetime, max(0, exp - now) from the non-verifying decode, is strictly
    positive, and then exactly under these conditions.  The access token: in
    the user flow when the refresh token decodes too, in the admin flow
    always, whether or not the refresh token decodes.  The refresh token
    (in the admin flow, a non-empty one): when the access token decodes and
    the write of the access token, if one was made, did not throw.  The
    write carries the remaining lifetime as its expiry, and when Redis
    takes it the key is in the store. *)
Theorem logout_best_effort (w : World) (r a : string) (ar : option string) :
  let user := UserAuthService.logout env r a in
  let admin := AdminAuthService.logout env ar a in
  (outcome user w = logout_ok /\ outcome admin w = logout_ok) /\
  (forall token,
      (written (calls user w) token ->
       In token [a; r] /\ positive (decoded_ttl env w token) = true /\
       decodes env a /\ decodes env r /\
       (token <> a -> write_passes env w a)) /\
      (written (calls admin w) token ->
       In token (admin_presented ar a) /\
       positive (decoded_ttl env w token) = true /\
       decodes env a /\ (token <> a -> write_passes env w a))) /\
  (forall token seconds,
      decoded_ttl env w token = Some seconds -> 0 < seconds ->
      let key := "blacklist:" +:+ token in
      let stored (m : M (Response Null)) :=
        In (key, seconds) (blacklist_writes (calls m w)) /\
        (redis_throws w (SETEX key seconds "1") = false ->
         redis (after m w) !! key = Some (seconds, "1")) in
      (token = a -> (decodes env r -> stored user) /\ stored admin) /\
      (decodes env a -> write_passes env w a ->
       (token = r -> stored user) /\
       (ar = Some token -> token <> "" -> stored admin))).
Proof.
  cbv zeta. split; [|split].
  - split; [apply user_logout_always_ok | apply admin_logout_always_ok].
  - intros token; split; intros Hw.
    + destruct (user_logout_written_needs _ _ _ _ Hw) as (Hda & Hdr & Hp).
      destruct Hw as [seconds Hin].
      destruct (user_logout_writes_live _ _ _ _ _ Hin)
        as (t & Ht & Hk & Httl & Hpos).
      apply blacklist_key_inj in Hk as ->.
      rewrite Httl. repeat split; auto using positive_Some.
    + destruct (admin_logout_written_needs _ _ _ _ Hw) as (Hda & Hp).
      destruct Hw as [seconds Hin].
      destruct (admin_logout_writes_live _ _ _ _ _ Hin)
        as (t & Ht & Hk & Httl & Hpos).
      apply blacklist_key_inj in Hk as ->.
      rewrite Httl. repeat split; auto using positive_Some.
  - intros token seconds Httl Hpos. split.
    + intros ->. split.
      * intros Hdr. now apply user_logout_access.
      * now apply admin_logout_access.
    + intros Hda Hpass. split.
      * intros ->. now apply user_logout_refresh.
      * intros -> Hne. now apply admin_logout_refresh.
Qed.

End Logout.

(** A user logout with a live access token and a refresh token that does not
    decode writes nothing: as stated, C5 fails there. *)
Lemma logout_undecodable_refresh_skips_access :
  ~ logout_writes_exactly_live Sample.env Sample.quiet "garbage" "access.u1".
Proof.
  intros [_ H]. destruct (H "access.u1") as [_ Hw]; [simpl; auto|].
  destruct Hw as [seconds Hin]; [reflexivity|].
  vm_compute in Hin. exact Hin.
Qed.

(** ** Refresh with a revoked identity *)

Section RefreshRevoked.

Variable env : Env.

Lemma store_has_inv w key :
  store_has w key = true ->
  redis_throws w (GET key) = false /\ exists v, redis w !! key = Some v.
Proof. intros H. apply store_has_true in H as [Hup [v Hv]]. eauto. Qed.

Ltac refresh_unfold :=
  unfold UserAuthService.refreshToken, AdminAuthService.refreshToken,
    TokenBlacklistService.isTokenBlacklisted,
    TokenBlacklistService.isUserBlacklisted,
    TokenBlacklistService.isAdminBlacklisted,
    jwtService_verify, RedisClient.get, Js.interpolate.

(** C4. A refresh token that passes verification, for a subject with an
    identity-level blacklist entry in the flow's namespace, is rejected with
    an [UnauthorizedException] and no token is signed; the message that
    reaches the caller is the one of the enclosing handler, "Invalid refresh
    token" for users and "Invalid or expired refresh token" for admins, and
    not the "... tokens have been revoked" thrown inside. *)
Theorem refresh_revoked_identity_masked (w : World) (tok id : string)
  (payload : JwtPayload) :
  jwt_verify env tok (JWT_REFRESH_SECRET env) = inr payload ->
  sub payload = Some id ->
  (store_has w ("blacklist:user:" +:+ id) = true ->
   outcome (UserAuthService.refreshToken env tok) w
     = Thrown (UnauthorizedException "Invalid refresh token") /\
   no_token_signed (calls (UserAuthService.refreshToken env tok) w)) /\
  (store_has w ("blacklist:admin:" +:+ id) = true ->
   outcome (AdminAuthService.refreshToken env tok) w
     = Thrown (UnauthorizedException "Invalid or expired refresh token") /\
   no_token_signed (calls (AdminAuthService.refreshToken env tok) w)).
Proof.
  intros Hv Hsub.
  split; intros Hs; apply store_has_inv in Hs as [Hup [v Hlook]].
  - split.
    + unfold outcome. refresh_unfold. unfold_monad. simpl.
      rewrite Hv, Hsub. simpl.
      repeat (step_goal; simpl;
              repeat (progress (rewrite ?Hup, ?Hlook; simpl)));
        reflexivity.
    + unfold no_token_signed, calls, after. refresh_unfold. unfold_monad.
      simpl. rewrite Hv, Hsub. simpl.
      repeat (step_goal; simpl;
              repeat (progress (rewrite ?Hup, ?Hlook; simpl))).
      all: repeat rewrite <- app_assoc; rewrite ?drop_app_length; simpl.
      all: intros subject secret H;
        repeat (destruct H as [H|H]; try discriminate H); exact H.
  - split.
    + unfold outcome. refresh_unfold. unfold_monad. simpl.
      rewrite Hv, Hsub. simpl.
      repeat (step_goal; simpl;
              repeat (progress (rewrite ?Hup, ?Hlook; simpl)));
        reflexivity.
    + unfold no_token_signed, calls, after. refresh_unfold. unfold_monad.
      simpl. rewrite Hv, Hsub. simpl.
      repeat (step_goal; simpl;
              repeat (progress (rewrite ?Hup, ?Hlook; simpl))).
      all: repeat rewrite <- app_assoc; rewrite ?drop_app_length; simpl.
      all: intros subject secret H;
        repeat (destruct H as [H|H]; try discriminate H); exact H.
Qed.

End RefreshRevoked.

(** ** Status of the guards' rejections *)

Section RejectionStatus.

Variable env : Env.

(** C7. The user guard surfaces every rejection as a 401.  The admin guard
    does not: a bearer token that is not revoked and whose verification
    throws a [JsonWebTokenError] is rejected with a
    [BadRequestException], a 400, where the user guard answers 401
    "Malformed token." *)
Theorem malformed_admin_token_is_400 (w : World) (h tok : string)
  (err : Exn) :
  bearer_header h tok ->
  store_has w ("blacklist:" +:+ tok) = false ->
  jwt_verify env tok (JWT_SECRET env) = inl err ->
  exn_name err = "JsonWebTokenError" ->
  (forall header e,
      outcome (AuthGuard.authenticateUser env header) w = Thrown e ->
      http_status e = 401) /\
  outcome (AuthGuard.authenticateUser env (Some h)) w
    = Thrown (UnauthorizedException "Malformed token.") /\
  outcome (AdminAuthGuard.authenticateAdmin env (Some h)) w
    = Thrown (BadRequestException "Invalid token") /\
  http_status (BadRequestException "Invalid token") = 400.
Proof.
  intros Hb Hs Hv Hn. split; [|split; [|split; [|reflexivity]]].
  - intros header e He.
    destruct (authenticateUser_rejects_401 env _ _ _ He) as [msg ->].
    reflexivity.
  - rewrite (authenticateUser_bearer env _ _ Hb).
    unfold outcome, user_bearer_steps, AuthGuard.accessTokenSecret.
    rewrite bind_run, isTokenBlacklisted_run, Hs.
    unfold jwtService_verify. unfold_monad. simpl.
    rewrite Hv. simpl. rewrite Hn. reflexivity.
  - rewrite (authenticateAdmin_bearer env _ _ Hb).
    unfold outcome, admin_bearer_steps, AdminAuthGuard.accessTokenSecret.
    rewrite bind_run, isTokenBlacklisted_run, Hs.
    unfold jwtService_verify. unfold_monad. simpl.
    rewrite Hv. simpl. rewrite Hn. reflexivity.
Qed.

End RejectionStatus.

(** ** Password-reset verification *)

Section PasswordReset.

Variable env : Env.

Ltac reset_unfold :=
  unfold UserAuthService.verifyResetCode, AdminAuthService.verifyCode,
    UserAuthService.forgotPassword, AdminAuthService.forgotPassword,
    UserAuthService.MAX_PASSWORD_RESET_ATTEMPTS,
    AdminAuthService.MAX_PASSWORD_RESET_ATTEMPTS,
    UserAuthService.PASSWORD_RESET_TYPE, AdminAuthService.PASSWORD_RESET_TYPE,
    Prisma.user_findUnique_email, Prisma.admin_findUnique_email,
    Prisma.passwordReset_findUnique, Prisma.passwordReset_update,
    Prisma.passwordReset_delete, Prisma.passwordReset_upsert,
    EmailService.sendUserPasswordResetCode,
    EmailService.sendAdminPasswordResetCode, EmailService.sendEmail,
    EmailService.shouldSkipEmail, EmailQueue.addEmailToQueue,
    EmailQueue.queue_add, jwtService_sign, Date_now, randomInt.

Lemma user_wrong_code w email code u r :
  user_by_email w email = Some u ->
  live_reset w email "USER" r ->
  pr_attempts r < 3 -> pr_code r <> code ->
  let m := UserAuthService.verifyResetCode env email code in
  outcome m w = Thrown invalid_reset_code /\
  passwordResets (after m w)
    = <[(email, "USER") := one_more_attempt r]> (passwordResets w).
Proof.
  unfold user_by_email. intros Hu [Hr Hlive] Hcap Hcode.
  apply Z.ltb_ge in Hlive. apply Z.leb_gt in Hcap.
  apply String.eqb_neq in Hcode.
  cbv zeta. reset_unfold. unfold_monad. simpl.
  rewrite Hu. simpl. rewrite Hr. simpl. rewrite Hlive. simpl.
  rewrite Hcap. simpl. rewrite Hcode. simpl. rewrite Hr. simpl.
  split; reflexivity.
Qed.

Lemma user_cap_reached w email code u r :
  user_by_email w email = Some u ->
  live_reset w email "USER" r ->
  3 <= pr_attempts r ->
  let m := UserAuthService.verifyResetCode env email code in
  outcome m w = Thrown user_too_many_attempts /\ after m w = w.
Proof.
  unfold user_by_email. intros Hu [Hr Hlive] Hcap.
  apply Z.ltb_ge in Hlive. apply Z.leb_le in Hcap.
  cbv zeta. reset_unfold. unfold_monad. simpl.
  rewrite Hu. simpl. rewrite Hr. simpl. rewrite Hlive. simpl.
  rewrite Hcap. simpl. split; reflexivity.
Qed.

Lemma admin_wrong_code w email code r :
  live_reset w email "ADMIN" r ->
  pr_attempts r < 3 -> pr_code r <> code ->
  let m := AdminAuthService.verifyCode email code in
  outcome m w = Thrown invalid_reset_code /\
  passwordResets (after m w)
    = <[(email, "ADMIN") := one_more_attempt r]> (passwordResets w).
Proof.
  intros [Hr Hlive] Hcap Hcode.
  apply Z.ltb_ge in Hlive. apply Z.leb_gt in Hcap.
  apply String.eqb_neq in Hcode.
  cbv zeta. reset_unfold. unfold_monad. simpl.
  rewrite Hr. simpl. rewrite Hlive. simpl.
  rewrite Hcap. simpl. rewrite Hcode. simpl. rewrite Hr. simpl.
  split; reflexivity.
Qed.

Lemma admin_cap_reached w email code r :
  live_reset w email "ADMIN" r ->
  3 <= pr_attempts r ->
  let m := AdminAuthService.verifyCode email code in
  outcome m w = Thrown admin_too_many_attempts /\
  passwordResets (after m w) = delete (email, "ADMIN") (passwordResets w) /\
  admins (after m w) = admins w.
Proof.
  intros [Hr Hlive] Hcap.
  apply Z.ltb_ge in Hlive. apply Z.leb_le in Hcap.
  cbv zeta. reset_unfold. unfold_monad. simpl.
  rewrite Hr. simpl. rewrite Hlive. simpl.
  rewrite Hcap. simpl. rewrite Hr. simpl. repeat split; reflexivity.
Qed.

Lemma user_forgotPassword_fresh w email u :
  user_by_email w email = Some u ->
  let m := UserAuthService.forgotPassword email in
  outcome m w
    = Returned (SuccessResponse "Password reset code sent to your email" null)
  /\
  exists r, passwordResets (after m w) !! (email, "USER") = Some r /\
            fresh_reset w r /\ pr_verifiedAt r = None.
Proof.
  unfold user_by_email, fresh_reset. intros Hu.
  cbv zeta. reset_unfold. unfold_monad. simpl.
  rewrite Hu. simpl.
  repeat (step_goal; simpl; rewrite ?Hu; simpl).
  all: split; [reflexivity|]; eexists;
    (split; [apply lookup_insert_eq|]); repeat split; reflexivity.
Qed.

Lemma admin_forgotPassword_fresh w email ip a :
  admin_by_email w email = Some a ->
  let m := AdminAuthService.forgotPassword env email ip in
  outcome m w
    = Returned (SuccessResponse "Password reset code sent to email" null) /\
  exists r, passwordResets (after m w) !! (email, "ADMIN") = Some r /\
            fresh_reset w r.
Proof.
  unfold admin_by_email, fresh_reset. intros Ha.
  cbv zeta. reset_unfold. unfold_monad. simpl.
  rewrite Ha. simpl.
  repeat (step_goal; simpl).
  all: split; [reflexivity|]; eexists;
    (split; [apply lookup_insert_eq|]); repeat split; reflexivity.
Qed.

(** C6. With the cap of 3 attempts, on a reset record that has not expired:
    a wrong code below the cap is rejected as invalid and adds one to
    [attempts]; at the cap the call is rejected with the too-many-attempts
    error, and the admin flow deletes the record.  The user flow misses that
    delete: there the record stays as it is.  In both flows a
    [forgotPassword] that follows succeeds and leaves a fresh record with
    [attempts] at 0. *)
Theorem reset_attempts_capped (w : World) (email code : string)
  (r : PasswordReset) :
  (forall u,
      user_by_email w email = Some u -> live_reset w email "USER" r ->
      let verify := UserAuthService.verifyResetCode env email code in
      let forgot := UserAuthService.forgotPassword email in
      (pr_attempts r < 3 -> pr_code r <> code ->
       outcome verify w = Thrown invalid_reset_code /\
       passwordResets (after verify w)
         = <[(email, "USER") := one_more_attempt r]> (passwordResets w)) /\
      (3 <= pr_attempts r ->
       outcome verify w = Thrown user_too_many_attempts /\
       passwordResets (after verify w) !! (email, "USER") = Some r /\
       outcome forgot (after verify w)
         = Returned
             (SuccessResponse "Password reset code sent to your email" null)
       /\
       exists r', passwordResets (after forgot (after verify w))
                    !! (email, "USER") = Some r' /\
                  fresh_reset (after verify w) r')) /\
  (forall a ip,
      admin_by_email w email = Some a -> live_reset w email "ADMIN" r ->
      let verify := AdminAuthService.verifyCode email code in
      let forgot := AdminAuthService.forgotPassword env email ip in
      (pr_attempts r < 3 -> pr_code r <> code ->
       outcome verify w = Thrown invalid_reset_code /\
       passwordResets (after verify w)
         = <[(email, "ADMIN") := one_more_attempt r]> (passwordResets w)) /\
      (3 <= pr_attempts r ->
       outcome verify w = Thrown admin_too_many_attempts /\
       passwordResets (after verify w) !! (email, "ADMIN") = None /\
       outcome forgot (after verify w)
         = Returned (SuccessResponse "Password reset code sent to email" null)
       /\
       exists r', passwordResets (after forgot (after verify w))
                    !! (email, "ADMIN") = Some r' /\
                  fresh_reset (after verify w) r')).
Proof.
  split.
  - intros u Hu Hlive. cbv zeta. split.
    + intros Hcap Hcode. now apply user_wrong_code with u.
    + intros Hcap.
      destruct (user_cap_reached w email code u r Hu Hlive Hcap) as [Ho Hw].
      cbv zeta in Ho, Hw. rewrite Ho, Hw.
      destruct (user_forgotPassword_fresh w email u Hu)
        as (Hf & r' & Hr' & Hfresh & _).
      destruct Hlive as [Hr _]. repeat split; eauto.
  - intros a ip Ha Hlive. cbv zeta. split.
    + intros Hcap Hcode. now apply admin_wrong_code.
    + intros Hcap.
      destruct (admin_cap_reached w email code r Hlive Hcap)
        as (Ho & Ht & Hadm).
      cbv zeta in Ho, Ht, Hadm.
      assert (Ha' : admin_by_email
                      (after (AdminAuthService.verifyCode email code) w)
                      email = Some a)
        by (unfold admin_by_email in *; now rewrite Hadm).
      destruct (admin_forgotPassword_fresh _ email ip a Ha')
        as (Hf & r' & Hr' & Hfresh).
      repeat split; eauto.
      rewrite Ht. apply lookup_delete_eq.
Qed.

End PasswordReset.

(** At the cap the user flow rejects and keeps the record: as stated, C6
    fails there. *)
Lemma user_cap_reached_keeps_record :
  ~ cap_reached_deletes Sample.env (Sample.resetting 3)
      "alice@example.com" "000000".
Proof.
  intros H.
  destruct (H (Sample.reset_with 3)) as [_ Hgone].
  - split; [reflexivity | vm_compute; discriminate].
  - vm_compute; discriminate.
  - vm_compute in Hgone. discriminate Hgone.
Qed.

(** ** Login of an unverified account *)

Section UnverifiedLogin.

Variable env : Env.

Ltac login_unfold :=
  unfold UserAuthService.login, UserAuthService.sendEmailVerificationCode,
    Prisma.user_findUnique_email, Prisma.emailVerification_upsert,
    EmailService.sendEmailVerification, EmailService.sendEmail,
    EmailService.shouldSkipEmail, EmailQueue.addEmailToQueue,
    EmailQueue.queue_add, bcrypt_compare_call, Date_now, randomInt.

Lemma user_by_email_eq w email u :
  user_by_email w email = Some u -> user_email u = email.
Proof.
  unfold user_by_email. intros H. apply find_some in H as [_ H].
  now apply String.eqb_eq.
Qed.

(** What [login] does for an account that is not verified. *)
Lemma login_unverified_run w email password u :
  user_by_email w email = Some u -> user_emailVerified u = false ->
  let m := UserAuthService.login env email password in
  outcome m w = Returned (verification_response u) /\
  emailVerifications (after m w) !! (email, "SIGNUP")
    = Some {| ev_code := next_code w;
              ev_expiresAt := nowMs w + OTP_EXPIRATION_TIME * 60 * 1000;
              ev_attempts := 0 |} /\
  calls m w
    = EvSendEmailVerification email (next_code w) (full_name u)
      :: (if mail_skipped u then []
          else [EvQueueAdd (verification_job u (next_code w))]).
Proof.
  intros Hu Hv. pose proof (user_by_email_eq _ _ _ Hu) as He. subst email.
  unfold user_by_email in Hu.
  cbv zeta. unfold calls, after, verification_response, next_code,
    mail_skipped, verification_job, full_name.
  login_unfold. unfold_monad. simpl.
  rewrite Hu. simpl. rewrite Hv. simpl.
  repeat (step_goal; simpl; repeat (progress (rewrite ?Hu; simpl))).
  all: repeat rewrite <- app_assoc; rewrite ?drop_app_length; simpl.
  all: rewrite ?lookup_insert_eq; repeat split; try reflexivity.
Qed.

(** C8. A login for an account that exists and is not verified does not
    reject: it answers the success envelope with [emailVerified: false] and
    [tokens: null], stores a fresh verification code for the email (five
    minutes, no attempt) and calls the email service with that code. *)
Theorem unverified_login_sends_code (w : World) (email password : string)
  (u : User) :
  user_by_email w email = Some u -> user_emailVerified u = false ->
  let m := UserAuthService.login env email password in
  outcome m w = Returned (verification_response u) /\
  ld_emailVerified (data (verification_response u)) = Some false /\
  ld_tokens (data (verification_response u)) = None /\
  emailVerifications (after m w) !! (email, "SIGNUP")
    = Some {| ev_code := next_code w;
              ev_expiresAt := nowMs w + OTP_EXPIRATION_TIME * 60 * 1000;
              ev_attempts := 0 |} /\
  In (EvSendEmailVerification email (next_code w) (full_name u)) (calls m w).
Proof.
  intros Hu Hv.
  destruct (login_unverified_run w email password u Hu Hv) as (Ho & Hs & Hc).
  cbv zeta in *. rewrite Hc.
  repeat split; auto. now left.
Qed.

(** C10, as amended. In user login the [emailVerified] check comes before
    the deleted and status checks and before the password comparison: for a
    record that is not verified, login answers the verification response
    ([tokens: null]), whatever the password and the status, and its only
    calls are the one to the email service with the code and, unless the
    account is flagged deleted or of status DELETED, the handing of the code
    mail to the mail queue; the mail service skips the mail of a deleted
    account.  The code is the one that login stores for the email.  A login
    that compares the password or rejects the account as deleted or inactive
    is one of a verified record. *)
Theorem unverified_login_precedes_checks (w : World)
  (email password : string) (u : User) :
  user_by_email w email = Some u ->
  let m := UserAuthService.login env email password in
  (user_emailVerified u = false ->
   outcome m w = Returned (verification_response u) /\
   calls m w
     = EvSendEmailVerification email (next_code w) (full_name u)
       :: (if mail_skipped u then []
           else [EvQueueAdd (verification_job u (next_code w))]) /\
   (mailed (calls m w) email (next_code w) <-> mail_skipped u = false) /\
   emailVerifications (after m w) !! (email, "SIGNUP")
     = Some {| ev_code := next_code w;
               ev_expiresAt := nowMs w + OTP_EXPIRATION_TIME * 60 * 1000;
               ev_attempts := 0 |}) /\
  ((exists plain hash, In (EvBcryptCompare plain hash) (calls m w)) \/
   outcome m w = Thrown (UnauthorizedException "This account does not exist")
   \/
   outcome m w
     = Thrown (UnauthorizedException "You can't login at the moment") ->
   user_emailVerified u = true).
Proof.
  intros Hu. cbv zeta.
  assert (Hrun : user_emailVerified u = false ->
            outcome (UserAuthService.login env email password) w
              = Returned (verification_response u) /\
            calls (UserAuthService.login env email password) w
              = EvSendEmailVerification email (next_code w) (full_name u)
                :: (if mail_skipped u then []
                    else [EvQueueAdd (verification_job u (next_code w))])).
  { intros Hv.
    destruct (login_unverified_run w email password u Hu Hv)
      as (Ho & _ & Hc). now split. }
  split.
  - intros Hv. destruct (Hrun Hv) as [Ho Hc].
    destruct (login_unverified_run w email password u Hu Hv)
      as (_ & Hst & _).
    split; [exact Ho|]. split; [exact Hc|]. split; [|exact Hst]. split.
    + rewrite Hc. intros (job & Hin & _). destruct (mail_skipped u); auto.
      destruct Hin as [Hin|[]]. discriminate Hin.
    + rewrite Hc. intros ->. exists (verification_job u (next_code w)).
      repeat split; [simpl; auto|]. simpl.
      now apply user_by_email_eq with w.
  - intros H. destruct (user_emailVerified u) eqn:Hv; [reflexivity|].
    destruct (Hrun eq_refl) as [Ho Hc]. rewrite Ho, Hc in H.
    destruct H as [(plain & hash & Hin)|[H|H]]; try discriminate H.
    destruct (mail_skipped u); simpl in Hin;
      repeat (destruct Hin as [Hin|Hin]; try discriminate Hin);
      destruct Hin.
Qed.

End UnverifiedLogin.

(** For an unverified account that is deleted, login answers the
    verification response but no mail reaches the queue: as stated, C10
    fails there. *)
Lemma deleted_unverified_login_mails_nothing :
  ~ unverified_login_mails_code Sample.env Sample.quiet
      "dave@example.com" "x".
Proof.
  intros H.
  destruct (H Sample.dave eq_refl eq_refl) as [_ (job & Hin & _)].
  vm_compute in Hin. destruct Hin as [Hin|Hin]; [discriminate Hin|exact Hin].
Qed.

(** * The properties on the sample worlds *)

Section Witnesses.

Import Sample.

Ltac bearer :=
  exists "Bearer", []; split; [reflexivity | split; [reflexivity | discriminate]].

(** The model at work on ordinary requests. *)

Example parseInt10_decimal :
  Js.parseInt10 "0120" = 120 /\
  Js.parseInt10 "9007199254740993" = 9007199254740992 /\
  Js.parseInt10 "" = Js.NaN.
Proof. repeat split; vm_compute; reflexivity. Qed.

Example split_header :
  Js.split " " "Bearer a.b.c" = ["Bearer"; "a.b.c"] /\
  Js.split " " "Bearer" = ["Bearer"] /\
  Js.split " " "Bearer  x" = ["Bearer"; ""; "x"].
Proof. repeat split. Qed.

Example alice_authenticates :
  outcome (AuthGuard.authenticateUser env (Some "bearer access.u1")) quiet
    = Returned ("u1", "USER").
Proof. vm_compute. reflexivity. Qed.

Example expired_token_rejected :
  outcome (AuthGuard.authenticateUser env (Some "Bearer expired.u1")) quiet
    = Thrown (UnauthorizedException "Token expired.") /\
  outcome (AdminAuthGuard.authenticateAdmin env (Some "Bearer expired.a1"))
    quiet
    = Thrown (UnauthorizedException "Token expired").
Proof. split; vm_compute; reflexivity. Qed.

Example missing_header_rejected :
  outcome (AuthGuard.authenticateUser env None) quiet
    = Thrown (UnauthorizedException
                "Authorization header is missing or invalid.") /\
  outcome (AuthGuard.authenticateUser env (Some "Token abc")) quiet
    = Thrown (UnauthorizedException "Invalid authorization type.").
Proof. split; vm_compute; reflexivity. Qed.

Example refresh_issues_pair :
  outcome (UserAuthService.refreshToken env "refresh.u1") quiet
    = Returned
        (SuccessResponse "Token refreshed successfully"
           {| accessToken := "access-secret:u1:12h";
              refreshToken := "refresh-secret:u1:7d" |}).
Proof. vm_compute. reflexivity. Qed.

Example alice_logs_in :
  outcome (UserAuthService.login env "alice@example.com" "wonderland") quiet
    = Returned
        (SuccessResponse "Login successful"
           {| ld_user :=
                {| lu_id := Some "u1"; lu_email := "alice@example.com";
                   lu_firstName := "Alice"; lu_lastName := "Liddell";
                   lu_role := "USER" |};
              ld_emailVerified := None;
              ld_tokens :=
                Some {| accessToken := "access-secret:u1:12h";
                        refreshToken := "refresh-secret:u1:7d" |} |}) /\
  outcome (UserAuthService.login env "alice@example.com" "looking-glass")
    quiet
    = Thrown (UnauthorizedException "Invalid email or password").
Proof. split; vm_compute; reflexivity. Qed.

Example right_code_verifies :
  outcome (AdminAuthService.verifyCode "root@example.com" "123456")
    (resetting 2)
    = Returned (SuccessResponse "Code verified successfully" true).
Proof. vm_compute. reflexivity. Qed.

Example logout_store_down :
  let down :=
    {| redis := ∅; redis_throws := fun _ => true;
       users := users quiet; admins := admins quiet;
       passwordResets := ∅; emailVerifications := ∅; emailQueue := [];
       queue_throws := false; nowMs := nowMs quiet; entropy := [];
       trace := [] |} in
  outcome (UserAuthService.logout env "refresh.u1" "access.u1") down
    = logout_ok /\
  calls (UserAuthService.logout env "refresh.u1" "access.u1") down
    = [EvJwtDecode "access.u1"; EvJwtDecode "refresh.u1";
       EvRedis (SETEX "blacklist:access.u1" 3600 "1")] /\
  redis (after (UserAuthService.logout env "refresh.u1" "access.u1") down)
    = ∅.
Proof. repeat split; vm_compute; reflexivity. Qed.

Lemma parseExpiryToSeconds_spec_witness :
  TimeUtils.parseExpiryToSeconds "7d" = 604800 /\
  TimeUtils.parseExpiryToSeconds "12H" = 43200 /\
  TimeUtils.parseExpiryToSeconds "9007199254740993s" = 9007199254740992 /\
  TimeUtils.parseExpiryToSeconds "soon" = 604800.
Proof.
  destruct parseExpiryToSeconds_spec as (Hshape & Hother & _).
  split; [|split; [|split]].
  - destruct (Hshape "7d" "7" "d"%char 86400) as [_ Hexact].
    { repeat split; [discriminate | simpl; auto 10]. }
    apply Hexact. vm_compute. discriminate.
  - destruct (Hshape "12H" "12" "H"%char 3600) as [_ Hexact].
    { repeat split; [discriminate | simpl; auto 10]. }
    apply Hexact. vm_compute. discriminate.
  - destruct (Hshape "9007199254740993s" "9007199254740993" "s"%char 1)
      as [Hrun _].
    { repeat split; [discriminate | simpl; auto 10]. }
    rewrite Hrun. vm_compute. reflexivity.
  - apply Hother. intros ds u mult (Hs & _ & _ & Hin).
    destruct ds as [|c1 [|c2 [|c3 [|c4 ds]]]]; injection Hs as ? ?;
      subst; try discriminate.
    + simpl in Hin.
      repeat (destruct Hin as [Hin|Hin]; [discriminate Hin|]).
      destruct Hin.
    + destruct ds; discriminate.
Defined.

(** Bob is deactivated and Mallory is suspended: their valid tokens are
    rejected, while Alice's and the admin's are accepted as theirs.  Victor,
    an admin, is deactivated too: his valid token is accepted. *)
Lemma barred_identity_rejected_witness :
  (user_barred bob /\ admin_barred mallory) /\
  (exists u, In u (users quiet) /\ user_id u = "u1" /\ user_role u = "USER" /\
             ~ user_barred u) /\
  (exists a, In a (admins quiet) /\ admin_id a = "a1" /\
             admin_role a = "ADMIN" /\ ~ admin_barred a) /\
  (exists msg,
      outcome (AuthGuard.authenticateUser env (Some "Bearer access.u2")) quiet
        = Thrown (UnauthorizedException msg)) /\
  (exists msg,
      outcome (AdminAuthGuard.authenticateAdmin env (Some "Bearer access.a2"))
        quiet
        = Thrown (UnauthorizedException msg)) /\
  (admin_status Scenario.victor = "DEACTIVATED" /\
   outcome (AdminAuthGuard.authenticateAdmin env (Some "Bearer access.a5"))
     Scenario.deactivated
     = Returned ("a5", "ADMIN")).
Proof.
  assert (Hbob : user_barred bob) by (right; right; discriminate).
  assert (Hmal : admin_barred mallory) by (right; reflexivity).
  assert (Hvic : ~ admin_barred Scenario.victor)
    by (intros [H|H]; discriminate H).
  destruct (barred_identity_rejected env quiet) as (Hu & Ha & Hbu & Hba & _).
  destruct (barred_identity_rejected env Scenario.deactivated)
    as (_ & _ & _ & _ & Hdeact).
  split; [split; assumption|]. split; [|split; [|split; [|split]]].
  - apply (Hu (Some "Bearer access.u1")). vm_compute. reflexivity.
  - apply (Ha (Some "Bearer access.a1")). vm_compute. reflexivity.
  - apply (Hbu "Bearer access.u2" "access.u2" (claims "u2" 1700003600) bob);
      [bearer | reflexivity | reflexivity | exact Hbob].
  - apply (Hba "Bearer access.a2" "access.a2" (claims "a2" 1700003600)
             mallory);
      [bearer | reflexivity | reflexivity | exact Hmal].
  - split; [reflexivity|].
    apply (Hdeact "Bearer access.a5" "access.a5" (claims "a5" 1700003600)
             "a5" Scenario.victor);
      [bearer | reflexivity | reflexivity | discriminate | reflexivity
      | discriminate | exact Hvic | reflexivity | reflexivity].
Defined.

Lemma revoked_token_rejected_witness :
  bearer_header "Bearer access.u1" "access.u1" /\
  is_Some (redis revoked_access !! "blacklist:access.u1") /\
  outcome (AuthGuard.authenticateUser env (Some "Bearer access.u1"))
    revoked_access
    = Thrown (UnauthorizedException "Token has been revoked.") /\
  calls (AuthGuard.authenticateUser env (Some "Bearer access.u1"))
    revoked_access
    = [EvRedis (GET "blacklist:access.u1")] /\
  outcome (AdminAuthGuard.authenticateAdmin env (Some "Bearer access.u1"))
    revoked_access
    = Thrown (UnauthorizedException "Token has been revoked.").
Proof.
  assert (Hb : bearer_header "Bearer access.u1" "access.u1") by bearer.
  assert (Hin : is_Some (redis revoked_access !! "blacklist:access.u1"))
    by (exists (3600, "1"); vm_compute; reflexivity).
  destruct (revoked_token_rejected env revoked_access _ _ Hb) as [_ H].
  destruct (H eq_refl Hin) as (Hu & Hc & Ha & _).
  repeat split; assumption.
Defined.

Lemma refresh_revoked_identity_masked_witness :
  (store_has revoked_identities "blacklist:user:u1" = true /\
   store_has revoked_identities "blacklist:admin:a1" = true) /\
  (outcome (UserAuthService.refreshToken env "refresh.u1") revoked_identities
     = Thrown (UnauthorizedException "Invalid refresh token") /\
   no_token_signed
     (calls (UserAuthService.refreshToken env "refresh.u1")
        revoked_identities)) /\
  (outcome (AdminAuthService.refreshToken env "refresh.a1")
     revoked_identities
     = Thrown (UnauthorizedException "Invalid or expired refresh token") /\
   no_token_signed
     (calls (AdminAuthService.refreshToken env "refresh.a1")
        revoked_identities)).
Proof.
  assert (Hu : store_has revoked_identities "blacklist:user:u1" = true)
    by (vm_compute; reflexivity).
  assert (Ha : store_has revoked_identities "blacklist:admin:a1" = true)
    by (vm_compute; reflexivity).
  split; [split; assumption|]. split.
  - apply (refresh_revoked_identity_masked env revoked_identities
             "refresh.u1" "u1" (claims "u1" 1700600000));
      [reflexivity | reflexivity | exact Hu].
  - apply (refresh_revoked_identity_masked env revoked_identities
             "refresh.a1" "a1" (claims "a1" 1700600000));
      [reflexivity | reflexivity | exact Ha].
Defined.

Lemma malformed_admin_token_is_400_witness :
  jwt_verify env "garbage" (JWT_SECRET env) = inl malformed_error /\
  outcome (AuthGuard.authenticateUser env (Some "Bearer garbage")) quiet
    = Thrown (UnauthorizedException "Malformed token.") /\
  outcome (AdminAuthGuard.authenticateAdmin env (Some "Bearer garbage")) quiet
    = Thrown (BadRequestException "Invalid token") /\
  http_status (BadRequestException "Invalid token") = 400.
Proof.
  split; [reflexivity|].
  apply (malformed_admin_token_is_400 env quiet "Bearer garbage" "garbage"
           malformed_error);
    [bearer | vm_compute; reflexivity | reflexivity | reflexivity].
Defined.

(** A logout with two live tokens writes both, with their remaining
    lifetimes; an admin logout whose refresh token does not decode still
    writes the access token. *)
Lemma logout_best_effort_witness :
  (decoded_ttl env quiet "access.u1" = Some 3600 /\
   decoded_ttl env quiet "refresh.u1" = Some 600000 /\
   ~ decodes env "garbage") /\
  outcome (UserAuthService.logout env "refresh.u1" "access.u1") quiet
    = logout_ok /\
  (written (calls (UserAuthService.logout env "refresh.u1" "access.u1") quiet)
     "access.u1" /\
   redis (after (UserAuthService.logout env "refresh.u1" "access.u1") quiet)
     !! "blacklist:access.u1" = Some (3600, "1")) /\
  (written
     (calls (AdminAuthService.logout env (Some "refresh.u1") "access.u1")
        quiet) "refresh.u1" /\
   redis
     (after (AdminAuthService.logout env (Some "refresh.u1") "access.u1")
        quiet)
     !! "blacklist:refresh.u1" = Some (600000, "1")) /\
  redis
    (after (AdminAuthService.logout env (Some "garbage") "access.u1") quiet)
    !! "blacklist:access.u1" = Some (3600, "1") /\
  positive (decoded_ttl env quiet "access.u1") = true.
Proof.
  assert (Ha : decoded_ttl env quiet "access.u1" = Some 3600)
    by (vm_compute; reflexivity).
  assert (Hr : decoded_ttl env quiet "refresh.u1" = Some 600000)
    by (vm_compute; reflexivity).
  assert (Hg : ~ decodes env "garbage")
    by (intros [p Hp]; vm_compute in Hp; discriminate Hp).
  assert (Hda : decodes env "access.u1")
    by (eexists; vm_compute; reflexivity).
  assert (Hdr : decodes env "refresh.u1")
    by (eexists; vm_compute; reflexivity).
  assert (Hpass : write_passes env quiet "access.u1")
    by (intros s _ _; reflexivity).
  destruct (logout_best_effort env quiet "refresh.u1" "access.u1"
              (Some "refresh.u1")) as ((Hok & _) & Honly & Hlive).
  destruct (logout_best_effort env quiet "refresh.u1" "access.u1"
              (Some "garbage")) as (_ & _ & Hlive').
  destruct (Hlive "access.u1" 3600 Ha ltac:(lia)) as [Hacc _].
  destruct (Hlive "refresh.u1" 600000 Hr ltac:(lia)) as [_ Href].
  destruct (Hlive' "access.u1" 3600 Ha ltac:(lia)) as [Hacc' _].
  destruct (Hacc eq_refl) as [Huser _].
  destruct (Huser Hdr) as [Hin Hst].
  destruct (Href Hda Hpass) as [_ Hadmin].
  destruct (Hadmin eq_refl ltac:(discriminate)) as [Hin2 Hst2].
  destruct (Hacc' eq_refl) as [_ [_ Hst3]].
  assert (Hw : written
                 (calls (UserAuthService.logout env "refresh.u1" "access.u1")
                    quiet) "access.u1") by (exists 3600; exact Hin).
  split; [repeat split; assumption|]. split; [exact Hok|].
  split; [split; [exact Hw | exact (Hst eq_refl)]|].
  split; [split; [exists 600000; exact Hin2 | exact (Hst2 eq_refl)]|].
  split; [exact (Hst3 eq_refl)|].
  apply (proj1 (Honly "access.u1")). exact Hw.
Defined.

(** Three calls with a wrong code raise [attempts] one by one; at 3 the next
    call is rejected for too many attempts, the admin record is gone and the
    user record is kept; [forgotPassword] then leaves a fresh record. *)
Lemma reset_attempts_capped_witness :
  (live_reset (resetting 0) "alice@example.com" "USER" (reset_with 0) /\
   live_reset (resetting 3) "root@example.com" "ADMIN" (reset_with 3)) /\
  (outcome (UserAuthService.verifyResetCode env "alice@example.com" "000000")
     (resetting 0) = Thrown invalid_reset_code /\
   passwordResets
     (after (UserAuthService.verifyResetCode env "alice@example.com" "000000")
        (resetting 0))
     = <[("alice@example.com", "USER") := one_more_attempt (reset_with 0)]>
         (passwordResets (resetting 0))) /\
  (outcome (UserAuthService.verifyResetCode env "alice@example.com" "000000")
     (resetting 3) = Thrown user_too_many_attempts /\
   passwordResets
     (after (UserAuthService.verifyResetCode env "alice@example.com" "000000")
        (resetting 3))
     !! ("alice@example.com", "USER") = Some (reset_with 3)) /\
  (outcome (AdminAuthService.verifyCode "root@example.com" "000000")
     (resetting 3) = Thrown admin_too_many_attempts /\
   passwordResets
     (after (AdminAuthService.verifyCode "root@example.com" "000000")
        (resetting 3))
     !! ("root@example.com", "ADMIN") = None /\
   exists r',
     passwordResets
       (after (AdminAuthService.forgotPassword env "root@example.com" None)
          (after (AdminAuthService.verifyCode "root@example.com" "000000")
             (resetting 3)))
       !! ("root@example.com", "ADMIN") = Some r' /\
     pr_attempts r' = 0).
Proof.
  assert (L0 : live_reset (resetting 0) "alice@example.com" "USER"
                 (reset_with 0))
    by (split; [vm_compute; reflexivity | vm_compute; discriminate]).
  assert (L3 : live_reset (resetting 3) "alice@example.com" "USER"
                 (reset_with 3))
    by (split; [vm_compute; reflexivity | vm_compute; discriminate]).
  assert (A3 : live_reset (resetting 3) "root@example.com" "ADMIN"
                 (reset_with 3))
    by (split; [vm_compute; reflexivity | vm_compute; discriminate]).
  split; [split; assumption|]. split; [|split].
  - destruct (reset_attempts_capped env (resetting 0) "alice@example.com"
                "000000" (reset_with 0)) as [Hu _].
    destruct (Hu alice eq_refl L0) as [Hwrong _].
    apply Hwrong; [simpl; lia | discriminate].
  - destruct (reset_attempts_capped env (resetting 3) "alice@example.com"
                "000000" (reset_with 3)) as [Hu _].
    destruct (Hu alice eq_refl L3) as [_ Hcap].
    destruct Hcap as (Ho & Hkept & _); [simpl; lia|].
    split; assumption.
  - destruct (reset_attempts_capped env (resetting 3) "root@example.com"
                "000000" (reset_with 3)) as [_ Ha].
    destruct (Ha root None eq_refl A3) as [_ Hcap].
    destruct Hcap as (Ho & Hgone & _ & r' & Hr' & Hfresh & _); [simpl; lia|].
    repeat split; try assumption. exists r'. split; assumption.
Defined.

(** Carol is not verified: her login gets the verification answer and a
    code. *)
Lemma unverified_login_sends_code_witness :
  (user_by_email quiet "carol@example.com" = Some carol /\
   user_emailVerified carol = false) /\
  outcome (UserAuthService.login env "carol@example.com" "anything") quiet
    = Returned (verification_response carol) /\
  In (EvSendEmailVerification "carol@example.com" "223456" "Carol Singer")
    (calls (UserAuthService.login env "carol@example.com" "anything") quiet).
Proof.
  split; [split; reflexivity|].
  destruct (unverified_login_sends_code env quiet "carol@example.com"
              "anything" carol eq_refl eq_refl) as (Ho & _ & _ & _ & Hc).
  split; [exact Ho | exact Hc].
Defined.

(** Carol's login hands a code mail to the queue, Dave's does not, and
    Alice's, which compares the password, is one of a verified account. *)
Lemma unverified_login_precedes_checks_witness :
  (user_by_email quiet "carol@example.com" = Some carol /\
   user_by_email quiet "dave@example.com" = Some dave /\
   user_by_email quiet "alice@example.com" = Some alice) /\
  mailed (calls (UserAuthService.login env "carol@example.com" "x") quiet)
    "carol@example.com" (next_code quiet) /\
  outcome (UserAuthService.login env "dave@example.com" "x") quiet
    = Returned (verification_response dave) /\
  ~ mailed (calls (UserAuthService.login env "dave@example.com" "x") quiet)
      "dave@example.com" (next_code quiet) /\
  user_emailVerified alice = true.
Proof.
  split; [repeat split; reflexivity|].
  destruct (unverified_login_precedes_checks env quiet "carol@example.com"
              "x" carol eq_refl) as [Hc _].
  destruct (unverified_login_precedes_checks env quiet "dave@example.com"
              "x" dave eq_refl) as [Hd _].
  destruct (unverified_login_precedes_checks env quiet "alice@example.com"
              "wonderland" alice eq_refl) as [_ Ha].
  destruct (Hc eq_refl) as (_ & _ & Hcm & _).
  destruct (Hd eq_refl) as (Hdo & _ & Hdm & _).
  split; [apply Hcm; reflexivity|]. split; [exact Hdo|]. split.
  - intros Hm. apply Hdm in Hm. discriminate Hm.
  - apply Ha. left. exists "wonderland", "hash:wonderland".
    vm_compute. left. reflexivity.
Defined.

End Witnesses.

(** * Further properties *)

Ltac unfold_monad' :=
  unfold_monad; unfold set_users, set_admins in *.

(** ** Writes and removals of the revocation store *)

Section BlacklistWrites.

Import TokenBlacklistService.

Lemma setEx_guarded_run key (seconds : Z) w :
  try_catch (RedisClient.setEx key seconds "1") (fun error => throw error) w
  = if redis_throws w (SETEX key seconds "1")
    then (Thrown RedisClient.connection_error,
          snd (emit (EvRedis (SETEX key seconds "1")) w))
    else (Returned tt,
          snd (set_redis (<[key := (seconds, "1")]> (redis w))
                 (snd (emit (EvRedis (SETEX key seconds "1")) w)))).
Proof.
  unfold RedisClient.setEx. unfold_monad. simpl.
  destruct (redis_throws w (SETEX key seconds "1")); reflexivity.
Qed.

Lemma del_guarded_run key w :
  try_catch (RedisClient.del key) (fun error => throw error) w
  = if redis_throws w (DEL key)
    then (Thrown RedisClient.connection_error,
          snd (emit (EvRedis (DEL key)) w))
    else (Returned tt,
          snd (set_redis (delete key (redis w))
                 (snd (emit (EvRedis (DEL key)) w)))).
Proof.
  unfold RedisClient.del. unfold_monad. simpl.
  destruct (redis_throws w (DEL key)); reflexivity.
Qed.

Lemma store_has_after_setEx key (seconds : Z) key' w :
  redis_throws w (SETEX key seconds "1") = false ->
  store_has
    (after (try_catch (RedisClient.setEx key seconds "1")
              (fun error => throw error)) w) key'
  = if decide (key = key') then negb (redis_throws w (GET key'))
    else store_has w key'.
Proof.
  intros Hup. unfold after. rewrite setEx_guarded_run, Hup.
  unfold store_has. simpl. rewrite lookup_insert.
  destruct (decide (key = key')) as [->|Hne]; simpl.
  - apply andb_true_r.
  - reflexivity.
Qed.

Lemma store_has_after_del key key' w :
  redis_throws w (DEL key) = false ->
  store_has
    (after (try_catch (RedisClient.del key) (fun error => throw error)) w)
    key'
  = if decide (key = key') then false else store_has w key'.
Proof.
  intros Hup. unfold after. rewrite del_guarded_run, Hup.
  unfold store_has. simpl. rewrite lookup_delete.
  destruct (decide (key = key')) as [->|Hne]; simpl.
  - apply andb_false_r.
  - reflexivity.
Qed.

Lemma outcome_isUserBlacklisted id w :
  outcome (isUserBlacklisted id) w
  = Returned (store_has w ("blacklist:user:" +:+ id)).
Proof. unfold outcome. now rewrite isUserBlacklisted_run. Qed.

Lemma outcome_isAdminBlacklisted id w :
  outcome (isAdminBlacklisted id) w
  = Returned (store_has w ("blacklist:admin:" +:+ id)).
Proof. unfold outcome. now rewrite isAdminBlacklisted_run. Qed.

Lemma outcome_isTokenBlacklisted tok w :
  outcome (isTokenBlacklisted tok) w
  = Returned (store_has w ("blacklist:" +:+ tok)).
Proof. unfold outcome. now rewrite isTokenBlacklisted_run. Qed.

(** X1. A blanket revocation that goes through is seen by the next read of
    the same namespace, as long as the read itself goes through. *)
Theorem blanket_revocation_is_read_back (w : World) (id : string)
  (seconds : Z) :
  (redis_throws w (SETEX ("blacklist:user:" +:+ id) seconds "1") = false ->
   redis_throws w (GET ("blacklist:user:" +:+ id)) = false ->
   outcome (blacklistUserTokens id seconds) w = Returned tt /\
   outcome (isUserBlacklisted id) (after (blacklistUserTokens id seconds) w)
     = Returned true) /\
  (redis_throws w (SETEX ("blacklist:admin:" +:+ id) seconds "1") = false ->
   redis_throws w (GET ("blacklist:admin:" +:+ id)) = false ->
   outcome (blacklistAdminTokens id seconds) w = Returned tt /\
   outcome (isAdminBlacklisted id) (after (blacklistAdminTokens id seconds) w)
     = Returned true).
Proof.
  split; intros Hset Hget.
  - split.
    + unfold outcome, blacklistUserTokens. cbv zeta.
      now rewrite setEx_guarded_run, Hset.
    + rewrite outcome_isUserBlacklisted. unfold blacklistUserTokens.
      cbv zeta. rewrite store_has_after_setEx by assumption.
      rewrite decide_True by reflexivity. now rewrite Hget.
  - split.
    + unfold outcome, blacklistAdminTokens. cbv zeta.
      now rewrite setEx_guarded_run, Hset.
    + rewrite outcome_isAdminBlacklisted. unfold blacklistAdminTokens.
      cbv zeta. rewrite store_has_after_setEx by assumption.
      rewrite decide_True by reflexivity. now rewrite Hget.
Qed.

(** X2. A removal that goes through clears the blanket revocation, whether
    there was one or not: the next read answers [false]. *)
Theorem blanket_revocation_removed (w : World) (id : string) :
  (redis_throws w (DEL ("blacklist:user:" +:+ id)) = false ->
   outcome (removeUserFromBlacklist id) w = Returned tt /\
   outcome (isUserBlacklisted id) (after (removeUserFromBlacklist id) w)
     = Returned false) /\
  (redis_throws w (DEL ("blacklist:admin:" +:+ id)) = false ->
   outcome (removeAdminFromBlacklist id) w = Returned tt /\
   outcome (isAdminBlacklisted id) (after (removeAdminFromBlacklist id) w)
     = Returned false).
Proof.
  split; intros Hdel.
  - split.
    + unfold outcome, removeUserFromBlacklist. cbv zeta.
      now rewrite del_guarded_run, Hdel.
    + rewrite outcome_isUserBlacklisted. unfold removeUserFromBlacklist.
      cbv zeta. rewrite store_has_after_del by assumption.
      now rewrite decide_True by reflexivity.
  - split.
    + unfold outcome, removeAdminFromBlacklist. cbv zeta.
      now rewrite del_guarded_run, Hdel.
    + rewrite outcome_isAdminBlacklisted. unfold removeAdminFromBlacklist.
      cbv zeta. rewrite store_has_after_del by assumption.
      now rewrite decide_True by reflexivity.
Qed.

Lemma store_has_setEx_other key (seconds : Z) key' w :
  key <> key' ->
  store_has
    (after (try_catch (RedisClient.setEx key seconds "1")
              (fun error => throw error)) w) key'
  = store_has w key'.
Proof.
  intros Hne. unfold after. rewrite setEx_guarded_run.
  destruct (redis_throws w (SETEX key seconds "1")); [reflexivity|].
  unfold store_has. simpl. now rewrite lookup_insert_ne.
Qed.

Lemma store_has_del_other key key' w :
  key <> key' ->
  store_has
    (after (try_catch (RedisClient.del key) (fun error => throw error)) w)
    key'
  = store_has w key'.
Proof.
  intros Hne. unfold after. rewrite del_guarded_run.
  destruct (redis_throws w (DEL key)); [reflexivity|].
  unfold store_has. simpl. now rewrite lookup_delete_ne.
Qed.

Lemma user_key_not_admin_key id id' :
  "blacklist:user:" +:+ id <> "blacklist:admin:" +:+ id'.
Proof. intros [=]. Qed.

Lemma user_key_inj id id' :
  id <> id' -> "blacklist:user:" +:+ id <> "blacklist:user:" +:+ id'.
Proof. intros Hne [=]. contradiction. Qed.

Lemma admin_key_inj id id' :
  id <> id' -> "blacklist:admin:" +:+ id <> "blacklist:admin:" +:+ id'.
Proof. intros Hne [=]. contradiction. Qed.

(** X3. The user and the admin namespace are independent: revoking or
    clearing an id in one of them never changes an answer of the other, for
    any id, and within a namespace it changes no answer for another id. *)
Theorem revocation_namespaces_independent (w : World) (id id' : string)
  (seconds : Z) :
  (outcome (isAdminBlacklisted id') (after (blacklistUserTokens id seconds) w)
     = outcome (isAdminBlacklisted id') w /\
   outcome (isAdminBlacklisted id') (after (removeUserFromBlacklist id) w)
     = outcome (isAdminBlacklisted id') w /\
   outcome (isUserBlacklisted id') (after (blacklistAdminTokens id seconds) w)
     = outcome (isUserBlacklisted id') w /\
   outcome (isUserBlacklisted id') (after (removeAdminFromBlacklist id) w)
     = outcome (isUserBlacklisted id') w) /\
  (id <> id' ->
   outcome (isUserBlacklisted id') (after (blacklistUserTokens id seconds) w)
     = outcome (isUserBlacklisted id') w /\
   outcome (isUserBlacklisted id') (after (removeUserFromBlacklist id) w)
     = outcome (isUserBlacklisted id') w /\
   outcome (isAdminBlacklisted id')
     (after (blacklistAdminTokens id seconds) w)
     = outcome (isAdminBlacklisted id') w /\
   outcome (isAdminBlacklisted id') (after (removeAdminFromBlacklist id) w)
     = outcome (isAdminBlacklisted id') w).
Proof.
  rewrite !outcome_isAdminBlacklisted, !outcome_isUserBlacklisted.
  unfold blacklistUserTokens, removeUserFromBlacklist, blacklistAdminTokens,
    removeAdminFromBlacklist. cbv zeta.
  split; [|intros Hne]; repeat split; f_equal;
    first [apply store_has_setEx_other | apply store_has_del_other];
    auto using user_key_not_admin_key, user_key_inj, admin_key_inj,
      not_eq_sym.
Qed.

(** X4. The keys of single tokens share the prefix of the blanket keys: the
    token string "user:ID" has the key of the blanket revocation of the user
    ID, and "admin:ID" the one of the admin ID, so blacklisting such a
    string revokes the identity. *)
Theorem token_key_aliases_blanket_key (w : World) (id : string)
  (seconds : Z) :
  (redis_throws w (SETEX ("blacklist:user:" +:+ id) seconds "1") = false ->
   redis_throws w (GET ("blacklist:user:" +:+ id)) = false ->
   outcome (isUserBlacklisted id)
     (after (blacklistToken ("user:" +:+ id) seconds) w) = Returned true) /\
  (redis_throws w (SETEX ("blacklist:admin:" +:+ id) seconds "1") = false ->
   redis_throws w (GET ("blacklist:admin:" +:+ id)) = false ->
   outcome (isAdminBlacklisted id)
     (after (blacklistToken ("admin:" +:+ id) seconds) w) = Returned true).
Proof.
  split; intros Hset Hget.
  - rewrite outcome_isUserBlacklisted. unfold blacklistToken. cbv zeta.
    change ("blacklist:" +:+ ("user:" +:+ id))
      with ("blacklist:user:" +:+ id).
    rewrite store_has_after_setEx by assumption.
    rewrite decide_True by reflexivity. now rewrite Hget.
  - rewrite outcome_isAdminBlacklisted. unfold blacklistToken. cbv zeta.
    change ("blacklist:" +:+ ("admin:" +:+ id))
      with ("blacklist:admin:" +:+ id).
    rewrite store_has_after_setEx by assumption.
    rewrite decide_True by reflexivity. now rewrite Hget.
Qed.

(** X5. Unlike the reads, the writes and removals do not swallow a failure
    of the store: when the Redis command throws, each of them throws that
    error and the store is left as it was. *)
Theorem blacklist_writes_propagate_failure (w : World) (x : string)
  (seconds : Z) :
  let failed (m : M unit) (c : RedisCommand) :=
    redis_throws w c = true ->
    outcome m w = Thrown RedisClient.connection_error /\
    redis (after m w) = redis w in
  failed (blacklistToken x seconds) (SETEX ("blacklist:" +:+ x) seconds "1")
  /\
  failed (blacklistUserTokens x seconds)
    (SETEX ("blacklist:user:" +:+ x) seconds "1") /\
  failed (blacklistAdminTokens x seconds)
    (SETEX ("blacklist:admin:" +:+ x) seconds "1") /\
  failed (removeUserFromBlacklist x) (DEL ("blacklist:user:" +:+ x)) /\
  failed (removeAdminFromBlacklist x) (DEL ("blacklist:admin:" +:+ x)).
Proof.
  cbv zeta.
  unfold outcome, after, blacklistToken, blacklistUserTokens,
    blacklistAdminTokens, removeUserFromBlacklist, removeAdminFromBlacklist.
  cbv zeta.
  repeat match goal with |- _ /\ _ => split end;
    intros H; rewrite ?setEx_guarded_run, ?del_guarded_run, H;
    split; reflexivity.
Qed.

End BlacklistWrites.

(** ** Authorization by role *)

Section RoleChecks.

Variable env : Env.

Lemma includes_In roles role : Js.includes roles role = true <-> In role roles.
Proof.
  unfold Js.includes. rewrite existsb_exists. split.
  - intros (x & Hin & Hx). apply String.eqb_eq in Hx. now subst.
  - intros Hin. exists role. split; [assumption | apply String.eqb_refl].
Qed.

Lemma authorizeUser_run w id role roles :
  (role_allowed roles role ->
   AuthGuard.authorizeUser (Some (id, role)) roles w = (Returned true, w)) /\
  (~ role_allowed roles role ->
   AuthGuard.authorizeUser (Some (id, role)) roles w
   = (Thrown (UnauthorizedException "Insufficient permissions."), w)).
Proof.
  unfold AuthGuard.authorizeUser, role_allowed.
  destruct roles as [[|r rs]|]; try (split; [reflexivity | tauto]).
  destruct (Js.includes (r :: rs) role) eqn:Hi; simpl; split; intros H;
    try reflexivity.
  - apply (proj1 (includes_In (r :: rs) role)) in Hi. contradiction.
  - apply (proj2 (includes_In (r :: rs) role)) in H. congruence.
Qed.

Lemma authorizeAdmin_run w ident role roles :
  (admin_role_allowed roles role ->
   AdminAuthGuard.authorizeAdmin (Some (ident, role)) roles w
   = (Returned true, w)) /\
  (~ admin_role_allowed roles role ->
   AdminAuthGuard.authorizeAdmin (Some (ident, role)) roles w
   = (Thrown (UnauthorizedException "Insufficient permissions"), w)).
Proof.
  unfold AdminAuthGuard.authorizeAdmin, admin_role_allowed.
  destruct roles as [[|r rs]|]; try (split; [reflexivity | tauto]).
  change (snd <$> Some (ident, role)) with (Some role).
  cbn [Js.truthy_opt default from_option id]. unfold Js.truthy.
  pose proof (includes_In (r :: rs) role) as [Hin1 Hin2].
  destruct (String.eqb role "") eqn:He;
    destruct (Js.includes (r :: rs) role) eqn:Hi; simpl; split; intros H;
    try reflexivity; exfalso;
    try (apply String.eqb_eq in He); try (apply String.eqb_neq in He).
  all: first
         [ apply H; split; [assumption | now apply Hin1]
         | destruct H as [H1 H2];
           first [ contradiction | specialize (Hin2 H2); congruence ] ].
Qed.

(** X6. The role check that follows authentication lets an identity through
    exactly when no role is required of the endpoint or its role is among
    the required ones (for an admin: and its role is not empty); it turns
    every other identity down with an [UnauthorizedException], a 401, and
    never answers [false]. *)
Theorem authorization_by_role (w : World) (id role : string)
  (roles : option (list string)) :
  (role_allowed roles role ->
   outcome (AuthGuard.authorizeUser (Some (id, role)) roles) w
     = Returned true) /\
  (~ role_allowed roles role ->
   outcome (AuthGuard.authorizeUser (Some (id, role)) roles) w
     = Thrown (UnauthorizedException "Insufficient permissions.")) /\
  (admin_role_allowed roles role ->
   outcome (AdminAuthGuard.authorizeAdmin (Some (id, role)) roles) w
     = Returned true) /\
  (~ admin_role_allowed roles role ->
   outcome (AdminAuthGuard.authorizeAdmin (Some (id, role)) roles) w
     = Thrown (UnauthorizedException "Insufficient permissions")).
Proof.
  destruct (authorizeUser_run w id role roles) as [Hu1 Hu2].
  destruct (authorizeAdmin_run w id role roles) as [Ha1 Ha2].
  unfold outcome.
  repeat match goal with |- _ /\ _ => split end; intros H.
  - now rewrite Hu1.
  - now rewrite Hu2.
  - now rewrite Ha1.
  - now rewrite Ha2.
Qed.

Lemma role_allowed_dec roles role :
  role_allowed roles role \/ ~ role_allowed roles role.
Proof.
  unfold role_allowed. destruct roles as [[|r rs]|]; auto.
  destruct (Js.includes (r :: rs) role) eqn:Hi.
  - left. now apply includes_In.
  - right. intros H. apply includes_In in H. congruence.
Qed.

Lemma admin_role_allowed_dec roles role :
  admin_role_allowed roles role \/ ~ admin_role_allowed roles role.
Proof.
  unfold admin_role_allowed. destruct roles as [[|r rs]|]; auto.
  destruct (string_dec role "") as [->|Hne]; [right; tauto|].
  destruct (Js.includes (r :: rs) role) eqn:Hi.
  - left. split; [assumption | now apply includes_In].
  - right. intros [_ H]. apply includes_In in H. congruence.
Qed.

End RoleChecks.

(** ** Basic credentials *)

Section BasicAuth.

Variable env : Env.

Lemma basic_header_nonempty h v : basic_header h v -> h <> "".
Proof.
  intros (scheme & rest & Hs & Hl & _) ->. simpl in Hs.
  injection Hs as <- _. discriminate Hl.
Qed.

Lemma not_user_barred_inv u :
  ~ user_barred u ->
  user_isDeleted u = false /\ user_status u = "ACTIVE".
Proof.
  intros H. split.
  - destruct (user_isDeleted u) eqn:Hd; [|reflexivity].
    exfalso. apply H. now left.
  - destruct (string_dec (user_status u) "ACTIVE") as [He|Hne];
      [assumption|]. exfalso. apply H. now right; right.
Qed.

Lemma authenticateUser_basic_on h v :
  BASIC_AUTH_ENABLED env = "true" -> basic_header h v ->
  AuthGuard.authenticateUser env (Some h)
  = AuthGuard.authenticateBasicAuth env v.
Proof.
  intros Hon Hb. pose proof (basic_header_nonempty _ _ Hb) as Hne.
  destruct Hb as (scheme & rest & Hs & Hl & ->).
  unfold AuthGuard.authenticateUser, AuthGuard.basicAuthEnabled.
  cbv zeta. cbn [Js.truthy_opt default from_option id].
  rewrite (truthy_true _ Hne), Hs, Hon. simpl. rewrite Hl. simpl.
  destruct rest; reflexivity.
Qed.

(** X8. With the Basic fallback switched off, the user guard refuses a Basic
    header as an invalid authorization type, and the admin guard refuses it
    always; neither touches the store, the database or the trace. *)
Theorem basic_header_refused (w : World) (h : string) (v : option string) :
  basic_header h v ->
  (BASIC_AUTH_ENABLED env <> "true" ->
   AuthGuard.authenticateUser env (Some h) w
   = (Thrown (UnauthorizedException "Invalid authorization type."), w)) /\
  AdminAuthGuard.authenticateAdmin env (Some h) w
  = (Thrown (UnauthorizedException "Invalid authorization type"), w).
Proof.
  intros Hb. pose proof (basic_header_nonempty _ _ Hb) as Hne.
  destruct Hb as (scheme & rest & Hs & Hl & ->). split.
  - intros Hoff. apply String.eqb_neq in Hoff.
    unfold AuthGuard.authenticateUser, AuthGuard.basicAuthEnabled.
    cbv zeta. cbn [Js.truthy_opt default from_option id].
    rewrite (truthy_true _ Hne), Hs, Hoff. simpl. rewrite Hl. reflexivity.
  - unfold AdminAuthGuard.authenticateAdmin.
    cbv zeta. cbn [Js.truthy_opt default from_option id].
    rewrite (truthy_true _ Hne), Hs. simpl. rewrite Hl. reflexivity.
Qed.

Ltac basic_unfold :=
  unfold AuthGuard.authenticateBasicAuth, Prisma.user_findUnique_email,
    bcrypt_compare_call.

(** X9. With the Basic fallback switched on, a Basic header is checked
    against the database and bcrypt only: the revocation store is never
    consulted, so credentials of an account that is not barred authenticate
    whatever the store holds; and every failure, whichever its cause,
    surfaces as the one 401 "Basic Auth authentication failed." *)
Theorem basic_auth_bypasses_revocation (w : World) (h : string)
  (v : option string) :
  BASIC_AUTH_ENABLED env = "true" -> basic_header h v ->
  let m := AuthGuard.authenticateUser env (Some h) in
  (forall e,
      outcome m w = Thrown e ->
      e = UnauthorizedException "Basic Auth authentication failed.") /\
  no_redis_call (calls m w) /\
  redis (after m w) = redis w /\
  (forall creds email password u,
      v = Some creds ->
      credentials (base64_decode env creds) email password ->
      user_by_email w email = Some u -> ~ user_barred u ->
      bcrypt_compare env password (default "" (user_password u)) = true ->
      outcome m w = Returned (user_id u, user_role u)).
Proof.
  intros Hon Hb. cbv zeta. rewrite (authenticateUser_basic_on _ _ Hon Hb).
  clear Hon Hb. repeat match goal with |- _ /\ _ => split end.
  - intros e. unfold outcome. basic_unfold. intros H.
    run_in H; now inversion H.
  - unfold no_redis_call, calls, after. basic_unfold. unfold_monad. simpl.
    repeat (step_goal; simpl).
    all: repeat rewrite <- app_assoc;
      rewrite ?drop_app_length, ?drop_all; simpl.
    all: intros c H; repeat (destruct H as [H|H]; try discriminate H);
      exact H.
  - unfold after. basic_unfold. unfold_monad. simpl.
    repeat (step_goal; simpl); reflexivity.
  - intros creds email password u -> (rest & Hs & He & Hp) Hu Hnb Hpw.
    apply not_user_barred_inv in Hnb as [Hd Hst].
    unfold user_by_email in Hu.
    unfold outcome. basic_unfold. unfold_monad. simpl.
    rewrite Hs. simpl. rewrite (truthy_true _ He), (truthy_true _ Hp). simpl.
    rewrite Hu. simpl. rewrite Hd, Hst. simpl. rewrite Hpw. reflexivity.
Qed.

End BasicAuth.

(** ** What a guard lets through *)

Section GuardSoundness.

Variable env : Env.

Ltac store_miss :=
  unfold store_has; simpl in *;
  repeat match goal with
         | H : redis_throws _ _ = _ |- _ => rewrite H; clear H
         end;
  simpl; try reflexivity;
  match goal with
  | |- context [redis ?w !! ?k] =>
      destruct (redis w !! k) as [[? ?]|]; simpl in *;
      first [reflexivity | discriminate | congruence]
  end.

Lemma user_bearer_steps_sound tok w id role :
  outcome (user_bearer_steps env tok) w = Returned (id, role) ->
  exists payload u,
    jwt_verify env tok (JWT_SECRET env) = inr payload /\
    sub payload = Some (user_id u) /\
    user_by_id w (user_id u) = Some u /\
    store_has w ("blacklist:" +:+ tok) = false /\
    store_has w ("blacklist:user:" +:+ user_id u) = false /\
    In u (users w) /\ user_id u = id /\ user_role u = role /\
    ~ user_barred u.
Proof.
  unfold outcome, user_bearer_steps, AuthGuard.accessTokenSecret,
    TokenBlacklistService.isTokenBlacklisted,
    jwtService_verify, TokenBlacklistService.isUserBlacklisted,
    RedisClient.get, Prisma.user_findUnique_id, user_by_id.
  intros H. run_in H.
  all: match goal with
       | Hf : find _ _ = Some ?u, Hv : jwt_verify _ _ _ = inr ?p,
         Ht : negb (Js.truthy_opt (sub ?p)) = false |- _ =>
           exists p, u;
           destruct (sub p) as [i|] eqn:Hsub; [|discriminate Ht];
           pose proof (find_some _ _ Hf) as [Hin Heq];
           apply String.eqb_eq in Heq; simpl in Heq; subst i;
           inversion H; subst
       end.
  all: repeat match goal with |- _ /\ _ => split end;
    auto using not_user_barred; try store_miss.
Qed.

Lemma admin_bearer_steps_sound tok w id role :
  outcome (admin_bearer_steps env tok) w = Returned (id, role) ->
  exists payload a,
    jwt_verify env tok (JWT_SECRET env) = inr payload /\
    sub payload = Some (admin_id a) /\
    admin_by_id w (admin_id a) = Some a /\
    store_has w ("blacklist:" +:+ tok) = false /\
    store_has w ("blacklist:admin:" +:+ admin_id a) = false /\
    In a (admins w) /\ admin_id a = id /\ admin_role a = role /\
    ~ admin_barred a.
Proof.
  unfold outcome, admin_bearer_steps, AdminAuthGuard.accessTokenSecret,
    TokenBlacklistService.isTokenBlacklisted,
    jwtService_verify, TokenBlacklistService.isAdminBlacklisted,
    RedisClient.get, Prisma.admin_findUnique_id, admin_by_id.
  intros H. run_in H.
  all: match goal with
       | Hf : find _ _ = Some ?a, Hv : jwt_verify _ _ _ = inr ?p,
         Ht : negb (Js.truthy_opt (sub ?p)) = false |- _ =>
           exists p, a;
           destruct (sub p) as [i|] eqn:Hsub; [|discriminate Ht];
           pose proof (find_some _ _ Hf) as [Hin Heq];
           apply String.eqb_eq in Heq; simpl in Heq; subst i;
           inversion H; subst
       end.
  all: repeat match goal with |- _ /\ _ => split end;
    auto using not_admin_barred; try store_miss.
Qed.

Lemma authenticateBasicAuth_sound v w id role :
  outcome (AuthGuard.authenticateBasicAuth env v) w = Returned (id, role) ->
  exists creds email password u,
    v = Some creds /\
    credentials (base64_decode env creds) email password /\
    user_by_email w email = Some u /\
    bcrypt_compare env password (default "" (user_password u)) = true /\
    In u (users w) /\ user_id u = id /\ user_role u = role /\
    ~ user_barred u.
Proof.
  destruct v as [creds|]; [|discriminate].
  unfold outcome, AuthGuard.authenticateBasicAuth,
    Prisma.user_findUnique_email, bcrypt_compare_call, user_by_email.
  intros H; run_in H.
  destruct (Js.split ":" (base64_decode env creds))
    as [|email [|password rest]] eqn:Hc; simpl in *; try discriminate.
  { match goal with
    | Ht : _ || true = false |- _ =>
        rewrite orb_true_r in Ht; discriminate Ht
    end. }
  match goal with
  | Hf : find _ _ = Some ?u |- _ =>
      exists creds, email, password, u;
      pose proof (find_some _ _ Hf) as [Hin _];
      inversion H; subst
  end.
  match goal with
  | Ht : negb (Js.truthy ?e) || negb (Js.truthy ?p) = false |- _ =>
      apply orb_false_elim in Ht as [He Hp];
      apply negb_false_iff in He, Hp
  end.
  repeat match goal with |- _ /\ _ => split end;
    auto using not_user_barred.
  - exists rest. repeat split; auto; intros ->; discriminate.
  - now apply negb_false_iff.
Qed.

(** What a request that a guard lets through presents. *)
Lemma authenticateUser_presents header w ident role :
  outcome (AuthGuard.authenticateUser env header) w = Returned (ident, role) ->
  exists u,
    presents_user env w header u /\ In u (users w) /\
    user_id u = ident /\ user_role u = role /\ ~ user_barred u.
Proof.
  intros H0. destruct header as [h|]; [|discriminate H0].
  pose proof H0 as H.
  unfold outcome, AuthGuard.authenticateUser in H. cbv zeta in H.
  cbn [Js.truthy_opt default from_option id] in H.
  destruct (Js.truthy h) eqn:Hh; simpl in H; [|discriminate H].
  destruct (Js.split " " h) as [|scheme rest] eqn:Hs; simpl in H.
  { rewrite andb_false_r in H. simpl in H. discriminate H. }
  destruct (AuthGuard.basicAuthEnabled env
            && String.eqb (Js.toLowerCase scheme) "basic") eqn:Hbasic.
  - clear H. apply andb_prop in Hbasic as [Hon Hl].
    apply String.eqb_eq in Hon, Hl.
    assert (Hb : basic_header h (head rest))
      by (exists scheme, rest; repeat split; assumption).
    rewrite (authenticateUser_basic_on env _ _ Hon Hb) in H0.
    apply authenticateBasicAuth_sound in H0
      as (creds & email & password & u & Hv & Hc & Hu & Hpw & Hin & Hr).
    exists u. split; [|split; assumption].
    exists h. split; [reflexivity|]. right. split; [exact Hon|].
    exists creds, email, password. rewrite <- Hv. auto.
  - destruct (String.eqb (Js.toLowerCase scheme) "bearer") eqn:Hl;
      simpl in H; [|discriminate H].
    destruct rest as [|tok rest]; simpl in H; [discriminate H|].
    destruct (Js.truthy tok) eqn:Ht; simpl in H; [|discriminate H].
    clear H.
    assert (Hb : bearer_header h tok).
    { exists scheme, rest. split; [exact Hs|].
      split; [now apply String.eqb_eq|]. intros ->. discriminate Ht. }
    rewrite (authenticateUser_bearer env _ _ Hb) in H0.
    apply user_bearer_steps_sound in H0
      as (payload & u & Hv & Hsub & Hu & Htok & Hid & Hin & Hr).
    exists u. split; [|split; assumption].
    exists h. split; [reflexivity|]. left. exists tok, payload. auto 10.
Qed.

Lemma authenticateAdmin_presents header w ident role :
  outcome (AdminAuthGuard.authenticateAdmin env header) w
    = Returned (ident, role) ->
  exists a,
    presents_admin env w header a /\ In a (admins w) /\
    admin_id a = ident /\ admin_role a = role /\ ~ admin_barred a.
Proof.
  intros H0. destruct header as [h|]; [|discriminate H0].
  pose proof H0 as H.
  unfold outcome, AdminAuthGuard.authenticateAdmin in H. cbv zeta in H.
  cbn [Js.truthy_opt default from_option id] in H.
  destruct (Js.truthy h) eqn:Hh; simpl in H; [|discriminate H].
  destruct (Js.split " " h) as [|scheme rest] eqn:Hs; simpl in H;
    [discriminate H|].
  destruct (String.eqb (Js.toLowerCase scheme) "bearer") eqn:Hl;
    simpl in H; [|discriminate H].
  destruct rest as [|tok rest]; simpl in H; [discriminate H|].
  destruct (Js.truthy tok) eqn:Ht; simpl in H; [|discriminate H].
  clear H.
  assert (Hb : bearer_header h tok).
  { exists scheme, rest. split; [exact Hs|].
    split; [now apply String.eqb_eq|]. intros ->. discriminate Ht. }
  rewrite (authenticateAdmin_bearer env _ _ Hb) in H0.
  apply admin_bearer_steps_sound in H0
    as (payload & a & Hv & Hsub & Ha & Htok & Hid & Hin & Hr).
  exists a. split; [|split; assumption].
  exists h, tok, payload. auto 10.
Qed.

(** X7. A request passes a guard only as the identity it presents, one that
    is not barred and whose role the endpoint allows: the row of the id that
    its bearer token verifies for, neither token nor id being found in the
    revocation store, or (user guard, Basic credentials switched on) the row
    of its email with a matching password.  The guard never answers
    [false], and what the user guard throws is always a 401. *)
Theorem canActivate_sound (w : World) (header : option string)
  (roles : option (list string)) :
  (forall b,
      outcome (AuthGuard.canActivate env header roles) w = Returned b ->
      b = true /\
      exists u, In u (users w) /\ ~ user_barred u /\
                role_allowed roles (user_role u) /\
                presents_user env w header u) /\
  (forall e,
      outcome (AuthGuard.canActivate env header roles) w = Thrown e ->
      http_status e = 401) /\
  (forall b,
      outcome (AdminAuthGuard.canActivate env header roles) w = Returned b ->
      b = true /\
      exists a, In a (admins w) /\ ~ admin_barred a /\
                admin_role_allowed roles (admin_role a) /\
                presents_admin env w header a).
Proof.
  split; [|split].
  - intros b. unfold outcome, AuthGuard.canActivate. rewrite bind_run.
    pose proof (authenticateUser_presents header w) as Hs.
    unfold outcome in Hs.
    destruct (AuthGuard.authenticateUser env header w) as [[[id role]|e] w'];
      simpl; [|discriminate].
    destruct (Hs id role eq_refl) as (u & Hp & Hin & _ & Hr & Hnb).
    subst role.
    destruct (authorizeUser_run w' id (user_role u) roles) as [H1 H2].
    destruct (role_allowed_dec roles (user_role u)) as [Ha|Hn].
    + rewrite (H1 Ha). simpl. intros [= <-]. eauto 10.
    + rewrite (H2 Hn). discriminate.
  - intros e. unfold outcome, AuthGuard.canActivate. rewrite bind_run.
    pose proof (authenticateUser_rejects_401 env header w) as Hr.
    unfold outcome in Hr.
    destruct (AuthGuard.authenticateUser env header w) as [[[id role]|e'] w'];
      simpl.
    + destruct (authorizeUser_run w' id role roles) as [H1 H2].
      destruct (role_allowed_dec roles role) as [Ha|Hn].
      * rewrite (H1 Ha). discriminate.
      * rewrite (H2 Hn). simpl. now intros [= <-].
    + intros [= <-]. destruct (Hr e' eq_refl) as [msg ->]. reflexivity.
  - intros b. unfold outcome, AdminAuthGuard.canActivate. rewrite bind_run.
    pose proof (authenticateAdmin_presents header w) as Hs.
    unfold outcome in Hs.
    destruct (AdminAuthGuard.authenticateAdmin env header w)
      as [[[id role]|e] w']; simpl; [|discriminate].
    destruct (Hs id role eq_refl) as (a & Hp & Hin & _ & Hr & Hnb).
    subst role.
    destruct (authorizeAdmin_run w' id (admin_role a) roles) as [H1 H2].
    destruct (admin_role_allowed_dec roles (admin_role a)) as [Ha|Hn].
    + rewrite (H1 Ha). simpl. intros [= <-]. eauto 10.
    + rewrite (H2 Hn). discriminate.
Qed.

End GuardSoundness.

(** ** Blanket revocations at the guards *)

Section GuardBlanket.

Variable env : Env.

Lemma user_guard_blanket w h tok payload id :
  bearer_header h tok ->
  jwt_verify env tok (JWT_SECRET env) = inr payload ->
  sub payload = Some id ->
  store_has w ("blacklist:user:" +:+ id) = true ->
  exists msg,
    outcome (AuthGuard.authenticateUser env (Some h)) w
      = Thrown (UnauthorizedException msg).
Proof.
  intros Hb Hv Hsub Hs. apply store_has_inv in Hs as [Hup [v Hlook]].
  destruct (outcome (AuthGuard.authenticateUser env (Some h)) w)
    as [[i role]|e] eqn:Ho.
  - exfalso. revert Ho. rewrite (authenticateUser_bearer env _ _ Hb).
    unfold outcome, user_bearer_steps, AuthGuard.accessTokenSecret.
    rewrite bind_run, isTokenBlacklisted_run.
    unfold jwtService_verify, TokenBlacklistService.isUserBlacklisted,
      RedisClient.get, Prisma.user_findUnique_id.
    intros H. unfold_monad; simpl in H. rewrite Hv in H. simpl in H.
    rewrite Hsub in H. simpl in H.
    repeat (step_in H; simpl in H; try discriminate H;
            repeat (progress (rewrite ?Hup, ?Hlook in H; simpl in H));
            try discriminate H).
  - destruct (authenticateUser_rejects_401 env _ _ _ Ho) as [msg ->]. eauto.
Qed.

Lemma admin_guard_blanket w h tok payload id :
  bearer_header h tok ->
  jwt_verify env tok (JWT_SECRET env) = inr payload ->
  sub payload = Some id ->
  store_has w ("blacklist:admin:" +:+ id) = true ->
  exists msg,
    outcome (AdminAuthGuard.authenticateAdmin env (Some h)) w
      = Thrown (UnauthorizedException msg).
Proof.
  intros Hb Hv Hsub Hs. apply store_has_inv in Hs as [Hup [v Hlook]].
  rewrite (authenticateAdmin_bearer env _ _ Hb).
  unfold outcome, admin_bearer_steps, AdminAuthGuard.accessTokenSecret.
  rewrite bind_run, isTokenBlacklisted_run.
  unfold jwtService_verify, TokenBlacklistService.isAdminBlacklisted,
    RedisClient.get, Prisma.admin_findUnique_id.
  unfold_monad; simpl. rewrite Hv. simpl. rewrite Hsub. simpl.
  repeat (step_goal; simpl; try solve [eauto];
          repeat (progress (rewrite ?Hup, ?Hlook; simpl))).
  all: eauto.
Qed.

Lemma redis_throws_after_setEx key (seconds : Z) w :
  redis_throws
    (after (try_catch (RedisClient.setEx key seconds "1")
              (fun error => throw error)) w)
  = redis_throws w.
Proof.
  unfold after. rewrite setEx_guarded_run.
  destruct (redis_throws w (SETEX key seconds "1")); reflexivity.
Qed.

(** X10. Once a blanket revocation of an id is in the store, the guard of
    that namespace rejects every token that verifies for the id, with a
    401, as long as its read of the store goes through; in particular right
    after [blacklistUserTokens] or [blacklistAdminTokens] went through. *)
Theorem blanket_revocation_blocks_guard (w : World) (h tok id : string)
  (payload : JwtPayload) (seconds : Z) :
  bearer_header h tok ->
  jwt_verify env tok (JWT_SECRET env) = inr payload ->
  sub payload = Some id ->
  (redis_throws w (SETEX ("blacklist:user:" +:+ id) seconds "1") = false ->
   redis_throws w (GET ("blacklist:user:" +:+ id)) = false ->
   exists msg,
     outcome (AuthGuard.authenticateUser env (Some h))
       (after (TokenBlacklistService.blacklistUserTokens id seconds) w)
       = Thrown (UnauthorizedException msg)) /\
  (redis_throws w (SETEX ("blacklist:admin:" +:+ id) seconds "1") = false ->
   redis_throws w (GET ("blacklist:admin:" +:+ id)) = false ->
   exists msg,
     outcome (AdminAuthGuard.authenticateAdmin env (Some h))
       (after (TokenBlacklistService.blacklistAdminTokens id seconds) w)
       = Thrown (UnauthorizedException msg)).
Proof.
  intros Hb Hv Hsub. split; intros Hset Hget.
  - eapply user_guard_blanket; eauto.
    unfold TokenBlacklistService.blacklistUserTokens. cbv zeta.
    rewrite store_has_after_setEx by assumption.
    rewrite decide_True by reflexivity. now rewrite Hget.
  - eapply admin_guard_blanket; eauto.
    unfold TokenBlacklistService.blacklistAdminTokens. cbv zeta.
    rewrite store_has_after_setEx by assumption.
    rewrite decide_True by reflexivity. now rewrite Hget.
Qed.

End GuardBlanket.

(** ** After a logout *)

Section AfterLogout.

Variable env : Env.

Lemma header_token_bearer h tok :
  bearer_header h tok -> header_token (Some h) = tok.
Proof.
  intros (scheme & rest & Hs & _ & Hne). unfold header_token.
  rewrite Hs. simpl. now rewrite (truthy_true _ Hne).
Qed.

Lemma user_guard_token_revoked w h tok :
  bearer_header h tok -> store_has w ("blacklist:" +:+ tok) = true ->
  outcome (AuthGuard.authenticateUser env (Some h)) w
  = Thrown (UnauthorizedException "Token has been revoked.").
Proof.
  intros Hb Hs. rewrite (authenticateUser_bearer env _ _ Hb).
  unfold outcome, user_bearer_steps.
  now rewrite bind_run, isTokenBlacklisted_run, Hs.
Qed.

Lemma admin_guard_token_revoked w h tok :
  bearer_header h tok -> store_has w ("blacklist:" +:+ tok) = true ->
  outcome (AdminAuthGuard.authenticateAdmin env (Some h)) w
  = Thrown (UnauthorizedException "Token has been revoked.").
Proof.
  intros Hb Hs. rewrite (authenticateAdmin_bearer env _ _ Hb).
  unfold outcome, admin_bearer_steps.
  now rewrite bind_run, isTokenBlacklisted_run, Hs.
Qed.

Lemma user_refresh_token_revoked w r :
  store_has w ("blacklist:" +:+ r) = true ->
  outcome (UserAuthService.refreshToken env r) w
  = Thrown (UnauthorizedException "Invalid refresh token").
Proof.
  intros Hs. unfold outcome, UserAuthService.refreshToken, try_catch.
  now rewrite bind_run, isTokenBlacklisted_run, Hs.
Qed.

Lemma admin_refresh_token_revoked w r :
  store_has w ("blacklist:" +:+ r) = true ->
  outcome (AdminAuthService.refreshToken env r) w
  = Thrown (UnauthorizedException "Invalid or expired refresh token").
Proof.
  intros Hs. unfold outcome, AdminAuthService.refreshToken, try_catch.
  now rewrite bind_run, isTokenBlacklisted_run, Hs.
Qed.

Ltac logout_unfold' :=
  unfold UserAuthService.logout, AdminAuthService.logout,
    jwtService_decode, TokenBlacklistService.blacklistToken,
    RedisClient.setEx, Date_now, remainingTTL, positive.

Lemma user_logout_keeps_faults w r a :
  redis_throws (after (UserAuthService.logout env r a) w) = redis_throws w.
Proof.
  unfold after. logout_unfold'. unfold_monad. simpl.
  repeat (step_goal; simpl); reflexivity.
Qed.

Lemma admin_logout_keeps_faults w r a :
  redis_throws (after (AdminAuthService.logout env r a) w) = redis_throws w.
Proof.
  unfold after. logout_unfold'. unfold_monad. simpl.
  repeat (step_goal; simpl); reflexivity.
Qed.

Lemma store_has_of_lookup w key v :
  redis_throws w (GET key) = false -> redis w !! key = Some v ->
  store_has w key = true.
Proof. intros Hup Hl. apply store_has_true. eauto. Qed.

(** X11. Logout revokes: after a logout through the controller, with no
    Redis failure and both presented tokens decoding, the guard rejects the
    access token of the request with "Token has been revoked." and a refresh
    with the presented refresh token is rejected, each provided the token
    had a positive remaining lifetime; in the user and in the admin flow. *)
Theorem logged_out_tokens_rejected (w : World) (h tok r : string) :
  bearer_header h tok ->
  decodes env tok -> decodes env r ->
  (forall c, redis_throws w c = false) ->
  let wu := after (UserAuthController.logout env r (Some h)) w in
  let wa := after (AdminAuthController.logout env (Some r) (Some h)) w in
  (positive (decoded_ttl env w tok) = true ->
   outcome (AuthGuard.authenticateUser env (Some h)) wu
     = Thrown (UnauthorizedException "Token has been revoked.") /\
   (r <> "" ->
    outcome (AdminAuthGuard.authenticateAdmin env (Some h)) wa
      = Thrown (UnauthorizedException "Token has been revoked."))) /\
  (positive (decoded_ttl env w r) = true ->
   outcome (UserAuthService.refreshToken env r) wu
     = Thrown (UnauthorizedException "Invalid refresh token") /\
   (r <> "" ->
    outcome (AdminAuthService.refreshToken env r) wa
      = Thrown (UnauthorizedException "Invalid or expired refresh token"))).
Proof.
  intros Hb Hdt Hdr Hup. cbv zeta.
  unfold UserAuthController.logout, AdminAuthController.logout. cbv zeta.
  rewrite (header_token_bearer _ _ Hb).
  assert (Hadm : r <> "" ->
            forall t, In t (admin_presented (Some r) tok) -> decodes env t).
  { intros Hne t. unfold admin_presented. simpl.
    rewrite (truthy_true _ Hne). simpl. intros [<-|[<-|[]]]; assumption. }
  assert (Hin : r <> "" -> forall t, In t [tok; r] ->
                  In t (admin_presented (Some r) tok)).
  { intros Hne t. unfold admin_presented. simpl.
    now rewrite (truthy_true _ Hne). }
  split; intros Hpos.
  - split; [|intros Hne].
    + destruct (user_logout_live_written env w r tok tok)
        as (s & _ & _ & Hst); auto; [simpl; auto|].
      apply user_guard_token_revoked with tok; [assumption|].
      eapply store_has_of_lookup; [|exact Hst].
      rewrite user_logout_keeps_faults. apply Hup.
    + destruct (admin_logout_live_written env w (Some r) tok tok)
        as (s & _ & _ & Hst); auto; [apply Hin; simpl; auto|].
      apply admin_guard_token_revoked with tok; [assumption|].
      eapply store_has_of_lookup; [|exact Hst].
      rewrite admin_logout_keeps_faults. apply Hup.
  - split; [|intros Hne].
    + destruct (user_logout_live_written env w r tok r)
        as (s & _ & _ & Hst); auto; [simpl; auto|].
      apply user_refresh_token_revoked.
      eapply store_has_of_lookup; [|exact Hst].
      rewrite user_logout_keeps_faults. apply Hup.
    + destruct (admin_logout_live_written env w (Some r) tok r)
        as (s & _ & _ & Hst); auto; [apply Hin; simpl; auto|].
      apply admin_refresh_token_revoked.
      eapply store_has_of_lookup; [|exact Hst].
      rewrite admin_logout_keeps_faults. apply Hup.
Qed.

End AfterLogout.

(** ** What logout and refresh leave alone *)

Section LogoutRefreshFrame.

Variable env : Env.

Ltac logout_unfold'' :=
  unfold UserAuthService.logout, AdminAuthService.logout,
    jwtService_decode, TokenBlacklistService.blacklistToken,
    RedisClient.setEx, Date_now, remainingTTL, positive.

(** X12. Logout trusts what it decodes: its only calls are non-verifying
    decodes and blacklist writes; it never verifies a signature and never
    reads the store. *)
Theorem logout_never_verifies (w : World) (r a : string)
  (ar : option string) :
  Forall decode_or_write (calls (UserAuthService.logout env r a) w) /\
  Forall decode_or_write (calls (AdminAuthService.logout env ar a) w).
Proof.
  unfold calls, after. logout_unfold''. unfold_monad. simpl.
  split; repeat (step_goal; simpl).
  all: repeat rewrite <- app_assoc;
    rewrite ?drop_app_length, ?drop_all; simpl.
  all: repeat (constructor;
               [first [ left; eexists; reflexivity
                      | right; do 3 eexists; reflexivity ]|]);
    constructor.
Qed.

Ltac refresh_unfold' :=
  unfold UserAuthService.refreshToken, AdminAuthService.refreshToken,
    UserAuthService.generateTokens, AdminAuthService.generateTokens,
    TokenBlacklistService.isTokenBlacklisted,
    TokenBlacklistService.isUserBlacklisted,
    TokenBlacklistService.isAdminBlacklisted,
    Prisma.user_findUnique_where_id, Prisma.admin_findUnique_where_id,
    Prisma.user_findUnique_id, Prisma.admin_findUnique_id,
    jwtService_verify, jwtService_sign, RedisClient.get, Js.interpolate.

Lemma user_refresh_trace_irrelevant w r t :
  outcome (UserAuthService.refreshToken env r) (with_trace w t)
  = outcome (UserAuthService.refreshToken env r) w.
Proof.
  unfold outcome, with_trace. refresh_unfold'. unfold_monad. simpl.
  repeat (step_goal; simpl); reflexivity.
Qed.

Lemma admin_refresh_trace_irrelevant w r t :
  outcome (AdminAuthService.refreshToken env r) (with_trace w t)
  = outcome (AdminAuthService.refreshToken env r) w.
Proof.
  unfold outcome, with_trace. refresh_unfold'. unfold_monad. simpl.
  repeat (step_goal; simpl); reflexivity.
Qed.

Lemma user_refresh_after w r :
  exists t, after (UserAuthService.refreshToken env r) w = with_trace w t.
Proof.
  unfold after, with_trace. refresh_unfold'. unfold_monad. simpl.
  repeat (step_goal; simpl); eexists; reflexivity.
Qed.

Lemma admin_refresh_after w r :
  exists t, after (AdminAuthService.refreshToken env r) w = with_trace w t.
Proof.
  unfold after, with_trace. refresh_unfold'. unfold_monad. simpl.
  repeat (step_goal; simpl); eexists; reflexivity.
Qed.

(** X13. A refresh changes nothing but the trace: it writes neither to the
    store nor to the database, so the refresh token it was given is not
    revoked, and the same request made again gets the same answer. *)
Theorem refresh_does_not_rotate (w : World) (r : string) :
  (redis (after (UserAuthService.refreshToken env r) w) = redis w /\
   users (after (UserAuthService.refreshToken env r) w) = users w /\
   outcome (UserAuthService.refreshToken env r)
     (after (UserAuthService.refreshToken env r) w)
   = outcome (UserAuthService.refreshToken env r) w) /\
  (redis (after (AdminAuthService.refreshToken env r) w) = redis w /\
   admins (after (AdminAuthService.refreshToken env r) w) = admins w /\
   outcome (AdminAuthService.refreshToken env r)
     (after (AdminAuthService.refreshToken env r) w)
   = outcome (AdminAuthService.refreshToken env r) w).
Proof.
  destruct (user_refresh_after w r) as [tu Hu].
  destruct (admin_refresh_after w r) as [ta Ha].
  rewrite Hu, Ha. repeat split; try reflexivity.
  - apply user_refresh_trace_irrelevant.
  - apply admin_refresh_trace_irrelevant.
Qed.

End LogoutRefreshFrame.

(** ** Login rejections *)

Section LoginRejections.

Variable env : Env.

Ltac login_unfold' :=
  unfold UserAuthService.login, AdminAuthService.login,
    UserAuthService.generateTokens, AdminAuthService.generateTokens,
    Prisma.user_findUnique_email, Prisma.admin_findUnique_email,
    jwtService_sign, bcrypt_compare_call.

Lemma not_admin_barred_inv a :
  ~ admin_barred a ->
  admin_isDeleted a = false /\ admin_isSuspended a = false.
Proof.
  intros H. split.
  - destruct (admin_isDeleted a) eqn:Hd; [|reflexivity].
    exfalso. apply H. now left.
  - destruct (admin_isSuspended a) eqn:Hd; [|reflexivity].
    exfalso. apply H. now right.
Qed.

(** X14. Login does not tell an unknown email from a wrong password: both
    get the same 401 "Invalid email or password", in the user flow (for a
    verified account in good standing) and in the admin flow.  A barred
    admin is turned down as inactive before the password is looked at. *)
Theorem login_rejections (w : World) (email password : string) :
  let bad := Thrown (UnauthorizedException "Invalid email or password") in
  (user_by_email w email = None ->
   outcome (UserAuthService.login env email password) w = bad /\
   calls (UserAuthService.login env email password) w = []) /\
  (forall u hash,
      user_by_email w email = Some u -> user_emailVerified u = true ->
      ~ user_barred u -> user_password u = Some hash -> hash <> "" ->
      bcrypt_compare env password hash = false ->
      outcome (UserAuthService.login env email password) w = bad) /\
  (admin_by_email w email = None ->
   outcome (AdminAuthService.login env email password) w = bad /\
   calls (AdminAuthService.login env email password) w = []) /\
  (forall a,
      admin_by_email w email = Some a -> ~ admin_barred a ->
      bcrypt_compare env password (admin_password a) = false ->
      outcome (AdminAuthService.login env email password) w = bad) /\
  (forall a,
      admin_by_email w email = Some a -> admin_barred a ->
      outcome (AdminAuthService.login env email password) w
        = Thrown (UnauthorizedException "Admin account is inactive") /\
      calls (AdminAuthService.login env email password) w = []).
Proof.
  cbv zeta. unfold user_by_email, admin_by_email, calls, outcome, after.
  repeat match goal with |- _ /\ _ => split end.
  - intros Hu. login_unfold'. unfold_monad. simpl. rewrite Hu. simpl.
    split; [reflexivity | apply drop_all].
  - intros u hash Hu Hv Hnb Hp Hne Hpw.
    apply not_user_barred_inv in Hnb as [Hd Hst].
    login_unfold'. unfold_monad. simpl.
    rewrite Hu. simpl. rewrite Hv. simpl. rewrite Hd, Hst. simpl.
    rewrite Hp. simpl. rewrite (truthy_true _ Hne). simpl.
    now rewrite Hpw.
  - intros Ha. login_unfold'. unfold_monad. simpl. rewrite Ha. simpl.
    split; [reflexivity | apply drop_all].
  - intros a Ha Hnb Hpw.
    apply not_admin_barred_inv in Hnb as [Hd Hs].
    login_unfold'. unfold_monad. simpl.
    rewrite Ha. simpl. rewrite Hd, Hs. simpl. now rewrite Hpw.
  - intros a Ha Hb.
    assert (Hor : admin_isDeleted a || admin_isSuspended a = true)
      by (destruct Hb as [-> | ->]; [reflexivity | apply orb_true_r]).
    login_unfold'. unfold_monad. simpl.
    rewrite Ha. simpl. rewrite Hor. simpl.
    split; [reflexivity | apply drop_all].
Qed.

End LoginRejections.

(** ** Updates through a unique column *)

Section UniqueUpdates.

Context {A : Type}.

Lemma find_update_first_other (p q : A -> bool) (f : A -> A) l u :
  find p l = Some u -> find q l = Some u -> q (f u) = true ->
  find q (Prisma.update_first p f l) = Some (f u).
Proof.
  induction l as [|x l IH]; simpl; [discriminate|].
  intros Hp Hq Hf. destruct (p x) eqn:Hpx.
  - injection Hp as ->. simpl. now rewrite Hf.
  - simpl. destruct (q x) eqn:Hqx.
    + injection Hq as ->. apply find_some in Hp as [_ Hp]. congruence.
    + now apply IH.
Qed.

Lemma find_update_first_same (p : A -> bool) (f : A -> A) l u :
  find p l = Some u -> p (f u) = true ->
  find p (Prisma.update_first p f l) = Some (f u).
Proof. intros Hp Hf. now apply find_update_first_other. Qed.

End UniqueUpdates.

(** ** Email verification *)

Section EmailVerificationFlow.

Variable env : Env.

Ltac verify_unfold :=
  unfold UserAuthService.verifyEmail, UserAuthService.resendVerification,
    UserAuthService.generateTokens,
    UserAuthService.sendEmailVerificationCode,
    Prisma.user_findUnique_email, Prisma.user_findUnique_id,
    Prisma.emailVerification_findUnique, Prisma.emailVerification_delete,
    Prisma.emailVerification_upsert, Prisma.user_update,
    EmailService.sendEmailVerification, EmailService.sendEmail,
    EmailService.shouldSkipEmail, EmailQueue.addEmailToQueue,
    EmailQueue.queue_add, jwtService_sign, Date_now, randomInt.

Lemma user_id_eqb u : String.eqb (user_id u) (user_id u) = true.
Proof. apply String.eqb_refl. Qed.

(** What a verification with the right code does. *)
Lemma verifyEmail_run w email code u r :
  user_by_email w email = Some u -> user_by_id w (user_id u) = Some u ->
  live_verification w email r -> ev_code r = code ->
  let m := UserAuthService.verifyEmail env email code in
  outcome m w
    = Returned
        (SuccessResponse "Email verified successfully"
           {| ld_user := shown_user u; ld_emailVerified := None;
              ld_tokens :=
                Some (token_pair env (user_id u) (user_email u)
                        (user_role u)) |}) /\
  user_by_email (after m w) email = Some (verified u) /\
  emailVerifications (after m w)
    = delete (email, "SIGNUP") (emailVerifications w) /\
  nowMs (after m w) = nowMs w.
Proof.
  unfold user_by_email, user_by_id, live_verification.
  intros Hu Hid [Hr Hlive] Hc.
  apply Z.ltb_ge in Hlive. apply String.eqb_eq in Hc.
  assert (Hid' : find (fun x : User => String.eqb (user_id x) (user_id u))
                   (Prisma.update_first
                      (fun x : User => String.eqb (user_id x) (user_id u))
                      verified (users w)) = Some (verified u))
    by (apply find_update_first_same; [assumption | exact (user_id_eqb u)]).
  assert (Hem : find (fun x : User => String.eqb (user_email x) email)
                  (Prisma.update_first
                     (fun x : User => String.eqb (user_id x) (user_id u))
                     verified (users w)) = Some (verified u)).
  { apply find_update_first_other; try assumption.
    apply find_some in Hu as [_ Hu]. exact Hu. }
  cbv zeta. unfold outcome, after. verify_unfold. unfold_monad'. simpl.
  rewrite Hu. simpl. rewrite Hr. simpl. rewrite Hlive. simpl.
  rewrite Hc. simpl. rewrite Hid. simpl. rewrite Hr. simpl.
  fold (verified) in Hid', Hem.
  change (fun u0 : User =>
            {| user_id := user_id u0; user_email := user_email u0;
               user_password := user_password u0;
               user_firstName := user_firstName u0;
               user_lastName := user_lastName u0;
               user_role := user_role u0; user_status := user_status u0;
               user_isDeleted := user_isDeleted u0;
               user_emailVerified := true |}) with verified.
  rewrite Hid'. simpl. rewrite Hem. repeat split; reflexivity.
Qed.

Lemma login_unverified_frame w email password u :
  user_by_email w email = Some u -> user_emailVerified u = false ->
  users (after (UserAuthService.login env email password) w) = users w /\
  nowMs (after (UserAuthService.login env email password) w) = nowMs w.
Proof.
  unfold user_by_email. intros Hu Hv. unfold after.
  unfold UserAuthService.login. verify_unfold. unfold_monad. simpl.
  rewrite Hu. simpl. rewrite Hv. simpl.
  repeat (step_goal; simpl); split; reflexivity.
Qed.

Lemma verifyEmail_failures w email code u :
  user_by_email w email = Some u ->
  let m := UserAuthService.verifyEmail env email code in
  (emailVerifications w !! (email, "SIGNUP") = None ->
   m w = (Thrown (BadRequestException
                    "Please request a new verification code"), w)) /\
  (forall r,
      emailVerifications w !! (email, "SIGNUP") = Some r ->
      (ev_expiresAt r < nowMs w ->
       m w = (Thrown (BadRequestException "Verification code expired"), w))
      /\
      (nowMs w <= ev_expiresAt r -> ev_code r <> code ->
       m w = (Thrown (BadRequestException "Invalid verification code"), w))).
Proof.
  unfold user_by_email. intros Hu. cbv zeta.
  split; [intros Hr | intros r Hr; split; [intros He | intros He Hc]];
    verify_unfold; unfold_monad'; simpl; rewrite Hu; simpl; rewrite Hr; simpl.
  - reflexivity.
  - apply Z.ltb_lt in He. now rewrite He.
  - apply Z.ltb_ge in He. apply String.eqb_neq in Hc.
    rewrite He. simpl. now rewrite Hc.
Qed.

(** X15. The code that a login of an unverified account stores verifies the
    account: [verifyEmail] with that code answers with a token pair for the
    account, marks the row verified and deletes the verification record, so
    that the same code cannot be used again. *)
Theorem verification_round_trip (w : World) (email password : string)
  (u : User) :
  user_by_email w email = Some u -> user_by_id w (user_id u) = Some u ->
  user_emailVerified u = false ->
  let w1 := after (UserAuthService.login env email password) w in
  let m := UserAuthService.verifyEmail env email (next_code w) in
  outcome m w1
    = Returned
        (SuccessResponse "Email verified successfully"
           {| ld_user := shown_user u; ld_emailVerified := None;
              ld_tokens :=
                Some (token_pair env (user_id u) (user_email u)
                        (user_role u)) |}) /\
  user_by_email (after m w1) email = Some (verified u) /\
  emailVerifications (after m w1) !! (email, "SIGNUP") = None /\
  outcome m (after m w1)
    = Thrown (BadRequestException "Please request a new verification code").
Proof.
  intros Hu Hid Hv. cbv zeta.
  destruct (login_unverified_run env w email password u Hu Hv)
    as (_ & Hrec & _). cbv zeta in Hrec.
  destruct (login_unverified_frame w email password u Hu Hv)
    as [Husers Hnow].
  set (w1 := after (UserAuthService.login env email password) w) in *.
  assert (Hu1 : user_by_email w1 email = Some u)
    by (unfold user_by_email in *; now rewrite Husers).
  assert (Hid1 : user_by_id w1 (user_id u) = Some u)
    by (unfold user_by_id in *; now rewrite Husers).
  destruct (verifyEmail_run w1 email (next_code w) u
              {| ev_code := next_code w;
                 ev_expiresAt := nowMs w + OTP_EXPIRATION_TIME * 60 * 1000;
                 ev_attempts := 0 |} Hu1 Hid1)
    as (Ho & Hu2 & Hev & _).
  { split; [exact Hrec|]. simpl. rewrite Hnow. unfold OTP_EXPIRATION_TIME.
    lia. }
  { reflexivity. }
  cbv zeta in Ho, Hu2, Hev.
  assert (Hgone :
            emailVerifications
              (after (UserAuthService.verifyEmail env email (next_code w))
                 w1) !! (email, "SIGNUP") = None)
    by (rewrite Hev; apply lookup_delete_eq).
  repeat split; try assumption.
  destruct (verifyEmail_failures _ email (next_code w) _ Hu2) as [Hnone _].
  cbv zeta in Hnone. unfold outcome. now rewrite (Hnone Hgone).
Qed.

(** X16. A failed email verification changes nothing: with a wrong code, an
    expired code or no code on record, [verifyEmail] rejects with a 400 and
    leaves the world as it was; wrong codes are not counted and the record
    is not deleted, so the same record can be tried again. *)
Theorem failed_verification_changes_nothing (w : World)
  (email code : string) (u : User) :
  user_by_email w email = Some u ->
  let m := UserAuthService.verifyEmail env email code in
  (emailVerifications w !! (email, "SIGNUP") = None ->
   outcome m w
     = Thrown (BadRequestException "Please request a new verification code")
   /\ after m w = w) /\
  (forall r,
      emailVerifications w !! (email, "SIGNUP") = Some r ->
      (ev_expiresAt r < nowMs w ->
       outcome m w = Thrown (BadRequestException "Verification code expired")
       /\ after m w = w) /\
      (nowMs w <= ev_expiresAt r -> ev_code r <> code ->
       outcome m w = Thrown (BadRequestException "Invalid verification code")
       /\ after m w = w)).
Proof.
  intros Hu. cbv zeta.
  destruct (verifyEmail_failures w email code u Hu) as [Hnone Hsome].
  cbv zeta in Hnone, Hsome. unfold outcome, after.
  split.
  - intros Hr. now rewrite (Hnone Hr).
  - intros r Hr. destruct (Hsome r Hr) as [Hexp Hbad]. split.
    + intros He. now rewrite (Hexp He).
    + intros He Hc. now rewrite (Hbad He Hc).
Qed.

End EmailVerificationFlow.

(** ** Resetting a password *)

Section ResetFlows.

Variable env : Env.

Ltac reset_unfold' :=
  unfold UserAuthService.verifyResetCode, UserAuthService.resetPassword,
    AdminAuthService.verifyCode, AdminAuthService.resetPassword,
    UserAuthService.MAX_PASSWORD_RESET_ATTEMPTS,
    AdminAuthService.MAX_PASSWORD_RESET_ATTEMPTS,
    UserAuthService.PASSWORD_RESET_TYPE, AdminAuthService.PASSWORD_RESET_TYPE,
    Prisma.user_findUnique_email, Prisma.admin_findUnique_email,
    Prisma.passwordReset_findUnique, Prisma.passwordReset_update,
    Prisma.passwordReset_delete, Prisma.user_update, Prisma.admin_update,
    jwtService_sign, jwtService_verify, Date_now.

Lemma verifyResetCode_ok w email u r :
  user_by_email w email = Some u -> live_reset w email "USER" r ->
  pr_attempts r < 3 ->
  let m := UserAuthService.verifyResetCode env email (pr_code r) in
  outcome m w
    = Returned
        (SuccessResponse "Reset code verified successfully"
           {| resetToken := reset_token env email;
              rc_message := "You can now reset your password" |}) /\
  passwordResets (after m w)
    = <[(email, "USER") := verified_reset r (nowMs w)]> (passwordResets w) /\
  users (after m w) = users w /\ nowMs (after m w) = nowMs w.
Proof.
  unfold user_by_email. intros Hu [Hr Hlive] Hcap.
  apply Z.ltb_ge in Hlive. apply Z.leb_gt in Hcap.
  cbv zeta. unfold outcome, after. reset_unfold'. unfold_monad. simpl.
  rewrite Hu. simpl. rewrite Hr. simpl. rewrite Hlive. simpl.
  rewrite Hcap. simpl. rewrite String.eqb_refl. simpl. rewrite Hr. simpl.
  repeat split; reflexivity.
Qed.

Lemma resetPassword_ok w tok pw p u r :
  jwt_verify env tok (JWT_SECRET env) = inr p ->
  purpose p = Some "password-reset" ->
  user_by_email w (jwt_email p) = Some u ->
  user_by_id w (user_id u) = Some u ->
  live_reset w (jwt_email p) "USER" r -> pr_verifiedAt r <> None ->
  let m := UserAuthService.resetPassword env tok pw in
  outcome m w = Returned (SuccessResponse "Password reset successful" null) /\
  user_by_email (after m w) (jwt_email p)
    = Some (user_with_password u (bcrypt_hash env pw)) /\
  passwordResets (after m w)
    = delete (jwt_email p, "USER") (passwordResets w).
Proof.
  unfold user_by_email, user_by_id. intros Hv Hp Hu Hid [Hr Hlive] Hver.
  apply Z.ltb_ge in Hlive.
  set (f := fun x : User => user_with_password x (bcrypt_hash env pw)).
  assert (Hem : find (fun x : User =>
                        String.eqb (user_email x) (jwt_email p))
                  (Prisma.update_first
                     (fun x : User => String.eqb (user_id x) (user_id u))
                     f (users w)) = Some (f u)).
  { apply find_update_first_other; try assumption.
    apply find_some in Hu as [_ Hu]. exact Hu. }
  cbv zeta. unfold outcome, after. reset_unfold'. unfold_monad'. simpl.
  rewrite Hv. simpl. rewrite Hp. simpl. rewrite Hu. simpl.
  rewrite Hr. simpl.
  rewrite (bool_decide_eq_true_2 _ Hver). simpl.
  rewrite Hlive. simpl. rewrite Hid. simpl. rewrite Hr. simpl.
  repeat split; try reflexivity. exact Hem.
Qed.

Lemma resetPassword_failures w tok pw p u :
  jwt_verify env tok (JWT_SECRET env) = inr p ->
  purpose p = Some "password-reset" ->
  user_by_email w (jwt_email p) = Some u ->
  let m := UserAuthService.resetPassword env tok pw in
  (passwordResets w !! (jwt_email p, "USER") = None ->
   outcome m w
     = Thrown (BadRequestException "Please request a password reset first"))
  /\
  (forall r,
      passwordResets w !! (jwt_email p, "USER") = Some r ->
      pr_verifiedAt r = None ->
      outcome m w
        = Thrown (BadRequestException "Please verify your reset code first")).
Proof.
  unfold user_by_email. intros Hv Hp Hu. cbv zeta. split.
  - intros Hr. unfold outcome. reset_unfold'. unfold_monad'. simpl.
    rewrite Hv. simpl. rewrite Hp. simpl. rewrite Hu. simpl.
    now rewrite Hr.
  - intros r Hr Hn. unfold outcome. reset_unfold'. unfold_monad'. simpl.
    rewrite Hv. simpl. rewrite Hp. simpl. rewrite Hu. simpl.
    rewrite Hr. simpl. rewrite Hn. reflexivity.
Qed.

End ResetFlows.

Section ResetCompletion.

Variable env : Env.

Lemma user_by_email_unique w email u :
  user_by_email w email = Some u -> user_email u = email.
Proof.
  unfold user_by_email. intros H. apply find_some in H as [_ H].
  now apply String.eqb_eq in H.
Qed.

(** X17. A user's password reset runs to its end: verifying the right code
    of a live record below the cap returns the reset token; that token then
    resets the password, which stores the hash of the new password and
    deletes the reset record; so the same token cannot reset a second
    time. *)
Theorem password_reset_round_trip (w : World) (email pw pw' : string)
  (u : User) (r : PasswordReset) :
  user_by_email w email = Some u -> user_by_id w (user_id u) = Some u ->
  live_reset w email "USER" r -> pr_attempts r < 3 ->
  verifies_as_reset env (reset_token env email) email ->
  let verify := UserAuthService.verifyResetCode env email (pr_code r) in
  let reset := UserAuthService.resetPassword env (reset_token env email) pw in
  let w1 := after verify w in
  let w2 := after reset w1 in
  outcome verify w
    = Returned
        (SuccessResponse "Reset code verified successfully"
           {| resetToken := reset_token env email;
              rc_message := "You can now reset your password" |}) /\
  outcome reset w1
    = Returned (SuccessResponse "Password reset successful" null) /\
  user_by_email w2 email
    = Some (user_with_password u (bcrypt_hash env pw)) /\
  passwordResets w2 !! (email, "USER") = None /\
  outcome (UserAuthService.resetPassword env (reset_token env email) pw') w2
    = Thrown (BadRequestException "Please request a password reset first").
Proof.
  intros Hu Hid Hlive Hcap (p & Hv & Hp & Hem). cbv zeta.
  destruct (verifyResetCode_ok env w email u r Hu Hlive Hcap)
    as (Ho & Hpr & Hus & Hnow).
  set (w1 := after (UserAuthService.verifyResetCode env email (pr_code r)) w)
    in *.
  set (tok := reset_token env email) in *. clearbody tok w1. subst email.
  assert (Hu1 : user_by_email w1 (jwt_email p) = Some u).
  { unfold user_by_email. rewrite Hus. exact Hu. }
  assert (Hid1 : user_by_id w1 (user_id u) = Some u).
  { unfold user_by_id. rewrite Hus. exact Hid. }
  assert (Hlive1 : live_reset w1 (jwt_email p) "USER"
                     (verified_reset r (nowMs w))).
  { destruct Hlive as [_ Hl]. split.
    - rewrite Hpr. apply lookup_insert_eq.
    - rewrite Hnow. exact Hl. }
  destruct (resetPassword_ok env w1 tok pw p u
              (verified_reset r (nowMs w)) Hv Hp Hu1 Hid1 Hlive1)
    as (Ho2 & Hu2 & Hpr2); [discriminate|].
  split; [exact Ho|]. split; [exact Ho2|]. split; [exact Hu2|].
  assert (Hgone :
            passwordResets (after (UserAuthService.resetPassword env tok pw) w1)
              !! (jwt_email p, "USER") = None).
  { rewrite Hpr2. apply lookup_delete_eq. }
  split; [exact Hgone|].
  exact (proj1 (resetPassword_failures env _ tok pw' p _ Hv Hp Hu2) Hgone).
Qed.

(** X18. Asking for a new code withdraws an earlier verification: after
    [forgotPassword] goes through, a reset token obtained before it is
    refused with "Please verify your reset code first", whatever the state
    of the reset record was. *)
Theorem new_request_withdraws_verification (w : World) (tok pw : string)
  (p : JwtPayload) (u : User) :
  jwt_verify env tok (JWT_SECRET env) = inr p ->
  purpose p = Some "password-reset" ->
  user_by_email w (jwt_email p) = Some u ->
  let w1 := after (UserAuthService.forgotPassword (jwt_email p)) w in
  outcome (UserAuthService.resetPassword env tok pw) w1
    = Thrown (BadRequestException "Please verify your reset code first").
Proof.
  intros Hv Hp Hu. cbv zeta.
  pose proof (user_forgotPassword_fresh w (jwt_email p) u Hu) as Hf.
  cbv zeta in Hf. destruct Hf as (_ & r & Hr & _ & Hver).
  refine (proj2 (resetPassword_failures env _ tok pw p u Hv Hp _) r Hr Hver).
  revert Hu. unfold user_by_email, after, UserAuthService.forgotPassword,
    UserAuthService.PASSWORD_RESET_TYPE, Prisma.user_findUnique_email,
    Prisma.passwordReset_upsert, EmailService.sendUserPasswordResetCode,
    EmailService.sendEmail, EmailService.shouldSkipEmail,
    EmailQueue.addEmailToQueue, EmailQueue.queue_add, randomInt, Date_now.
  unfold_monad. simpl. intros Hu. rewrite Hu. simpl.
  repeat (step_goal; simpl; repeat (progress (rewrite ?Hu; simpl)));
    try exact Hu; reflexivity.
Qed.

End ResetCompletion.

Section ResetEdges.

Variable env : Env.

Ltac reset_unfold'' :=
  unfold UserAuthService.verifyResetCode, UserAuthService.resetPassword,
    AdminAuthService.verifyCode, AdminAuthService.resetPassword,
    UserAuthService.MAX_PASSWORD_RESET_ATTEMPTS,
    AdminAuthService.MAX_PASSWORD_RESET_ATTEMPTS,
    UserAuthService.PASSWORD_RESET_TYPE, AdminAuthService.PASSWORD_RESET_TYPE,
    Prisma.user_findUnique_email, Prisma.admin_findUnique_email,
    Prisma.passwordReset_findUnique, Prisma.passwordReset_update,
    Prisma.passwordReset_delete, Prisma.user_update, Prisma.admin_update,
    jwtService_sign, jwtService_verify, Date_now.

(** X19. The admin [resetPassword] checks the code by itself: on a live
    record a wrong code is rejected and changes nothing, not even the
    attempt count, and the right code resets the password and deletes the
    record, whatever the attempt count is and whether or not [verifyCode]
    ran before. *)
Theorem admin_reset_checks_code_only (w : World) (email code pw : string)
  (r : PasswordReset) :
  live_reset w email "ADMIN" r ->
  let m := AdminAuthService.resetPassword env email code pw in
  (pr_code r <> code ->
   outcome m w = Thrown invalid_reset_code /\ after m w = w) /\
  (pr_code r = code ->
   forall a,
     admin_by_email w email = Some a -> admin_by_id w (admin_id a) = Some a ->
     outcome m w
       = Returned (SuccessResponse "Password reset successfully" null) /\
     admin_by_email (after m w) email
       = Some (admin_with_password a (bcrypt_hash env pw)) /\
     passwordResets (after m w) !! (email, "ADMIN") = None).
Proof.
  intros [Hr Hlive]. apply Z.ltb_ge in Hlive. cbv zeta. split.
  - intros Hne. apply String.eqb_neq in Hne.
    unfold outcome, after. reset_unfold''. unfold_monad'. simpl.
    rewrite Hr. simpl. rewrite Hlive. simpl. rewrite Hne. simpl.
    split; [reflexivity|]. now destruct w.
  - intros <- a. unfold admin_by_email, admin_by_id. intros Ha Hid.
    set (f := fun x : Admin => admin_with_password x (bcrypt_hash env pw)).
    assert (Hem : find (fun x : Admin => String.eqb (admin_email x) email)
                    (Prisma.update_first
                       (fun x : Admin => String.eqb (admin_id x) (admin_id a))
                       f (admins w)) = Some (f a)).
    { apply find_update_first_other; try assumption.
      apply find_some in Ha as [_ Ha]. exact Ha. }
    unfold outcome, after. reset_unfold''. unfold_monad'. simpl.
    rewrite Hr. simpl. rewrite Hlive. simpl. rewrite String.eqb_refl. simpl.
    rewrite Ha. simpl. rewrite Hid. simpl. rewrite Hr. simpl.
    split; [reflexivity|]. split; [exact Hem|]. apply lookup_delete_eq.
Qed.

(** X20. An expired reset record: both admin calls reject with "Reset code
    expired" and delete the record, so the next call finds no reset request;
    the user's [verifyResetCode] rejects with "Password reset code expired"
    and leaves the store of reset records as it is. *)
Theorem expired_reset_record (w : World) (email code pw : string)
  (r : PasswordReset) (type : string) :
  passwordResets w !! (email, type) = Some r ->
  pr_expiresAt r < nowMs w ->
  (type = "ADMIN" ->
   let v := AdminAuthService.verifyCode email code in
   let m := AdminAuthService.resetPassword env email code pw in
   outcome v w = Thrown (BadRequestException "Reset code expired") /\
   passwordResets (after v w) = delete (email, "ADMIN") (passwordResets w) /\
   outcome m w = Thrown (BadRequestException "Reset code expired") /\
   passwordResets (after m w) = delete (email, "ADMIN") (passwordResets w) /\
   outcome v (after m w)
     = Thrown (BadRequestException "No reset request found for this email")) /\
  (type = "USER" ->
   forall u, user_by_email w email = Some u ->
   let v := UserAuthService.verifyResetCode env email code in
   outcome v w = Thrown (BadRequestException "Password reset code expired") /\
   passwordResets (after v w) = passwordResets w).
Proof.
  intros Hr Hexp. apply Z.ltb_lt in Hexp. cbv zeta. split.
  - intros ->. unfold outcome, after. reset_unfold''. unfold_monad'. simpl.
    rewrite Hr. simpl. rewrite Hexp. simpl. rewrite Hr. simpl.
    rewrite lookup_delete_eq. simpl. repeat split; reflexivity.
  - intros -> u. unfold user_by_email. intros Hu.
    unfold outcome, after. reset_unfold''. unfold_monad'. simpl.
    rewrite Hu. simpl. rewrite Hr. simpl. rewrite Hexp. simpl.
    split; reflexivity.
Qed.

(** X21. Tokens are bound to their use. A token that verifies but does not
    carry the purpose "password-reset", as the access tokens, is refused by
    [resetPassword] with the 401 "Invalid reset token" and neither users nor
    reset records change; a token that verifies without a subject, as the
    reset token, is refused by both guards with a 401 (the user guard's
    message is its catch-all's, "Authentication failed."). *)
Theorem tokens_bound_to_use (w : World) (h tok pw : string) (p : JwtPayload) :
  jwt_verify env tok (JWT_SECRET env) = inr p ->
  (purpose p <> Some "password-reset" ->
   let m := UserAuthService.resetPassword env tok pw in
   outcome m w = Thrown (UnauthorizedException "Invalid reset token") /\
   users (after m w) = users w /\
   passwordResets (after m w) = passwordResets w) /\
  (Js.truthy_opt (sub p) = false -> bearer_header h tok ->
   store_has w ("blacklist:" +:+ tok) = false ->
   outcome (AuthGuard.authenticateUser env (Some h)) w
     = Thrown (UnauthorizedException "Authentication failed.") /\
   outcome (AdminAuthGuard.authenticateAdmin env (Some h)) w
     = Thrown (UnauthorizedException "Invalid token")).
Proof.
  intros Hv. split.
  - intros Hp. cbv zeta. unfold outcome, after. reset_unfold''.
    unfold_monad'. simpl. rewrite Hv. simpl.
    rewrite (bool_decide_eq_false_2 _ Hp). simpl. repeat split; reflexivity.
  - intros Hsub Hb Hs.
    rewrite (authenticateUser_bearer env _ _ Hb),
      (authenticateAdmin_bearer env _ _ Hb).
    unfold outcome, user_bearer_steps, admin_bearer_steps,
      AuthGuard.accessTokenSecret, AdminAuthGuard.accessTokenSecret.
    rewrite !bind_run, !isTokenBlacklisted_run, Hs.
    unfold jwtService_verify. unfold_monad. simpl. rewrite Hv. simpl.
    rewrite Hsub. simpl. split; reflexivity.
Qed.

End ResetEdges.

(** ** Mail *)

Section Mail.

Variable env : Env.

Ltac mail_unfold :=
  unfold EmailService.sendAdminPasswordResetCode,
    EmailService.sendUserPasswordResetCode, EmailService.sendEmail,
    EmailService.shouldSkipEmail, EmailQueue.addEmailToQueue,
    EmailQueue.queue_add, Prisma.user_findUnique_email.

Lemma sendEmail_run w job :
  let m := EmailService.sendEmail job in
  outcome m w = Returned tt /\
  emailQueue (after m w)
    = (if undeliverable w (recipient job) then emailQueue w
       else emailQueue w ++ [job]) /\
  users (after m w) = users w /\
  passwordResets (after m w) = passwordResets w /\
  (skipped_address w (recipient job) = true -> after m w = w).
Proof.
  cbv zeta. unfold outcome, after, undeliverable, skipped_address,
    user_by_email, mail_skipped. mail_unfold. unfold_monad. simpl.
  destruct (find _ (users w)) as [u|]; simpl.
  - destruct (user_isDeleted u || String.eqb (user_status u) "DELETED");
      simpl.
    + repeat split; reflexivity.
    + destruct (queue_throws w); simpl; repeat split; try reflexivity;
        discriminate.
  - destruct (queue_throws w); simpl; repeat split; try reflexivity;
      discriminate.
Qed.

(** X22. Mail is best effort: [sendEmail] returns normally for every job in
    every world; the job joins the queue when the address is not that of a
    deleted user and the queue accepts it, otherwise the queue stays as it
    is; and for the address of a deleted user nothing is even attempted. *)
Theorem sendEmail_best_effort (w : World) (job : EmailJob) :
  let m := EmailService.sendEmail job in
  outcome m w = Returned tt /\
  emailQueue (after m w)
    = (if undeliverable w (recipient job) then emailQueue w
       else emailQueue w ++ [job]) /\
  (skipped_address w (recipient job) = true -> calls m w = []).
Proof.
  destruct (sendEmail_run w job) as (Ho & Hq & _ & _ & Hskip). cbv zeta.
  split; [exact Ho|]. split; [exact Hq|].
  intros Hs. unfold calls. rewrite (Hskip Hs). apply drop_all.
Qed.

(** X23. A reset code that cannot be mailed is not reported: when the
    address is skipped or the queue is down, [forgotPassword] still answers
    with its success message and stores the new reset record (the code just
    drawn, five minutes, no attempt), and no mail is queued; in the user and
    in the admin flow, where the skipped addresses are again those of
    deleted user rows. *)
Theorem unmailed_reset_code_unreported (w : World) (email : string)
  (ip : option string) :
  undeliverable w email = true ->
  (forall u, user_by_email w email = Some u ->
     let m := UserAuthService.forgotPassword email in
     outcome m w
       = Returned
           (SuccessResponse "Password reset code sent to your email" null) /\
     emailQueue (after m w) = emailQueue w /\
     passwordResets (after m w) !! (email, "USER")
       = Some (user_reset_record w)) /\
  (forall a, admin_by_email w email = Some a ->
     let m := AdminAuthService.forgotPassword env email ip in
     outcome m w
       = Returned (SuccessResponse "Password reset code sent to email" null) /\
     emailQueue (after m w) = emailQueue w /\
     passwordResets (after m w) !! (email, "ADMIN")
       = Some (admin_reset_record env w email)).
Proof.
  unfold undeliverable, skipped_address, user_by_email, admin_by_email,
    mail_skipped, user_reset_record, admin_reset_record, next_code,
    admin_next_code.
  intros Hun. split.
  - intros u Hu. rewrite Hu in Hun. cbv zeta.
    unfold outcome, after, UserAuthService.forgotPassword,
      UserAuthService.PASSWORD_RESET_TYPE, Prisma.passwordReset_upsert,
      randomInt, Date_now.
    mail_unfold. unfold_monad. simpl. rewrite Hu. simpl.
    repeat (step_goal; simpl; repeat (progress (rewrite ?Hu; simpl)));
      try (split; [reflexivity|]; split; [reflexivity|];
           rewrite lookup_insert_eq; reflexivity).
    all: exfalso; revert Hun;
      repeat match goal with H : _ = false |- _ => rewrite H end;
      simpl; congruence.
  - intros a Ha. cbv zeta.
    assert (Hema : admin_email a = email).
    { apply find_some in Ha as [_ Ha]. now apply String.eqb_eq in Ha. }
    unfold outcome, after, AdminAuthService.forgotPassword,
      AdminAuthService.PASSWORD_RESET_TYPE, Prisma.admin_findUnique_email,
      Prisma.passwordReset_upsert, randomInt, Date_now.
    mail_unfold. unfold_monad. simpl. rewrite Ha. simpl. rewrite Hema.
    repeat (step_goal; simpl);
      try (split; [reflexivity|]; split; [reflexivity|];
           rewrite lookup_insert_eq; reflexivity).
    all: exfalso; revert Hun;
      repeat match goal with H : _ = _ |- _ => rewrite H end;
      simpl; congruence.
Qed.

End Mail.

(** ** Deleting an admin *)

Section AdminDeletion.

Variable env : Env.
Variable isSuper : Admin -> bool.

Ltac delete_unfold :=
  unfold AdminService.delete, Prisma.admin_findUnique_id,
    Prisma.admin_update, TokenBlacklistService.blacklistAdminTokens,
    RedisClient.setEx.

Lemma admin_by_id_unique w id a :
  admin_by_id w id = Some a -> admin_id a = id.
Proof.
  unfold admin_by_id. intros H. apply find_some in H as [_ H].
  now apply String.eqb_eq in H.
Qed.

(** X24. What [delete] refuses: one's own account, before the row is even
    looked up; an id with no row; a super admin; a row already deleted. A
    refused deletion changes nothing: no revocation is written and no row
    is touched. *)
Theorem admin_delete_refusals (w : World) (id current : string) :
  let m := AdminService.delete env isSuper id current in
  (id = current ->
   outcome m w
     = Thrown (BadRequestException "You cannot delete your own account")) /\
  (id <> current -> admin_by_id w id = None ->
   outcome m w = Thrown (NotFoundException "Admin not found")) /\
  (forall a, id <> current -> admin_by_id w id = Some a ->
     isSuper a = true ->
     outcome m w
       = Thrown (BadRequestException
                   "Cannot delete super admin account. Please demote to regular admin first.")) /\
  (forall a, id <> current -> admin_by_id w id = Some a ->
     isSuper a = false -> admin_isDeleted a = true ->
     outcome m w = Thrown (BadRequestException "Admin is already deleted")) /\
  (forall e, outcome m w = Thrown e -> after m w = w).
Proof.
  cbv zeta. unfold admin_by_id, outcome, after.
  repeat match goal with |- _ /\ _ => split end.
  - intros ->. delete_unfold. unfold_monad'. simpl.
    now rewrite String.eqb_refl.
  - intros Hne Ha. apply String.eqb_neq in Hne.
    delete_unfold. unfold_monad'. simpl. rewrite Hne. simpl. now rewrite Ha.
  - intros a Hne Ha Hs. apply String.eqb_neq in Hne.
    delete_unfold. unfold_monad'. simpl. rewrite Hne. simpl. rewrite Ha.
    simpl. now rewrite Hs.
  - intros a Hne Ha Hs Hd. apply String.eqb_neq in Hne.
    delete_unfold. unfold_monad'. simpl. rewrite Hne. simpl. rewrite Ha.
    simpl. rewrite Hs. simpl. now rewrite Hd.
  - intros e. delete_unfold. unfold_monad'. simpl.
    destruct (String.eqb id current); simpl; [reflexivity|].
    destruct (find _ (admins w)) as [a|] eqn:Ha; simpl; [|reflexivity].
    destruct (isSuper a); simpl; [reflexivity|].
    destruct (admin_isDeleted a); simpl; [reflexivity|].
    destruct (TimeUtils.parseExpiryToSeconds _) as [seconds| |]; simpl;
      [destruct (redis_throws w _); simpl|..];
      rewrite Ha; simpl; discriminate.
Qed.

(** X25. A deleted admin is locked out whether or not the revocation store
    takes the write: [delete] of another, regular, live admin succeeds even
    when Redis throws, flags the row deleted and, when Redis takes it,
    stores the blanket revocation of the id for the refresh lifetime (seven
    days when none is configured; a lifetime that overflows to [Infinity]
    is refused by Redis and the store stays as it is); afterwards the guard
    turns down every token that verifies for the id and login answers that
    the account is inactive. *)
Theorem deleted_admin_locked_out (w : World) (id current h tok pw : string)
  (a : Admin) (p : JwtPayload) :
  id <> current -> admin_by_id w id = Some a ->
  isSuper a = false -> admin_isDeleted a = false ->
  let m := AdminService.delete env isSuper id current in
  let w1 := after m w in
  let ttl :=
    TimeUtils.parseExpiryToSeconds
      (if Js.truthy (JWT_REFRESH_EXPIRY_TIME env)
       then JWT_REFRESH_EXPIRY_TIME env else "7d") in
  outcome m w = Returned (SuccessResponse "Admin deleted successfully" null) /\
  admin_by_id w1 id = Some (deleted_admin a) /\
  match ttl with
  | Js.Int seconds =>
      redis_throws w (SETEX ("blacklist:admin:" +:+ id) seconds "1") = false ->
      redis w1 !! ("blacklist:admin:" +:+ id) = Some (seconds, "1")
  | _ => redis w1 = redis w
  end /\
  (bearer_header h tok ->
   jwt_verify env tok (JWT_SECRET env) = inr p -> sub p = Some id ->
   exists msg,
     outcome (AdminAuthGuard.authenticateAdmin env (Some h)) w1
       = Thrown (UnauthorizedException msg)) /\
  (admin_by_email w (admin_email a) = Some a ->
   outcome (AdminAuthService.login env (admin_email a) pw) w1
     = Thrown (UnauthorizedException "Admin account is inactive")).
Proof.
  intros Hne Ha Hs Hd. cbv zeta.
  pose proof (admin_by_id_unique _ _ _ Ha) as Hid.
  apply String.eqb_neq in Hne. unfold admin_by_id in Ha.
  assert (Hadm :
            admins (after (AdminService.delete env isSuper id current) w)
            = Prisma.update_first
                (fun x : Admin => String.eqb (admin_id x) id)
                deleted_admin (admins w)).
  { unfold after. delete_unfold. unfold_monad'. simpl. rewrite Hne. simpl.
    rewrite Ha. simpl. rewrite Hs. simpl. rewrite Hd. simpl.
    destruct (TimeUtils.parseExpiryToSeconds _) as [seconds| |]; simpl;
      [destruct (redis_throws w _); simpl|..]; rewrite Ha; reflexivity. }
  assert (Hrow :
            admin_by_id (after (AdminService.delete env isSuper id current) w)
              id = Some (deleted_admin a)).
  { unfold admin_by_id. rewrite Hadm.
    apply find_update_first_same; [exact Ha|].
    simpl. rewrite Hid. apply String.eqb_refl. }
  split; [|split; [exact Hrow|split; [|split]]].
  - unfold outcome. delete_unfold. unfold_monad'. simpl. rewrite Hne. simpl.
    rewrite Ha. simpl. rewrite Hs. simpl. rewrite Hd. simpl.
    destruct (TimeUtils.parseExpiryToSeconds _) as [seconds| |]; simpl;
      [destruct (redis_throws w _); simpl|..]; rewrite Ha; reflexivity.
  - unfold after. delete_unfold. unfold_monad'.
    simpl. rewrite Hne. simpl. rewrite Ha. simpl. rewrite Hs. simpl.
    rewrite Hd. simpl.
    destruct (TimeUtils.parseExpiryToSeconds _) as [seconds| |]; simpl;
      [|rewrite Ha; reflexivity..].
    intros Hup. rewrite Hup. simpl. rewrite Ha. simpl.
    apply lookup_insert_eq.
  - intros Hb Hv Hsub.
    apply (admin_barred_rejected env _ h tok p (deleted_admin a) Hb Hv).
    + rewrite Hsub. exact Hrow.
    + left. reflexivity.
  - intros Hem.
    assert (Hrow' :
              admin_by_email
                (after (AdminService.delete env isSuper id current) w)
                (admin_email a) = Some (deleted_admin a)).
    { unfold admin_by_email. rewrite Hadm.
      apply find_update_first_other; [exact Ha|exact Hem|].
      simpl. apply String.eqb_refl. }
    unfold admin_by_email in Hrow'.
    unfold outcome, AdminAuthService.login, Prisma.admin_findUnique_email.
    unfold_monad. simpl. rewrite Hrow'. reflexivity.
Qed.

End AdminDeletion.

(** ** Deactivating an admin *)

Section AdminStatus.

Variable env : Env.
Variable isSuper : Admin -> bool.

Ltac toggle_unfold :=
  unfold AdminService.toggleStatus, Prisma.admin_findUnique_id,
    Prisma.admin_update_returning,
    TokenBlacklistService.blacklistAdminTokens,
    TokenBlacklistService.removeAdminFromBlacklist,
    RedisClient.setEx, RedisClient.del.

Lemma not_barred_flags a :
  ~ admin_barred a ->
  admin_isDeleted a = false /\ admin_isSuspended a = false.
Proof.
  intros H. split.
  - destruct (admin_isDeleted a) eqn:E; [|reflexivity].
    exfalso. apply H. now left.
  - destruct (admin_isSuspended a) eqn:E; [|reflexivity].
    exfalso. apply H. now right.
Qed.

(** What a deactivation does to the world. *)
Lemma deactivate_run w id current a :
  id <> current -> admin_by_id w id = Some a ->
  isSuper a = false -> admin_isDeleted a = false ->
  admin_status a <> "DEACTIVATED" ->
  let m :=
    AdminService.toggleStatus env isSuper id AdminService.deactivate current in
  outcome m w
    = Returned
        (SuccessResponse "Admin deactivated successfully"
           (status_view false (admin_with_status a "DEACTIVATED"))) /\
  admins (after m w)
    = Prisma.update_first (fun x : Admin => String.eqb (admin_id x) id)
        (fun x => admin_with_status x "DEACTIVATED") (admins w) /\
  redis_throws (after m w) = redis_throws w /\
  redis (after m w)
    = match blanket_lifetime env with
      | Js.Int seconds =>
          if redis_throws w (SETEX ("blacklist:admin:" +:+ id) seconds "1")
          then redis w
          else <["blacklist:admin:" +:+ id := (seconds, "1")]> (redis w)
      | _ => redis w
      end.
Proof.
  unfold admin_by_id, blanket_lifetime. intros Hne Ha Hs Hd Hst.
  apply String.eqb_neq in Hne, Hst. cbv zeta.
  unfold outcome, after. toggle_unfold. unfold_monad'. simpl.
  rewrite Hne. simpl. rewrite Ha. simpl. rewrite Hd. simpl.
  rewrite Hs. simpl. rewrite Hst. simpl.
  destruct (TimeUtils.parseExpiryToSeconds _) as [seconds| |]; simpl;
    [destruct (redis_throws w _); simpl|..];
    rewrite Ha; simpl; repeat split; reflexivity.
Qed.

(** X28. Deactivating an admin rests on the revocation store alone.
    [toggleStatus] with "deactivate" on another, regular admin that is
    neither flagged deleted nor suspended, and not deactivated yet, answers
    its success message and writes the status DEACTIVATED.  Afterwards the
    guard turns down a token that verifies for the id only by the blanket
    revocation, when Redis took the write and answers the read; when the
    write did not take, which [toggleStatus] swallows, the guard
    authenticates the deactivated admin.  And login, which does not read the
    status either, still signs tokens for the deactivated admin. *)
Theorem deactivation_rests_on_revocation (w : World)
  (id current h tok pw : string) (a : Admin) (p : JwtPayload) :
  id <> current -> admin_by_id w id = Some a -> isSuper a = false ->
  ~ admin_barred a -> admin_status a <> "DEACTIVATED" ->
  let m :=
    AdminService.toggleStatus env isSuper id AdminService.deactivate current in
  let w1 := after m w in
  let key := "blacklist:admin:" +:+ id in
  outcome m w
    = Returned
        (SuccessResponse "Admin deactivated successfully"
           (status_view false (admin_with_status a "DEACTIVATED"))) /\
  admin_by_id w1 id = Some (admin_with_status a "DEACTIVATED") /\
  (bearer_header h tok ->
   jwt_verify env tok (JWT_SECRET env) = inr p -> sub p = Some id ->
   (forall seconds,
       blanket_lifetime env = Js.Int seconds ->
       redis_throws w (SETEX key seconds "1") = false ->
       redis_throws w (GET key) = false ->
       exists msg,
         outcome (AdminAuthGuard.authenticateAdmin env (Some h)) w1
           = Thrown (UnauthorizedException msg)) /\
   (blanket_write_fails env w id -> id <> "" ->
    store_has w ("blacklist:" +:+ tok) = false -> store_has w key = false ->
    outcome (AdminAuthGuard.authenticateAdmin env (Some h)) w1
      = Returned (admin_id a, admin_role a))) /\
  (admin_by_email w (admin_email a) = Some a ->
   bcrypt_compare env pw (admin_password a) = true ->
   outcome (AdminAuthService.login env (admin_email a) pw) w1
     = Returned
         (SuccessResponse "Login successful"
            {| ld_user := shown_admin a; ld_emailVerified := None;
               ld_tokens :=
                 Some (token_pair env (admin_id a) (admin_email a)
                         (admin_role a)) |})).
Proof.
  intros Hne Ha Hs Hnb Hst. cbv zeta.
  destruct (not_barred_flags a Hnb) as [Hd Hsus].
  destruct (deactivate_run w id current a Hne Ha Hs Hd Hst)
    as (Ho & Hadm & Hthr & Hred). cbv zeta in Ho, Hadm, Hthr, Hred.
  pose proof (admin_by_id_unique _ _ _ Ha) as Hid.
  set (w1 := after (AdminService.toggleStatus env isSuper id
                      AdminService.deactivate current) w) in *.
  assert (Hrow : admin_by_id w1 id = Some (admin_with_status a "DEACTIVATED")).
  { unfold admin_by_id. rewrite Hadm.
    exact (find_update_first_same _
             (fun x => admin_with_status x "DEACTIVATED") _ a Ha
             (proj2 (String.eqb_eq _ _) Hid)). }
  split; [exact Ho|]. split; [exact Hrow|]. split.
  - intros Hb Hv Hsub. split.
    + intros seconds Httl Hset Hget.
      apply (admin_guard_blanket env w1 h tok p id Hb Hv Hsub).
      apply store_has_true. split; [now rewrite Hthr|].
      rewrite Hred, Httl, Hset. rewrite lookup_insert_eq. eauto.
    + intros Hfail Hnid Htok Hkey.
      assert (Hsame : redis w1 = redis w).
      { rewrite Hred. unfold blanket_write_fails in Hfail.
        destruct (blanket_lifetime env); [now rewrite Hfail|reflexivity..]. }
      assert (Hstore : forall k, store_has w1 k = store_has w k)
        by (intros k; unfold store_has; now rewrite Hthr, Hsame).
      apply (admin_unflagged_accepted env w1 h tok p id
               (admin_with_status a "DEACTIVATED"));
        try assumption; now rewrite Hstore.
  - intros Hem Hpw.
    assert (Hrow' : admin_by_email w1 (admin_email a)
                    = Some (admin_with_status a "DEACTIVATED")).
    { unfold admin_by_email. rewrite Hadm.
      exact (find_update_first_other _ _
               (fun x => admin_with_status x "DEACTIVATED") _ a Ha Hem
               (String.eqb_refl _)). }
    unfold admin_by_email in Hrow'.
    unfold outcome, AdminAuthService.login, AdminAuthService.generateTokens,
      Prisma.admin_findUnique_email, jwtService_sign, bcrypt_compare_call,
      token_pair, shown_admin.
    unfold_monad. simpl. rewrite Hrow'. simpl. rewrite Hd, Hsus. simpl.
    rewrite Hpw. reflexivity.
Qed.

(** X29. What [toggleStatus] refuses, and reactivation.  Deactivating
    one's own account is refused before the row is looked up; a row flagged
    deleted counts as not found; a row that has the status asked for
    already is refused; and a refused call changes nothing.  Activating a
    row that is not ACTIVE answers the success message, writes the status
    ACTIVE and removes the blanket revocation of the id; when Redis throws
    on the removal, which is swallowed, the revocation stays in the
    store. *)
Theorem toggleStatus_refusals_and_reactivation (w : World)
  (id current : string) (action : AdminService.StatusAction) :
  let m := AdminService.toggleStatus env isSuper id action current in
  let reactivate :=
    AdminService.toggleStatus env isSuper id AdminService.activate current in
  let key := "blacklist:admin:" +:+ id in
  (action = AdminService.deactivate -> id = current ->
   outcome m w
     = Thrown (BadRequestException "You cannot deactivate your own account"))
  /\
  (forall a, admin_by_id w id = Some a -> admin_isDeleted a = true ->
     outcome reactivate w = Thrown (NotFoundException "Admin not found")) /\
  (forall a, admin_by_id w id = Some a -> admin_isDeleted a = false ->
     admin_status a = "ACTIVE" ->
     outcome reactivate w
       = Thrown (BadRequestException "Admin is already active")) /\
  (forall e, outcome m w = Thrown e -> after m w = w) /\
  (forall a, admin_by_id w id = Some a -> admin_isDeleted a = false ->
     admin_status a <> "ACTIVE" ->
     outcome reactivate w
       = Returned
           (SuccessResponse "Admin activated successfully"
              (status_view (isSuper a) (admin_with_status a "ACTIVE"))) /\
     admin_by_id (after reactivate w) id
       = Some (admin_with_status a "ACTIVE") /\
     (redis_throws w (DEL key) = false ->
      redis (after reactivate w) !! key = None) /\
     (redis_throws w (DEL key) = true ->
      redis (after reactivate w) = redis w)).
Proof.
  cbv zeta. unfold admin_by_id, outcome, after.
  repeat match goal with |- _ /\ _ => split end.
  - intros -> ->. toggle_unfold. unfold_monad'. simpl.
    now rewrite String.eqb_refl.
  - intros a Ha Hd. toggle_unfold. unfold_monad'. simpl.
    rewrite Ha. simpl. now rewrite Hd.
  - intros a Ha Hd Hst. toggle_unfold. unfold_monad'. simpl.
    rewrite Ha. simpl. rewrite Hd. simpl. now rewrite Hst.
  - intros e. toggle_unfold. unfold_monad'. simpl.
    destruct (AdminService.is_deactivate action && String.eqb id current);
      simpl; [reflexivity|].
    destruct (find _ (admins w)) as [a|] eqn:Ha; simpl; [|reflexivity].
    destruct (admin_isDeleted a); simpl; [reflexivity|].
    destruct (AdminService.is_deactivate action && isSuper a); simpl;
      [reflexivity|].
    destruct (String.eqb (admin_status a) _); simpl; [reflexivity|].
    destruct action; simpl.
    + destruct (redis_throws w _); simpl; rewrite Ha; simpl; discriminate.
    + destruct (TimeUtils.parseExpiryToSeconds _) as [seconds| |]; simpl;
        [destruct (redis_throws w _); simpl|..];
        rewrite Ha; simpl; discriminate.
  - intros a Ha Hd Hst. apply String.eqb_neq in Hst.
    pose proof (find_some _ _ Ha) as [_ Hid].
    assert (Hrow :
              forall l,
                l = Prisma.update_first
                      (fun x : Admin => String.eqb (admin_id x) id)
                      (fun x => admin_with_status x "ACTIVE") (admins w) ->
                find (fun x : Admin => String.eqb (admin_id x) id) l
                = Some (admin_with_status a "ACTIVE")).
    { intros l ->.
      exact (find_update_first_same _
               (fun x => admin_with_status x "ACTIVE") _ a Ha Hid). }
    toggle_unfold. unfold_monad'. simpl.
    rewrite Ha. simpl. rewrite Hd. simpl. rewrite Hst. simpl.
    destruct (redis_throws w (DEL _)) eqn:Hdel; simpl; rewrite Ha; simpl.
    + split; [reflexivity|]. split; [now apply Hrow|].
      split; [discriminate | reflexivity].
    + split; [reflexivity|]. split; [now apply Hrow|].
      split; [intros _; apply lookup_delete_eq | discriminate].
Qed.

End AdminStatus.

(** ** Referral codes *)

Section ReferralCodes.

Lemma get_in (s : string) (n : nat) :
  (n < String.length s)%nat ->
  exists c, String.get n s = Some c /\ In c (list_ascii_of_string s).
Proof.
  revert n. induction s as [|a s IH]; simpl; intros n Hn; [lia|].
  destruct n as [|n].
  - exists a. split; [reflexivity | now left].
  - destruct (IH n) as (c & Hc & Hin); [lia|].
    exists c. split; [exact Hc | now right].
Qed.

Lemma charAt_referral (i : Z) :
  0 <= i < 62 ->
  exists c, Js.charAt i Utils.referral_charset = String c EmptyString /\
            referral_char c.
Proof.
  intros Hi. unfold Js.charAt.
  destruct (Z.ltb_spec i 0) as [|_]; [lia|].
  destruct (get_in Utils.referral_charset (Z.to_nat i)) as (c & Hc & Hin).
  - change (String.length Utils.referral_charset) with 62%nat. lia.
  - exists c. rewrite Hc. split; [reflexivity | exact Hin].
Qed.

Lemma randomInt_run (lo hi : Z) (w : World) :
  lo < hi ->
  exists i, outcome (randomInt lo hi) w = Returned i /\ lo <= i < hi /\
            entropy (after (randomInt lo hi) w) = drop 1 (entropy w).
Proof.
  intros Hlt. unfold outcome, after, randomInt, set_entropy.
  unfold_monad. simpl.
  destruct (entropy w) as [|r l] eqn:He; simpl.
  - exists lo. rewrite He. repeat split; lia.
  - exists (lo + r `mod` (hi - lo)).
    pose proof (Z.mod_pos_bound r (hi - lo)). repeat split; lia.
Qed.

Lemma append_length (s t : string) :
  String.length (s +:+ t) = (String.length s + String.length t)%nat.
Proof. induction s as [|a s IH]; simpl; [reflexivity | now rewrite IH]. Qed.

Lemma list_ascii_append (s t : string) :
  list_ascii_of_string (s +:+ t)
  = list_ascii_of_string s ++ list_ascii_of_string t.
Proof. induction s as [|a s IH]; simpl; [reflexivity | now rewrite IH]. Qed.

Lemma referral_loop_run (n : nat) (code : string) (w : World) :
  Forall referral_char (list_ascii_of_string code) ->
  exists out,
    outcome (Utils.referral_loop n code) w = Returned out /\
    String.length out = (String.length code + n)%nat /\
    Forall referral_char (list_ascii_of_string out) /\
    entropy (after (Utils.referral_loop n code) w) = drop n (entropy w).
Proof.
  revert code w. induction n as [|n IH]; intros code w Hcode.
  - exists code. simpl. unfold outcome, after, ret. simpl.
    repeat split; [lia | exact Hcode].
  - destruct (randomInt_run 0 62 w) as (i & Hi & Hr & He); [lia|].
    destruct (charAt_referral i Hr) as (c & Hc & Hin).
    simpl Utils.referral_loop.
    change (Z.of_nat (String.length Utils.referral_charset)) with 62.
    unfold outcome, after in *. rewrite !bind_run.
    change (Z.of_nat 62) with 62.
    destruct (randomInt 0 62 w) as [[j|e] w'] eqn:Hrun; simpl in Hi;
      [|discriminate].
    injection Hi as ->. simpl in He. rewrite Hc.
    destruct (IH (code +:+ String c EmptyString) w') as (out & Ho & Hl & Hf & Hd).
    { rewrite list_ascii_append. apply Forall_app. split; [exact Hcode|].
      simpl. constructor; [exact Hin | constructor]. }
    exists out. split; [exact Ho|]. split.
    + rewrite Hl, append_length. simpl. lia.
    + split; [exact Hf|]. rewrite Hd, He. now rewrite drop_drop.
Qed.

(** X26. A referral code has exactly eight characters, each of the
    alphabet of letters and digits; generating one cannot fail and draws
    eight random numbers. *)
Theorem generateReferralCode_shape (w : World) :
  exists code,
    outcome Utils.generateReferralCode w = Returned code /\
    String.length code = 8%nat /\
    Forall referral_char (list_ascii_of_string code) /\
    entropy (after Utils.generateReferralCode w) = drop 8 (entropy w).
Proof.
  destruct (referral_loop_run 8 EmptyString w) as (out & Ho & Hl & Hf & Hd).
  - constructor.
  - exists out. repeat split; assumption.
Qed.

End ReferralCodes.

(** ** Asking for a new verification code *)

Section ResendVerification.

Variable env : Env.

(** X27. [resendVerification] does for an unverified account exactly what a
    login attempt of that account does to the world: the same code record
    and the same mail, whatever the password of the attempt; for a verified
    account it is refused with "Email already verified" and for an unknown
    email with a 404, and nothing changes. *)
Theorem resend_matches_unverified_login (w : World) (email password : string) :
  let m := UserAuthService.resendVerification email in
  (forall u, user_by_email w email = Some u -> user_emailVerified u = false ->
     outcome m w
       = Returned
           (SuccessResponse "Verification code sent to your email"
              "Check your email for the verification code") /\
     after m w = after (UserAuthService.login env email password) w) /\
  (forall u, user_by_email w email = Some u -> user_emailVerified u = true ->
     outcome m w = Thrown (BadRequestException "Email already verified") /\
     after m w = w) /\
  (user_by_email w email = None ->
   outcome m w
     = Thrown (NotFoundException "Please check your email and try again") /\
   after m w = w).
Proof.
  cbv zeta. unfold user_by_email, outcome, after.
  unfold UserAuthService.resendVerification, UserAuthService.login,
    UserAuthService.sendEmailVerificationCode,
    Prisma.user_findUnique_email, Prisma.emailVerification_upsert,
    EmailService.sendEmailVerification, EmailService.sendEmail,
    EmailService.shouldSkipEmail, EmailQueue.addEmailToQueue,
    EmailQueue.queue_add, randomInt, Date_now.
  repeat match goal with |- _ /\ _ => split end.
  - intros u Hu Hv. unfold_monad. simpl. rewrite Hu. simpl. rewrite Hv.
    simpl.
    repeat (step_goal; simpl; repeat (progress (rewrite ?Hu; simpl)));
      split; reflexivity.
  - intros u Hu Hv. unfold_monad. simpl. rewrite Hu. simpl. rewrite Hv.
    split; reflexivity.
  - intros Hu. unfold_monad. simpl. rewrite Hu. split; reflexivity.
Qed.

End ResendVerification.

(** * The further properties on the sample worlds *)

Section FurtherWitnesses.

Import Sample.

Ltac bearer' :=
  exists "Bearer", []; split; [reflexivity | split; [reflexivity | discriminate]].

Ltac not_barred :=
  let H := fresh in
  intros [H|[H|H]]; [discriminate H | discriminate H | apply H; reflexivity].

Lemma blanket_revocation_is_read_back_witness :
  outcome (TokenBlacklistService.isUserBlacklisted "u1")
    (after (TokenBlacklistService.blacklistUserTokens "u1" 604800) quiet)
    = Returned true /\
  outcome (TokenBlacklistService.isAdminBlacklisted "a1")
    (after (TokenBlacklistService.blacklistAdminTokens "a1" 604800) quiet)
    = Returned true.
Proof.
  destruct (blanket_revocation_is_read_back quiet "u1" 604800) as [Hu _].
  destruct (blanket_revocation_is_read_back quiet "a1" 604800) as [_ Ha].
  split; [apply Hu | apply Ha]; reflexivity.
Defined.

Lemma blanket_revocation_removed_witness :
  (store_has revoked_identities "blacklist:user:u1" = true /\
   store_has revoked_identities "blacklist:admin:a1" = true) /\
  outcome (TokenBlacklistService.isUserBlacklisted "u1")
    (after (TokenBlacklistService.removeUserFromBlacklist "u1")
       revoked_identities)
    = Returned false /\
  outcome (TokenBlacklistService.isAdminBlacklisted "a1")
    (after (TokenBlacklistService.removeAdminFromBlacklist "a1")
       revoked_identities)
    = Returned false.
Proof.
  destruct (blanket_revocation_removed revoked_identities "u1") as [Hu _].
  destruct (blanket_revocation_removed revoked_identities "a1") as [_ Ha].
  split; [split; vm_compute; reflexivity|].
  split; [apply Hu | apply Ha]; reflexivity.
Defined.

Lemma revocation_namespaces_independent_witness :
  "u1" <> "u2" /\
  outcome (TokenBlacklistService.isUserBlacklisted "u2")
    (after (TokenBlacklistService.blacklistUserTokens "u1" 604800) quiet)
    = outcome (TokenBlacklistService.isUserBlacklisted "u2") quiet /\
  outcome (TokenBlacklistService.isAdminBlacklisted "u1")
    (after (TokenBlacklistService.blacklistUserTokens "u1" 604800) quiet)
    = outcome (TokenBlacklistService.isAdminBlacklisted "u1") quiet.
Proof.
  assert (Hne : "u1" <> "u2") by discriminate.
  destruct (revocation_namespaces_independent quiet "u1" "u2" 604800)
    as [_ Hsame].
  destruct (revocation_namespaces_independent quiet "u1" "u1" 604800)
    as [Hcross _].
  split; [exact Hne|]. split; [apply (Hsame Hne) | apply Hcross].
Defined.

Lemma token_key_aliases_blanket_key_witness :
  outcome (TokenBlacklistService.isUserBlacklisted "u1")
    (after (TokenBlacklistService.blacklistToken "user:u1" 60) quiet)
    = Returned true /\
  outcome (TokenBlacklistService.isAdminBlacklisted "a1")
    (after (TokenBlacklistService.blacklistToken "admin:a1" 60) quiet)
    = Returned true.
Proof.
  destruct (token_key_aliases_blanket_key quiet "u1" 60) as [Hu _].
  destruct (token_key_aliases_blanket_key quiet "a1" 60) as [_ Ha].
  split; [apply Hu | apply Ha]; reflexivity.
Defined.

Lemma blacklist_writes_propagate_failure_witness :
  outcome (TokenBlacklistService.blacklistUserTokens "u1" 604800)
    Scenario.redis_down
    = Thrown RedisClient.connection_error /\
  outcome (TokenBlacklistService.removeAdminFromBlacklist "a1")
    Scenario.redis_down
    = Thrown RedisClient.connection_error.
Proof.
  destruct (blacklist_writes_propagate_failure Scenario.redis_down "u1" 604800)
    as (_ & Hu & _).
  destruct (blacklist_writes_propagate_failure Scenario.redis_down "a1" 0)
    as (_ & _ & _ & _ & Ha).
  split; [apply Hu | apply Ha]; reflexivity.
Defined.

Lemma authorization_by_role_witness :
  outcome (AuthGuard.authorizeUser (Some ("u1", "USER")) (Some ["USER"]))
    quiet = Returned true /\
  outcome (AuthGuard.authorizeUser (Some ("u1", "USER")) (Some ["ADMIN"]))
    quiet = Thrown (UnauthorizedException "Insufficient permissions.") /\
  outcome (AdminAuthGuard.authorizeAdmin (Some ("a1", "ADMIN"))
             (Some ["ADMIN"])) quiet = Returned true /\
  outcome (AdminAuthGuard.authorizeAdmin (Some ("a1", "ADMIN"))
             (Some ["SUPER"])) quiet
    = Thrown (UnauthorizedException "Insufficient permissions").
Proof.
  destruct (authorization_by_role quiet "u1" "USER" (Some ["USER"]))
    as (Hu & _).
  destruct (authorization_by_role quiet "u1" "USER" (Some ["ADMIN"]))
    as (_ & Hu' & _).
  destruct (authorization_by_role quiet "a1" "ADMIN" (Some ["ADMIN"]))
    as (_ & _ & Ha & _).
  destruct (authorization_by_role quiet "a1" "ADMIN" (Some ["SUPER"]))
    as (_ & _ & _ & Ha').
  assert (H1 : role_allowed (Some ["USER"]) "USER") by (left; reflexivity).
  assert (H2 : ~ role_allowed (Some ["ADMIN"]) "USER")
    by (intros [H|[]]; discriminate H).
  assert (H3 : admin_role_allowed (Some ["ADMIN"]) "ADMIN")
    by (split; [discriminate | left; reflexivity]).
  assert (H4 : ~ admin_role_allowed (Some ["SUPER"]) "ADMIN")
    by (intros [_ [H|[]]]; discriminate H).
  split; [exact (Hu H1)|]. split; [exact (Hu' H2)|].
  split; [exact (Ha H3) | exact (Ha' H4)].
Defined.

Lemma canActivate_sound_witness :
  (exists u, In u (users quiet) /\ ~ user_barred u /\
             role_allowed (Some ["USER"]) (user_role u) /\
             presents_user env quiet (Some "Bearer access.u1") u) /\
  http_status (UnauthorizedException "Insufficient permissions.") = 401 /\
  (exists a, In a (admins quiet) /\ ~ admin_barred a /\
             admin_role_allowed (Some ["ADMIN"]) (admin_role a) /\
             presents_admin env quiet (Some "Bearer access.a1") a).
Proof.
  destruct (canActivate_sound env quiet (Some "Bearer access.u1")
              (Some ["USER"])) as (Hu & _ & _).
  destruct (canActivate_sound env quiet (Some "Bearer access.u1")
              (Some ["ADMIN"])) as (_ & He & _).
  destruct (canActivate_sound env quiet (Some "Bearer access.a1")
              (Some ["ADMIN"])) as (_ & _ & Ha).
  assert (Hru : outcome
                  (AuthGuard.canActivate env (Some "Bearer access.u1")
                     (Some ["USER"])) quiet = Returned true)
    by (vm_compute; reflexivity).
  assert (Hra : outcome
                  (AdminAuthGuard.canActivate env (Some "Bearer access.a1")
                     (Some ["ADMIN"])) quiet = Returned true)
    by (vm_compute; reflexivity).
  split; [exact (proj2 (Hu true Hru))|].
  split; [apply He; vm_compute; reflexivity|].
  exact (proj2 (Ha true Hra)).
Defined.

Lemma basic_header_refused_witness :
  basic_header "Basic YWxpY2U=" (Some "YWxpY2U=") /\
  BASIC_AUTH_ENABLED env <> "true" /\
  AuthGuard.authenticateUser env (Some "Basic YWxpY2U=") quiet
  = (Thrown (UnauthorizedException "Invalid authorization type."), quiet) /\
  AdminAuthGuard.authenticateAdmin env (Some "Basic YWxpY2U=") quiet
  = (Thrown (UnauthorizedException "Invalid authorization type"), quiet).
Proof.
  assert (Hb : basic_header "Basic YWxpY2U=" (Some "YWxpY2U="))
    by (exists "Basic", ["YWxpY2U="]; repeat split).
  assert (Hoff : BASIC_AUTH_ENABLED env <> "true") by discriminate.
  destruct (basic_header_refused env quiet _ _ Hb) as [Hu Ha].
  split; [exact Hb|]. split; [exact Hoff|].
  split; [exact (Hu Hoff) | exact Ha].
Defined.

Lemma basic_auth_bypasses_revocation_witness :
  BASIC_AUTH_ENABLED Scenario.basic_env = "true" /\
  store_has revoked_identities "blacklist:user:u1" = true /\
  outcome (AuthGuard.authenticateUser Scenario.basic_env
             (Some "Basic alice@example.com:wonderland")) revoked_identities
    = Returned ("u1", "USER") /\
  no_redis_call
    (calls (AuthGuard.authenticateUser Scenario.basic_env
              (Some "Basic alice@example.com:wonderland"))
       revoked_identities).
Proof.
  assert (Hon : BASIC_AUTH_ENABLED Scenario.basic_env = "true")
    by reflexivity.
  assert (Hb : basic_header "Basic alice@example.com:wonderland"
                 (Some "alice@example.com:wonderland"))
    by (exists "Basic", ["alice@example.com:wonderland"]; repeat split).
  destruct (basic_auth_bypasses_revocation Scenario.basic_env
              revoked_identities _ _ Hon Hb) as (_ & Hno & _ & Hin).
  split; [exact Hon|]. split; [vm_compute; reflexivity|].
  split; [|exact Hno].
  apply (Hin "alice@example.com:wonderland" "alice@example.com" "wonderland"
           alice).
  - reflexivity.
  - exists []. split; [reflexivity | split; discriminate].
  - reflexivity.
  - not_barred.
  - reflexivity.
Defined.

Lemma blanket_revocation_blocks_guard_witness :
  bearer_header "Bearer access.u1" "access.u1" /\
  (exists msg,
      outcome (AuthGuard.authenticateUser env (Some "Bearer access.u1"))
        (after (TokenBlacklistService.blacklistUserTokens "u1" 604800) quiet)
        = Thrown (UnauthorizedException msg)) /\
  (exists msg,
      outcome (AdminAuthGuard.authenticateAdmin env (Some "Bearer access.a1"))
        (after (TokenBlacklistService.blacklistAdminTokens "a1" 604800) quiet)
        = Thrown (UnauthorizedException msg)).
Proof.
  assert (Hb : bearer_header "Bearer access.u1" "access.u1") by bearer'.
  assert (Hb' : bearer_header "Bearer access.a1" "access.a1") by bearer'.
  destruct (blanket_revocation_blocks_guard env quiet _ _ "u1"
              (claims "u1" 1700003600) 604800 Hb eq_refl eq_refl) as [Hu _].
  destruct (blanket_revocation_blocks_guard env quiet _ _ "a1"
              (claims "a1" 1700003600) 604800 Hb' eq_refl eq_refl) as [_ Ha].
  split; [exact Hb|]. split; [apply Hu | apply Ha]; reflexivity.
Defined.

Lemma logged_out_tokens_rejected_witness :
  bearer_header "Bearer access.u1" "access.u1" /\
  outcome (AuthGuard.authenticateUser env (Some "Bearer access.u1"))
    (after (UserAuthController.logout env "refresh.u1"
              (Some "Bearer access.u1")) quiet)
    = Thrown (UnauthorizedException "Token has been revoked.") /\
  outcome (UserAuthService.refreshToken env "refresh.u1")
    (after (UserAuthController.logout env "refresh.u1"
              (Some "Bearer access.u1")) quiet)
    = Thrown (UnauthorizedException "Invalid refresh token").
Proof.
  assert (Hb : bearer_header "Bearer access.u1" "access.u1") by bearer'.
  assert (Hda : decodes env "access.u1")
    by (exists (claims "u1" 1700003600); reflexivity).
  assert (Hdr : decodes env "refresh.u1")
    by (exists (claims "u1" 1700600000); reflexivity).
  destruct (logged_out_tokens_rejected env quiet _ _ "refresh.u1" Hb Hda Hdr)
    as [Ha Hr]; [reflexivity|].
  assert (Hpa : positive (decoded_ttl env quiet "access.u1") = true)
    by reflexivity.
  assert (Hpr : positive (decoded_ttl env quiet "refresh.u1") = true)
    by reflexivity.
  split; [exact Hb|].
  split; [exact (proj1 (Ha Hpa)) | exact (proj1 (Hr Hpr))].
Defined.

Lemma login_rejections_witness :
  outcome (UserAuthService.login env "nobody@example.com" "wonderland") quiet
    = Thrown (UnauthorizedException "Invalid email or password") /\
  outcome (UserAuthService.login env "alice@example.com" "looking-glass")
    quiet
    = Thrown (UnauthorizedException "Invalid email or password") /\
  outcome (AdminAuthService.login env "root@example.com" "root") quiet
    = Thrown (UnauthorizedException "Invalid email or password") /\
  outcome (AdminAuthService.login env "mallory@example.com" "malice") quiet
    = Thrown (UnauthorizedException "Admin account is inactive").
Proof.
  destruct (login_rejections env quiet "nobody@example.com" "wonderland")
    as (Hnone & _).
  destruct (login_rejections env quiet "alice@example.com" "looking-glass")
    as (_ & Hbad & _).
  destruct (login_rejections env quiet "root@example.com" "root")
    as (_ & _ & _ & Habad & _).
  destruct (login_rejections env quiet "mallory@example.com" "malice")
    as (_ & _ & _ & _ & Hbar).
  split; [apply Hnone; reflexivity|].
  split.
  { apply (Hbad alice "hash:wonderland");
      [reflexivity | reflexivity | not_barred | reflexivity | discriminate
      | reflexivity]. }
  split.
  { apply (Habad root); [reflexivity | | reflexivity].
    intros [H|H]; discriminate H. }
  apply (Hbar mallory); [reflexivity | right; reflexivity].
Defined.

Lemma verification_round_trip_witness :
  user_emailVerified carol = false /\
  (let w1 := after (UserAuthService.login env "carol@example.com" "x") quiet in
   let m := UserAuthService.verifyEmail env "carol@example.com" "223456" in
   user_by_email (after m w1) "carol@example.com" = Some (verified carol) /\
   outcome m (after m w1)
     = Thrown (BadRequestException "Please request a new verification code")).
Proof.
  assert (Hv : user_emailVerified carol = false) by reflexivity.
  destruct (verification_round_trip env quiet "carol@example.com" "x" carol
              eq_refl eq_refl Hv) as (_ & Hu & _ & Hagain).
  split; [exact Hv|]. split; [exact Hu | exact Hagain].
Defined.

Lemma failed_verification_changes_nothing_witness :
  (let m := UserAuthService.verifyEmail env "carol@example.com" "223456" in
   outcome m quiet
     = Thrown (BadRequestException "Please request a new verification code")
   /\ after m quiet = quiet) /\
  (let w1 := after (UserAuthService.login env "carol@example.com" "x") quiet in
   let m := UserAuthService.verifyEmail env "carol@example.com" "000000" in
   outcome m w1 = Thrown (BadRequestException "Invalid verification code") /\
   after m w1 = w1).
Proof.
  destruct (failed_verification_changes_nothing env quiet "carol@example.com"
              "223456" carol eq_refl) as [Hnone _].
  destruct (failed_verification_changes_nothing env
              (after (UserAuthService.login env "carol@example.com" "x") quiet)
              "carol@example.com" "000000" carol eq_refl) as [_ Hsome].
  split; [exact (Hnone eq_refl)|].
  destruct (Hsome {| ev_code := "223456"; ev_expiresAt := 1700000300000;
                     ev_attempts := 0 |} eq_refl) as [_ Hbad].
  apply Hbad; [vm_compute; discriminate | discriminate].
Defined.

Lemma password_reset_round_trip_witness :
  live_reset (resetting 0) "alice@example.com" "USER" (reset_with 0) /\
  verifies_as_reset Scenario.reset_env
    (reset_token Scenario.reset_env "alice@example.com")
    "alice@example.com" /\
  (let verify :=
     UserAuthService.verifyResetCode Scenario.reset_env "alice@example.com"
       "123456" in
   let reset pw :=
     UserAuthService.resetPassword Scenario.reset_env
       "reset.alice@example.com" pw in
   let w2 := after (reset "rabbit") (after verify (resetting 0)) in
   user_by_email w2 "alice@example.com"
     = Some (user_with_password alice "hash:rabbit") /\
   outcome (reset "hatter") w2
     = Thrown (BadRequestException "Please request a password reset first")).
Proof.
  assert (Hlive : live_reset (resetting 0) "alice@example.com" "USER"
                    (reset_with 0))
    by (split; [reflexivity | vm_compute; discriminate]).
  assert (Hcap : pr_attempts (reset_with 0) < 3) by reflexivity.
  assert (Htok : verifies_as_reset Scenario.reset_env
                   (reset_token Scenario.reset_env "alice@example.com")
                   "alice@example.com")
    by (exists (reset_claims "alice@example.com"); repeat split).
  destruct (password_reset_round_trip Scenario.reset_env (resetting 0)
              "alice@example.com" "rabbit" "hatter" alice (reset_with 0)
              eq_refl eq_refl Hlive Hcap Htok) as (_ & _ & Hu & _ & Hagain).
  split; [exact Hlive|]. split; [exact Htok|].
  split; [exact Hu | exact Hagain].
Defined.

Lemma new_request_withdraws_verification_witness :
  jwt_verify Scenario.reset_env "reset.alice@example.com"
    (JWT_SECRET Scenario.reset_env)
    = inr (reset_claims "alice@example.com") /\
  (let verify :=
     UserAuthService.verifyResetCode Scenario.reset_env "alice@example.com"
       "123456" in
   let w1 := after verify (resetting 0) in
   outcome (UserAuthService.resetPassword Scenario.reset_env
              "reset.alice@example.com" "rabbit")
     (after (UserAuthService.forgotPassword "alice@example.com") w1)
     = Thrown (BadRequestException "Please verify your reset code first")).
Proof.
  assert (Hv : jwt_verify Scenario.reset_env "reset.alice@example.com"
                 (JWT_SECRET Scenario.reset_env)
               = inr (reset_claims "alice@example.com")) by reflexivity.
  split; [exact Hv|].
  exact (new_request_withdraws_verification Scenario.reset_env
           (after (UserAuthService.verifyResetCode Scenario.reset_env
                     "alice@example.com" "123456") (resetting 0))
           "reset.alice@example.com" "rabbit"
           (reset_claims "alice@example.com") alice Hv eq_refl eq_refl).
Defined.

Lemma admin_reset_checks_code_only_witness :
  live_reset (resetting 5) "root@example.com" "ADMIN" (reset_with 5) /\
  (let m :=
     AdminAuthService.resetPassword env "root@example.com" "000000" "x" in
   outcome m (resetting 5) = Thrown invalid_reset_code /\
   after m (resetting 5) = resetting 5) /\
  (let m :=
     AdminAuthService.resetPassword env "root@example.com" "123456" "x" in
   outcome m (resetting 5)
     = Returned (SuccessResponse "Password reset successfully" null) /\
   admin_by_email (after m (resetting 5)) "root@example.com"
     = Some (admin_with_password root "hash:x") /\
   passwordResets (after m (resetting 5)) !! ("root@example.com", "ADMIN")
     = None).
Proof.
  assert (Hlive : live_reset (resetting 5) "root@example.com" "ADMIN"
                    (reset_with 5))
    by (split; [reflexivity | vm_compute; discriminate]).
  destruct (admin_reset_checks_code_only env (resetting 5) "root@example.com"
              "000000" "x" (reset_with 5) Hlive) as [Hbad _].
  destruct (admin_reset_checks_code_only env (resetting 5) "root@example.com"
              "123456" "x" (reset_with 5) Hlive) as [_ Hok].
  split; [exact Hlive|]. split.
  - apply Hbad. discriminate.
  - exact (Hok eq_refl root eq_refl eq_refl).
Defined.

Lemma expired_reset_record_witness :
  pr_expiresAt Scenario.expired_reset < nowMs Scenario.stale /\
  (let m :=
     AdminAuthService.resetPassword env "root@example.com" "123456" "x" in
   outcome m Scenario.stale
     = Thrown (BadRequestException "Reset code expired") /\
   outcome (AdminAuthService.verifyCode "root@example.com" "123456")
     (after m Scenario.stale)
     = Thrown (BadRequestException "No reset request found for this email")) /\
  (let v :=
     UserAuthService.verifyResetCode env "alice@example.com" "123456" in
   outcome v Scenario.stale
     = Thrown (BadRequestException "Password reset code expired") /\
   passwordResets (after v Scenario.stale) = passwordResets Scenario.stale).
Proof.
  assert (Hexp : pr_expiresAt Scenario.expired_reset < nowMs Scenario.stale)
    by reflexivity.
  destruct (expired_reset_record env Scenario.stale "root@example.com"
              "123456" "x" Scenario.expired_reset "ADMIN" eq_refl Hexp)
    as [Ha _].
  destruct (expired_reset_record env Scenario.stale "alice@example.com"
              "123456" "x" Scenario.expired_reset "USER" eq_refl Hexp)
    as [_ Hu].
  destruct (Ha eq_refl) as (_ & _ & Hout & _ & Hnext).
  split; [exact Hexp|]. split; [split; [exact Hout | exact Hnext]|].
  exact (Hu eq_refl alice eq_refl).
Defined.

Lemma tokens_bound_to_use_witness :
  bearer_header "Bearer reset.alice@example.com" "reset.alice@example.com" /\
  outcome (UserAuthService.resetPassword Scenario.reset_env "access.u1" "x")
    quiet
    = Thrown (UnauthorizedException "Invalid reset token") /\
  outcome (AuthGuard.authenticateUser Scenario.reset_env
             (Some "Bearer reset.alice@example.com")) quiet
    = Thrown (UnauthorizedException "Authentication failed.") /\
  outcome (AdminAuthGuard.authenticateAdmin Scenario.reset_env
             (Some "Bearer reset.alice@example.com")) quiet
    = Thrown (UnauthorizedException "Invalid token").
Proof.
  assert (Hb : bearer_header "Bearer reset.alice@example.com"
                 "reset.alice@example.com") by bearer'.
  destruct (tokens_bound_to_use Scenario.reset_env quiet
              "Bearer access.u1" "access.u1" "x" (claims "u1" 1700003600)
              eq_refl) as [Hp _].
  destruct (tokens_bound_to_use Scenario.reset_env quiet
              "Bearer reset.alice@example.com" "reset.alice@example.com" "x"
              (reset_claims "alice@example.com") eq_refl) as [_ Hs].
  split; [exact Hb|].
  split; [apply Hp; discriminate|].
  apply Hs; [reflexivity | exact Hb | reflexivity].
Defined.

Lemma unmailed_reset_code_unreported_witness :
  undeliverable Scenario.queue_down "alice@example.com" = true /\
  undeliverable quiet "dave@example.com" = true /\
  (let m := UserAuthService.forgotPassword "alice@example.com" in
   outcome m Scenario.queue_down
     = Returned
         (SuccessResponse "Password reset code sent to your email" null) /\
   emailQueue (after m Scenario.queue_down) = [] /\
   passwordResets (after m Scenario.queue_down)
     !! ("alice@example.com", "USER")
     = Some {| pr_code := "223456"; pr_expiresAt := 1700000300000;
               pr_attempts := 0; pr_verifiedAt := None |}) /\
  (let m := UserAuthService.forgotPassword "dave@example.com" in
   outcome m quiet
     = Returned
         (SuccessResponse "Password reset code sent to your email" null) /\
   emailQueue (after m quiet) = []) /\
  (let m := AdminAuthService.forgotPassword env "root@example.com" None in
   outcome m Scenario.queue_down
     = Returned (SuccessResponse "Password reset code sent to email" null) /\
   emailQueue (after m Scenario.queue_down) = [] /\
   passwordResets (after m Scenario.queue_down)
     !! ("root@example.com", "ADMIN")
     = Some {| pr_code := "3456"; pr_expiresAt := 1700000300000;
               pr_attempts := 0; pr_verifiedAt := None |}).
Proof.
  assert (H1 : undeliverable Scenario.queue_down "alice@example.com" = true)
    by reflexivity.
  assert (H2 : undeliverable quiet "dave@example.com" = true) by reflexivity.
  assert (H3 : undeliverable Scenario.queue_down "root@example.com" = true)
    by reflexivity.
  destruct (unmailed_reset_code_unreported env Scenario.queue_down
              "alice@example.com" None H1) as [Hu _].
  destruct (unmailed_reset_code_unreported env quiet
              "dave@example.com" None H2) as [Hd _].
  destruct (unmailed_reset_code_unreported env Scenario.queue_down
              "root@example.com" None H3) as [_ Ha].
  destruct (Hu alice eq_refl) as (Hu1 & Hu2 & Hu3).
  destruct (Hd dave eq_refl) as (Hd1 & Hd2 & _).
  destruct (Ha root eq_refl) as (Ha1 & Ha2 & Ha3).
  split; [exact H1|]. split; [exact H2|].
  split; [split; [exact Hu1 | split; [exact Hu2 | exact Hu3]]|].
  split; [split; [exact Hd1 | exact Hd2]|].
  split; [exact Ha1 | split; [exact Ha2 | exact Ha3]].
Defined.

Lemma admin_delete_refusals_witness :
  outcome (AdminService.delete env Scenario.is_super "a3" "a3")
    (Scenario.staffed false)
    = Thrown (BadRequestException "You cannot delete your own account") /\
  outcome (AdminService.delete env Scenario.is_super "a9" "a3")
    (Scenario.staffed false)
    = Thrown (NotFoundException "Admin not found") /\
  outcome (AdminService.delete env Scenario.is_super "a1" "a3")
    (Scenario.staffed false)
    = Thrown (BadRequestException
                "Cannot delete super admin account. Please demote to regular admin first.") /\
  outcome (AdminService.delete env Scenario.is_super "a4" "a3")
    (Scenario.staffed false)
    = Thrown (BadRequestException "Admin is already deleted") /\
  after (AdminService.delete env Scenario.is_super "a4" "a3")
    (Scenario.staffed false) = Scenario.staffed false.
Proof.
  destruct (admin_delete_refusals env Scenario.is_super
              (Scenario.staffed false) "a3" "a3") as (Hself & _).
  destruct (admin_delete_refusals env Scenario.is_super
              (Scenario.staffed false) "a9" "a3") as (_ & Hnone & _).
  destruct (admin_delete_refusals env Scenario.is_super
              (Scenario.staffed false) "a1" "a3") as (_ & _ & Hsuper & _).
  destruct (admin_delete_refusals env Scenario.is_super
              (Scenario.staffed false) "a4" "a3") as (_ & _ & _ & Hdel & Hfr).
  assert (Hout :
            outcome (AdminService.delete env Scenario.is_super "a4" "a3")
              (Scenario.staffed false)
            = Thrown (BadRequestException "Admin is already deleted")).
  { apply (Hdel Scenario.oscar); [discriminate | reflexivity..]. }
  split; [exact (Hself eq_refl)|].
  split; [apply Hnone; [discriminate | reflexivity]|].
  split; [apply (Hsuper root); [discriminate | reflexivity..]|].
  split; [exact Hout | exact (Hfr _ Hout)].
Defined.

Lemma deleted_admin_locked_out_witness :
  bearer_header "Bearer access.a3" "access.a3" /\
  (let m := AdminService.delete env Scenario.is_super "a3" "a1" in
   let w1 := after m (Scenario.staffed true) in
   outcome m (Scenario.staffed true)
     = Returned (SuccessResponse "Admin deleted successfully" null) /\
   admin_by_id w1 "a3" = Some (deleted_admin Scenario.trent) /\
   (exists msg,
       outcome (AdminAuthGuard.authenticateAdmin env
                  (Some "Bearer access.a3")) w1
         = Thrown (UnauthorizedException msg)) /\
   outcome (AdminAuthService.login env "trent@example.com" "trust") w1
     = Thrown (UnauthorizedException "Admin account is inactive")) /\
  redis (after (AdminService.delete env Scenario.is_super "a3" "a1")
           (Scenario.staffed false)) !! "blacklist:admin:a3"
    = Some (604800, "1").
Proof.
  assert (Hb : bearer_header "Bearer access.a3" "access.a3") by bearer'.
  assert (Hne : "a3" <> "a1") by discriminate.
  destruct (deleted_admin_locked_out env Scenario.is_super
              (Scenario.staffed true) "a3" "a1" "Bearer access.a3"
              "access.a3" "trust" Scenario.trent (claims "a3" 1700003600)
              Hne eq_refl eq_refl eq_refl) as (Ho & Hrow & _ & Hg & Hl).
  destruct (deleted_admin_locked_out env Scenario.is_super
              (Scenario.staffed false) "a3" "a1" "Bearer access.a3"
              "access.a3" "trust" Scenario.trent (claims "a3" 1700003600)
              Hne eq_refl eq_refl eq_refl) as (_ & _ & Hw & _).
  split; [exact Hb|]. split.
  - split; [exact Ho|]. split; [exact Hrow|].
    split; [exact (Hg Hb eq_refl eq_refl) | exact (Hl eq_refl)].
  - exact (Hw eq_refl).
Defined.

Lemma resend_matches_unverified_login_witness :
  (let m := UserAuthService.resendVerification "carol@example.com" in
   after m quiet
     = after (UserAuthService.login env "carol@example.com" "x") quiet) /\
  (let m := UserAuthService.resendVerification "alice@example.com" in
   outcome m quiet = Thrown (BadRequestException "Email already verified")) /\
  (let m := UserAuthService.resendVerification "nobody@example.com" in
   outcome m quiet
     = Thrown (NotFoundException "Please check your email and try again")).
Proof.
  destruct (resend_matches_unverified_login env quiet "carol@example.com" "x")
    as (Hc & _).
  destruct (resend_matches_unverified_login env quiet "alice@example.com" "x")
    as (_ & Ha & _).
  destruct (resend_matches_unverified_login env quiet "nobody@example.com" "x")
    as (_ & _ & Hn).
  split; [exact (proj2 (Hc carol eq_refl eq_refl))|].
  split; [exact (proj1 (Ha alice eq_refl eq_refl))|].
  exact (proj1 (Hn eq_refl)).
Defined.

Lemma deactivation_rests_on_revocation_witness :
  bearer_header "Bearer access.a3" "access.a3" /\
  (let m :=
     AdminService.toggleStatus env Scenario.is_super "a3"
       AdminService.deactivate "a1" in
   let w1 := after m (Scenario.staffed false) in
   outcome m (Scenario.staffed false)
     = Returned
         (SuccessResponse "Admin deactivated successfully"
            (status_view false
               (admin_with_status Scenario.trent "DEACTIVATED"))) /\
   admin_by_id w1 "a3"
     = Some (admin_with_status Scenario.trent "DEACTIVATED") /\
   (exists msg,
       outcome (AdminAuthGuard.authenticateAdmin env
                  (Some "Bearer access.a3")) w1
         = Thrown (UnauthorizedException msg)) /\
   outcome (AdminAuthService.login env "trent@example.com" "trust") w1
     = Returned
         (SuccessResponse "Login successful"
            {| ld_user := shown_admin Scenario.trent;
               ld_emailVerified := None;
               ld_tokens :=
                 Some (token_pair env "a3" "trent@example.com" "ADMIN") |}))
  /\
  outcome (AdminAuthGuard.authenticateAdmin env (Some "Bearer access.a3"))
    (after (AdminService.toggleStatus env Scenario.is_super "a3"
              AdminService.deactivate "a1") (Scenario.staffed true))
    = Returned ("a3", "ADMIN").
Proof.
  assert (Hb : bearer_header "Bearer access.a3" "access.a3") by bearer'.
  assert (Hne : "a3" <> "a1") by discriminate.
  assert (Hnb : ~ admin_barred Scenario.trent)
    by (intros [H|H]; discriminate H).
  assert (Hst : admin_status Scenario.trent <> "DEACTIVATED")
    by discriminate.
  pose proof (deactivation_rests_on_revocation env Scenario.is_super
              (Scenario.staffed false) "a3" "a1" "Bearer access.a3"
              "access.a3" "trust" Scenario.trent (claims "a3" 1700003600)
              Hne eq_refl eq_refl Hnb Hst) as Hthm; cbv zeta in Hthm.
  destruct Hthm as (Ho & Hrow & Hg & Hl).
  pose proof (deactivation_rests_on_revocation env Scenario.is_super
              (Scenario.staffed true) "a3" "a1" "Bearer access.a3"
              "access.a3" "trust" Scenario.trent (claims "a3" 1700003600)
              Hne eq_refl eq_refl Hnb Hst) as Hthm; cbv zeta in Hthm.
  destruct Hthm as (_ & _ & Hg' & _).
  split; [exact Hb|]. split.
  - split; [exact Ho|]. split; [exact Hrow|].
    split; [|exact (Hl eq_refl eq_refl)].
    exact (proj1 (Hg Hb eq_refl eq_refl) 604800 eq_refl eq_refl eq_refl).
  - apply (proj2 (Hg' Hb eq_refl eq_refl)).
    + reflexivity.
    + discriminate.
    + reflexivity.
    + reflexivity.
Defined.

Lemma toggleStatus_refusals_and_reactivation_witness :
  outcome (AdminService.toggleStatus env Scenario.is_super "a3"
             AdminService.deactivate "a3") (Scenario.staffed false)
    = Thrown (BadRequestException "You cannot deactivate your own account")
  /\
  outcome (AdminService.toggleStatus env Scenario.is_super "a4"
             AdminService.activate "a1") (Scenario.staffed false)
    = Thrown (NotFoundException "Admin not found") /\
  outcome (AdminService.toggleStatus env Scenario.is_super "a3"
             AdminService.activate "a1") (Scenario.staffed false)
    = Thrown (BadRequestException "Admin is already active") /\
  (let m :=
     AdminService.toggleStatus env Scenario.is_super "a5"
       AdminService.activate "a1" in
   outcome m Scenario.deactivated
     = Returned
         (SuccessResponse "Admin activated successfully"
            (status_view false
               (admin_with_status Scenario.victor "ACTIVE"))) /\
   admin_by_id (after m Scenario.deactivated) "a5"
     = Some (admin_with_status Scenario.victor "ACTIVE") /\
   redis (after m Scenario.deactivated) !! "blacklist:admin:a5" = None).
Proof.
  pose proof (toggleStatus_refusals_and_reactivation env Scenario.is_super
              (Scenario.staffed false) "a3" "a3" AdminService.deactivate) as Hthm; cbv zeta in Hthm.
  destruct Hthm as (Hself & _).
  pose proof (toggleStatus_refusals_and_reactivation env Scenario.is_super
              (Scenario.staffed false) "a4" "a1" AdminService.activate) as Hthm; cbv zeta in Hthm.
  destruct Hthm as (_ & Hdel & _).
  pose proof (toggleStatus_refusals_and_reactivation env Scenario.is_super
              (Scenario.staffed false) "a3" "a1" AdminService.activate) as Hthm; cbv zeta in Hthm.
  destruct Hthm as (_ & _ & Hsame & _).
  pose proof (toggleStatus_refusals_and_reactivation env Scenario.is_super
              Scenario.deactivated "a5" "a1" AdminService.activate) as Hthm; cbv zeta in Hthm.
  destruct Hthm as (_ & _ & _ & _ & Hre).
  assert (Hst : admin_status Scenario.victor <> "ACTIVE") by discriminate.
  destruct (Hre Scenario.victor eq_refl eq_refl Hst)
    as (Ho & Hrow & Hkey & _).
  split; [exact (Hself eq_refl eq_refl)|].
  split; [exact (Hdel Scenario.oscar eq_refl eq_refl)|].
  split; [exact (Hsame Scenario.trent eq_refl eq_refl eq_refl)|].
  split; [exact Ho|]. split; [exact Hrow | exact (Hkey eq_refl)].
Defined.

End FurtherWitnesses.
